(** * Website-testing agent: result normalisation, task life cycle and
      compliance rules

    Shallow embedding of [submissions/agno-hack/api_server.py] (the REST
    service) and [submissions/agno-hack/website_testing_agent.py] (the
    two-phase script), followed by the properties of the normaliser
    ([BrowserExecutor.save_execution_results]), the orchestrator
    ([BrowserExecutor.execute_task]), the task endpoints and the rule-based
    analyser ([ResultsAnalyzer.analyze_results]). *)

From Stdlib Require Import Ascii.
From stdpp Require Import gmap strings list pretty.

Open Scope string_scope.

(** ** Python values as the code observes them *)

Module Py.

(** Outcome of evaluating a Python expression: its value, or an exception
    of class [Exception] (the class every handler of this program
    catches), kept as the text [str(e)] that the handlers store. *)
Inductive outcome (A : Type) : Type :=
| Ok (a : A)
| Raise (msg : string).
Arguments Ok {A} a.
Arguments Raise {A} msg.

Definition bind {A B} (m : outcome A) (k : A -> outcome B) : outcome B :=
  match m with
  | Ok a => k a
  | Raise msg => Raise msg
  end.

(** The history handed to the normaliser is an object of a third-party
    library; the code inspects it by reflection only.  A value is therefore
    described by what each inspection answers:
    - [v_type]: [type(v).__name__];
    - [v_tuple]: the items when [isinstance(v, tuple)];
    - [v_bytes]: [isinstance(v, bytes)];
    - [v_text]: the text when [isinstance(v, str)];
    - [v_truth]: [bool(v)], which a class may make raise;
    - [v_str]: [str(v)], also used when an f-string renders [v];
    - [v_attrs]: the attributes that are set; a name that is missing is an
      [AttributeError], an entry [Raise] is a property raising anything else;
    - [v_iter]: [None] when [v] has no [__iter__]; otherwise the items it
      yields and, if iteration breaks off, the message of the exception
      raised after them;
    - [v_call]: [None] when [v] is not callable; otherwise what calling it
      returns. *)
#[local] Unset Elimination Schemes.
Inductive value : Type := Value {
  v_type : string;
  v_tuple : option (list value);
  v_bytes : bool;
  v_text : option string;
  v_truth : outcome bool;
  v_str : outcome string;
  v_attrs : list (string * outcome value);
  v_iter : option (list value * option string);
  v_call : option (outcome value)
}.
#[local] Set Elimination Schemes.

Fixpoint assoc {A} (name : string) (l : list (string * A)) : option A :=
  match l with
  | [] => None
  | (k, a) :: rest => if String.eqb k name then Some a else assoc name rest
  end.

(** [bool(v)] *)
Definition py_bool (v : value) : outcome bool := v_truth v.

(** [str(v)] *)
Definition py_str (v : value) : outcome string := v_str v.

(** [hasattr(v, name)]: only an [AttributeError] is turned into [False]. *)
Definition py_hasattr (v : value) (name : string) : outcome bool :=
  match assoc name (v_attrs v) with
  | None => Ok false
  | Some (Ok _) => Ok true
  | Some (Raise msg) => Raise msg
  end.

(** [getattr(v, name)], that is [v.name] *)
Definition py_getattr (v : value) (name : string) : outcome value :=
  match assoc name (v_attrs v) with
  | None =>
      Raise ("'" +:+ v_type v +:+ "' object has no attribute '" +:+ name +:+ "'")
  | Some r => r
  end.

(** [v()] with whatever arguments: the model keeps the outcome only. *)
Definition py_call (v : value) : outcome value :=
  match v_call v with
  | None => Raise ("'" +:+ v_type v +:+ "' object is not callable")
  | Some r => r
  end.

(** [list(v)] *)
Definition py_list (v : value) : outcome (list value) :=
  match v_iter v with
  | None => Raise ("'" +:+ v_type v +:+ "' object is not iterable")
  | Some (items, None) => Ok items
  | Some (_, Some msg) => Raise msg
  end.

(** Literals used by the examples: [None], a [str], and the containers
    [bytes], [tuple] and [list], given by their items and by their rendering
    by [str] (which depends on [repr] of the items). *)
Definition py_None : value :=
  Value "NoneType" None false None (Ok false) (Ok "None") [] None None.

Fixpoint chars (s : string) : list string :=
  match s with
  | EmptyString => []
  | String c rest => String c "" :: chars rest
  end.

Definition py_string (s : string) : value :=
  Value "str" None false (Some s)
    (Ok (negb (String.eqb s ""))) (Ok s) []
    (Some ((fun c => Value "str" None false (Some c) (Ok true) (Ok c) [] None None)
             <$> chars s, None))
    None.

Definition py_bytes (items : list value) (repr : string) : value :=
  Value "bytes" None true None
    (Ok (match items with [] => false | _ => true end)) (Ok repr) []
    (Some (items, None)) None.

Definition py_tuple (items : list value) (repr : string) : value :=
  Value "tuple" (Some items) false None
    (Ok (match items with [] => false | _ => true end)) (Ok repr) []
    (Some (items, None)) None.

(** A list, with its rendering by [str]. *)
Definition py_list_of (items : list value) (repr : string) : value :=
  Value "list" None false None
    (Ok (match items with [] => false | _ => true end)) (Ok repr) []
    (Some (items, None)) None.

(** An integer, with its rendering by [str]. *)
Definition py_number (repr : string) (zero : bool) : value :=
  Value "int" None false None (Ok (negb zero)) (Ok repr) [] None None.

(** An instance of some class that only carries the listed attributes. *)
Definition py_object (cls : string) (attrs : list (string * outcome value)) : value :=
  Value cls None false None (Ok true) (Ok ("<" +:+ cls +:+ " object>")) attrs None None.

(** *** Text *)

(** [s.startswith(p)] *)
Definition startswith (p s : string) : bool := String.prefix p s.

(** [needle in hay] *)
Fixpoint contains (needle hay : string) : bool :=
  String.prefix needle hay ||
  match hay with
  | EmptyString => false
  | String _ rest => contains needle rest
  end.

Definition lower_ascii (c : Ascii.ascii) : Ascii.ascii :=
  let n := Ascii.nat_of_ascii c in
  if (65 <=? n)%nat && (n <=? 90)%nat then Ascii.ascii_of_nat (n + 32) else c.

(** [s.lower()].  Texts are byte strings, on which the search for a
    substring agrees with Python's search on code points; the letters A to
    Z are lowered, which is what [lower] does to ASCII text. *)
Fixpoint lower (s : string) : string :=
  match s with
  | EmptyString => EmptyString
  | String c rest => String (lower_ascii c) (lower rest)
  end.

(** [s.split(',', 1)[1]] when [s] has a comma *)
Fixpoint after_comma (s : string) : option string :=
  match s with
  | EmptyString => None
  | String c rest => if Ascii.eqb c ","%char then Some rest else after_comma rest
  end.

End Py.

(** stdpp's monad notations ([x ← m; k], [m ;; k]) for [outcome]. *)
#[global] Instance outcome_ret : MRet Py.outcome := @Py.Ok.
#[global] Instance outcome_bind : MBind Py.outcome := fun A B k m => Py.bind m k.

(** ** Computations that mutate an object and may raise

    [save_execution_results] fills the dictionary [results] in place while
    it walks the history, so what was stored before an exception is still
    there when the handler runs.  [M S A] threads the mutated object [S]
    and keeps it on both outcomes. *)
Definition M (S A : Type) : Type := S -> S * Py.outcome A.

Definition ret {S A} (a : A) : M S A := fun s => (s, Py.Ok a).

Definition bindM {S A B} (m : M S A) (k : A -> M S B) : M S B :=
  fun s =>
    match m s with
    | (s', Py.Ok a) => k a s'
    | (s', Py.Raise msg) => (s', Py.Raise msg)
    end.

#[global] Instance M_ret {S} : MRet (M S) := @ret S.
#[global] Instance M_bind {S} : MBind (M S) := fun A B k m => bindM m k.

Definition lift {S A} (o : Py.outcome A) : M S A := fun s => (s, o).

Definition modify {S} (f : S -> S) : M S unit := fun s => (f s, Py.Ok tt).

(** [try: body / except Exception as e: handler(str(e))] *)
Definition try_except {S A} (body : M S A) (handler : string -> M S A) : M S A :=
  fun s =>
    match body s with
    | (s', Py.Ok a) => (s', Py.Ok a)
    | (s', Py.Raise msg) => handler msg s'
    end.

(** ** The REST service, [api_server.py] *)

Module ApiServer.
Import Py.

(** What the normaliser reads from outside the program: the clock and the
    outcome of each file operation ([None]: it succeeded, [Some msg]: it
    raised an exception with that message). *)
Record env := {
  stamp : string;                        (* datetime.now().strftime("%Y%m%d_%H%M%S") *)
  now_iso : nat -> string;               (* datetime.now().isoformat(), read for step n (0: the header) *)
  write_error : string -> option string; (* open(path, 'wb') and f.write(...) *)
  path_exists : string -> bool;          (* os.path.exists *)
  copy_error : string -> option string;  (* shutil.copy2(src, ...) *)
  b64_error : string -> option string;   (* base64.b64decode(data) *)
  dump_error : option string             (* open(log_file, 'w') and json.dump(results, ...) *)
}.

Definition effect (err : option string) : outcome unit :=
  match err with
  | None => Ok tt
  | Some msg => Raise msg
  end.

Record screenshot_instruction := {
  step_description : option string;
  filename : option string
}.

Record task_details := {
  target_url : string;
  task_description : string;
  screenshot_instructions : list screenshot_instruction
}.

(** One entry of [results["execution_steps"]].  The two fields that only
    echo [type(step)] and [dir(step)] are left out. *)
Record step_info := {
  step_number : nat;
  action : string;
  result : string;
  step_timestamp : value;
  screenshot : option string;
  screenshot_url : option string
}.

Record conversation_entry := {
  step : nat;
  model_output : string;
  conversation_timestamp : value
}.

(** The dictionary [results]; [debug_info] keeps ["history_length"]. *)
Record results := {
  task_id : string;
  timestamp : string;
  details : task_details;
  execution_steps : list step_info;
  screenshots : list string;
  screenshot_urls : list string;
  success : bool;
  error : option string;
  full_conversation : list conversation_entry;
  debug_info : option nat;
  log_file : option string;
  extra_files : list (string * string)
}.

Definition set_error (err : option string) (r : results) : results :=
  {| task_id := task_id r; timestamp := timestamp r; details := details r;
     execution_steps := execution_steps r; screenshots := screenshots r;
     screenshot_urls := screenshot_urls r; success := success r;
     error := err; full_conversation := full_conversation r;
     debug_info := debug_info r; log_file := log_file r;
     extra_files := extra_files r |}.

Definition set_success (b : bool) (r : results) : results :=
  {| task_id := task_id r; timestamp := timestamp r; details := details r;
     execution_steps := execution_steps r; screenshots := screenshots r;
     screenshot_urls := screenshot_urls r; success := b;
     error := error r; full_conversation := full_conversation r;
     debug_info := debug_info r; log_file := log_file r;
     extra_files := extra_files r |}.

Definition set_debug_info (n : nat) (r : results) : results :=
  {| task_id := task_id r; timestamp := timestamp r; details := details r;
     execution_steps := execution_steps r; screenshots := screenshots r;
     screenshot_urls := screenshot_urls r; success := success r;
     error := error r; full_conversation := full_conversation r;
     debug_info := Some n; log_file := log_file r;
     extra_files := extra_files r |}.

Definition set_log_file (f : string) (r : results) : results :=
  {| task_id := task_id r; timestamp := timestamp r; details := details r;
     execution_steps := execution_steps r; screenshots := screenshots r;
     screenshot_urls := screenshot_urls r; success := success r;
     error := error r; full_conversation := full_conversation r;
     debug_info := debug_info r; log_file := Some f;
     extra_files := extra_files r |}.

(** [results["screenshots"].append(path); results["screenshot_urls"].append(url)] *)
Definition add_screenshot (path url : string) (r : results) : results :=
  {| task_id := task_id r; timestamp := timestamp r; details := details r;
     execution_steps := execution_steps r; screenshots := screenshots r ++ [path];
     screenshot_urls := screenshot_urls r ++ [url]; success := success r;
     error := error r; full_conversation := full_conversation r;
     debug_info := debug_info r; log_file := log_file r;
     extra_files := extra_files r |}.

(** [results["full_conversation"].append(...)] *)
Definition add_conversation (c : conversation_entry) (r : results) : results :=
  {| task_id := task_id r; timestamp := timestamp r; details := details r;
     execution_steps := execution_steps r; screenshots := screenshots r;
     screenshot_urls := screenshot_urls r; success := success r;
     error := error r; full_conversation := full_conversation r ++ [c];
     debug_info := debug_info r; log_file := log_file r;
     extra_files := extra_files r |}.

(** [results["execution_steps"].append(step_info)] *)
Definition add_step (si : step_info) (r : results) : results :=
  {| task_id := task_id r; timestamp := timestamp r; details := details r;
     execution_steps := execution_steps r ++ [si]; screenshots := screenshots r;
     screenshot_urls := screenshot_urls r; success := success r;
     error := error r; full_conversation := full_conversation r;
     debug_info := debug_info r; log_file := log_file r;
     extra_files := extra_files r |}.

(** [results[key] = file] for the log files the orchestrator adds. *)
Definition add_file (key file : string) (r : results) : results :=
  {| task_id := task_id r; timestamp := timestamp r; details := details r;
     execution_steps := execution_steps r; screenshots := screenshots r;
     screenshot_urls := screenshot_urls r; success := success r;
     error := error r; full_conversation := full_conversation r;
     debug_info := debug_info r; log_file := log_file r;
     extra_files := extra_files r ++ [(key, file)] |}.

Definition with_screenshot (path url : string) (si : step_info) : step_info :=
  {| step_number := step_number si; action := action si; result := result si;
     step_timestamp := step_timestamp si;
     screenshot := Some path; screenshot_url := Some url |}.

Definition logs_dir : string := "operation_logs".
Definition screenshots_dir : string := "operation_logs/screenshots".

Definition action_attrs : list string :=
  ["model_output"; "action"; "input"; "query"; "tool_calls"].
Definition result_attrs : list string :=
  ["result"; "output"; "response"; "content"].
Definition timestamp_attrs : list string :=
  ["timestamp"; "time"; "created_at"].
Definition screenshot_attrs : list string :=
  ["screenshot"; "image"; "screen_capture"; "page_screenshot"].

(** [f"{task_id}_step_{i+1}_{timestamp}.png"] *)
Definition screenshot_filename (e : env) (tid : string) (i : nat) : string :=
  tid +:+ "_step_" +:+ pretty (i + 1)%nat +:+ "_" +:+ stamp e +:+ ".png".

Definition screenshot_path (name : string) : string :=
  screenshots_dir +:+ "/" +:+ name.

Definition screenshot_url_of (name : string) : string :=
  "/screenshots/" +:+ name.

(** *** Extraction of one step *)

(** The probing loop shared by the action, result and timestamp fields:
    [for attr in names: if hasattr(step, attr): value = getattr(step, attr);
    if value: ...; break].  It stops at the first attribute that is set and
    truthy. *)
Fixpoint probe (step : value) (names : list string) : outcome (option value) :=
  match names with
  | [] => Ok None
  | attr :: rest =>
      has ← py_hasattr step attr;
      if has : bool then
        v ← py_getattr step attr;
        t ← py_bool v;
        if t : bool then Ok (Some v) else probe step rest
      else probe step rest
  end.

(** [step_info[key] = str(value)] for the first hit, else the sentinel (the
    print that follows renders [str(value)] once more). *)
Definition extract_text (step : value) (names : list string) : outcome string :=
  hit ← probe step names;
  match hit with
  | None => Ok "N/A"
  | Some v => py_str v
  end.

(** The timestamp: [value.isoformat()] when the hit has that method,
    [str(value)] otherwise; the print that follows renders the stored
    value. *)
Definition extract_timestamp (step : value) (now : string) : outcome value :=
  hit ← probe step timestamp_attrs;
  match hit with
  | None => Ok (py_string now)
  | Some v =>
      has ← py_hasattr v "isoformat";
      ts ← (if has : bool
            then f ← py_getattr v "isoformat"; py_call f
            else s ← py_str v; Ok (py_string s));
      _ ← py_str ts;
      Ok ts
  end.

(** The body of the inner [try] of the attribute branch: write, save, decode
    or copy the payload, depending on its type. *)
Definition store_screenshot (e : env) (shot : value) (path : string) : outcome unit :=
  if v_bytes shot then effect (write_error e path)
  else
    has ← py_hasattr shot "save";
    if has : bool then
      f ← py_getattr shot "save"; _ ← py_call f; Ok tt
    else
      match v_text shot with
      | Some s =>
          if startswith "http" s || startswith "/" s || startswith "data:" s then
            if startswith "data:image" s then
              match after_comma s with
              | None => Raise "not enough values to unpack (expected 2, got 1)"
              | Some data =>
                  _ ← effect (write_error e path); effect (b64_error e data)
              end
            else if startswith "/" s && path_exists e s then
              effect (copy_error e s)
            else Ok tt
          else Ok tt
      | None => Ok tt
      end.

(** The body of the inner [try] of the tuple branch. *)
Definition store_tuple_screenshot (e : env) (shot : value) (path : string) : outcome unit :=
  if v_bytes shot then effect (write_error e path)
  else
    has ← py_hasattr shot "save";
    if has : bool then
      f ← py_getattr shot "save"; _ ← py_call f; Ok tt
    else Ok tt.

(** [for attr in screenshot_attrs: ...]: an exception inside the inner [try]
    is printed and the loop goes on with the next name; the first payload
    that is stored ends the loop. *)
Fixpoint screenshot_loop (e : env) (tid : string) (i : nat) (step : value)
    (names : list string) (si : step_info) : M results step_info :=
  match names with
  | [] => mret si
  | attr :: rest =>
      has ← lift (py_hasattr step attr);
      if has : bool then
        shot ← lift (py_getattr step attr);
        t ← lift (py_bool shot);
        if t : bool then
          let name := screenshot_filename e tid i in
          match store_screenshot e shot (screenshot_path name) with
          | Ok _ =>
              modify (add_screenshot (screenshot_path name) (screenshot_url_of name));;
              mret (with_screenshot (screenshot_path name) (screenshot_url_of name) si)
          | Raise _ => screenshot_loop e tid i step rest si
          end
        else screenshot_loop e tid i step rest si
      else screenshot_loop e tid i step rest si
  end.

(** [for j, item in enumerate(step): ...] of the tuple branch; the debug
    print at the head of the body renders [str(item)]. *)
Fixpoint tuple_loop (e : env) (tid : string) (i : nat)
    (items : list value) (si : step_info) : M results step_info :=
  match items with
  | [] => mret si
  | item :: rest =>
      lift (py_str item);;
      has ← lift (py_hasattr item "screenshot");
      if has : bool then
        shot ← lift (py_getattr item "screenshot");
        t ← lift (py_bool shot);
        if t : bool then
          let name := screenshot_filename e tid i in
          match store_tuple_screenshot e shot (screenshot_path name) with
          | Ok _ =>
              modify (add_screenshot (screenshot_path name) (screenshot_url_of name));;
              mret (with_screenshot (screenshot_path name) (screenshot_url_of name) si)
          | Raise _ => tuple_loop e tid i rest si
          end
        else tuple_loop e tid i rest si
      else tuple_loop e tid i rest si
  end.

(** [str(x) if x else "N/A"] *)
Definition str_or_na (x : value) : outcome string :=
  t ← py_bool x;
  if t : bool then py_str x else Ok "N/A".

(** The head of the tuple branch: with two items or more, the first two give
    the action and the result, and the two prints render them with [str]
    whatever their truth value. *)
Definition tuple_head (items : list value) (si : step_info) : outcome step_info :=
  match items with
  | x0 :: x1 :: _ =>
      a ← str_or_na x0;
      r ← str_or_na x1;
      _ ← py_str x0;
      _ ← py_str x1;
      Ok {| step_number := step_number si; action := a; result := r;
            step_timestamp := step_timestamp si;
            screenshot := screenshot si; screenshot_url := screenshot_url si |}
  | _ => Ok si
  end.

(** The body of [for i, step in enumerate(history_list)]. *)
Definition process_step (e : env) (tid : string) (i : nat) (st : value) : M results unit :=
  let si0 := {| step_number := i + 1; action := "N/A"; result := "N/A";
                step_timestamp := py_string (now_iso e (i + 1));
                screenshot := None; screenshot_url := None |} in
  si ← match v_tuple st with
       | Some items =>
           si1 ← lift (tuple_head items si0);
           tuple_loop e tid i items si1
       | None =>
           a ← lift (extract_text st action_attrs);
           r ← lift (extract_text st result_attrs);
           ts ← lift (extract_timestamp st (now_iso e (i + 1)));
           screenshot_loop e tid i st screenshot_attrs
             {| step_number := i + 1; action := a; result := r;
                step_timestamp := ts;
                screenshot := None; screenshot_url := None |}
       end;
  (if String.eqb (action si) "N/A" then mret tt
   else modify (add_conversation
                  {| step := i + 1; model_output := action si;
                     conversation_timestamp := step_timestamp si |}));;
  modify (add_step si).

Fixpoint process_steps (e : env) (tid : string) (i : nat) (steps : list value) : M results unit :=
  match steps with
  | [] => mret tt
  | st :: rest => process_step e tid i st;; process_steps e tid (S i) rest
  end.

(** *** [BrowserExecutor.save_execution_results] *)

(** [list(history)] when the history has [__iter__], else
    [[history] if history else []]. *)
Definition history_list_of (history : value) : outcome (list value) :=
  match v_iter history with
  | Some _ => py_list history
  | None =>
      t ← py_bool history;
      Ok (if t : bool then [history] else [])
  end.

(** The body of the first [try].  The entry of [debug_info] that reads
    [dir(history) if history else []] tests the truth value of the history
    in every case. *)
Definition process_history (e : env) (history : value) (tid : string) : M results unit :=
  history_list ← lift (history_list_of history);
  lift (py_bool history);;
  modify (set_debug_info (length history_list));;
  match history_list with
  | [] => mret tt
  | _ :: _ =>
      process_steps e tid 0 history_list;;
      modify (set_success true)
  end.

Definition log_file_of (e : env) (tid : string) : string :=
  logs_dir +:+ "/browser_execution_" +:+ tid +:+ "_" +:+ stamp e +:+ ".json".

Definition initial_results (e : env) (td : task_details) (tid : string) : results :=
  {| task_id := tid; timestamp := now_iso e 0; details := td;
     execution_steps := []; screenshots := []; screenshot_urls := [];
     success := false; error := None; full_conversation := [];
     debug_info := None; log_file := None; extra_files := [] |}.

(** The two [try] blocks in sequence. *)
Definition save_body (e : env) (history : value) (tid : string) : M results unit :=
  try_except (process_history e history tid)
    (fun msg => modify (set_error (Some msg)));;
  try_except
    (lift (effect (dump_error e));; modify (set_log_file (log_file_of e tid)))
    (fun msg => modify (set_error (Some ("Error saving results: " +:+ msg)))).

(** The function returns the dictionary it has filled, unless an exception
    leaves one of its blocks. *)
Definition save_execution_results (e : env) (history : value)
    (td : task_details) (tid : string) : outcome results :=
  match save_body e history tid (initial_results e td tid) with
  | (r, Ok _) => Ok r
  | (_, Raise msg) => Raise msg
  end.

(** *** The task store and [BrowserExecutor.execute_task] *)

(** The four literals ever assigned to a record's ["status"]. *)
Inductive status : Type := pending | running | completed | failed.

Definition status_text (s : status) : string :=
  match s with
  | pending => "pending"
  | running => "running"
  | completed => "completed"
  | failed => "failed"
  end.

(** One value of the dictionary [task_storage]; a key that has not been
    assigned yet is [None]. *)
Record task_info := {
  info_status : status;
  progress : option string;
  start_time : option string;
  end_time : option string;
  instructions : task_details;
  info_error : option string;
  info_results : option results;
  analysis : option string
}.

Definition with_status (s : status) (ti : task_info) : task_info :=
  {| info_status := s; progress := progress ti; start_time := start_time ti;
     end_time := end_time ti; instructions := instructions ti;
     info_error := info_error ti; info_results := info_results ti;
     analysis := analysis ti |}.

Definition with_progress (p : string) (ti : task_info) : task_info :=
  {| info_status := info_status ti; progress := Some p; start_time := start_time ti;
     end_time := end_time ti; instructions := instructions ti;
     info_error := info_error ti; info_results := info_results ti;
     analysis := analysis ti |}.

Definition with_end_time (t : string) (ti : task_info) : task_info :=
  {| info_status := info_status ti; progress := progress ti; start_time := start_time ti;
     end_time := Some t; instructions := instructions ti;
     info_error := info_error ti; info_results := info_results ti;
     analysis := analysis ti |}.

Definition with_error (msg : string) (ti : task_info) : task_info :=
  {| info_status := info_status ti; progress := progress ti; start_time := start_time ti;
     end_time := end_time ti; instructions := instructions ti;
     info_error := Some msg; info_results := info_results ti;
     analysis := analysis ti |}.

Definition with_results (r : results) (ti : task_info) : task_info :=
  {| info_status := info_status ti; progress := progress ti; start_time := start_time ti;
     end_time := end_time ti; instructions := instructions ti;
     info_error := info_error ti; info_results := Some r;
     analysis := analysis ti |}.

Definition with_analysis (a : string) (ti : task_info) : task_info :=
  {| info_status := info_status ti; progress := progress ti; start_time := start_time ti;
     end_time := end_time ti; instructions := instructions ti;
     info_error := info_error ti; info_results := info_results ti;
     analysis := Some a |}.

(** The process state the orchestrator acts on: the global [task_storage],
    the number of calls of [browser.close()] made so far, and, as a record
    of what happened, every assignment to a ["status"] in program order. *)
Record server := {
  task_storage : gmap string task_info;
  close_calls : nat;
  status_writes : list (string * status)
}.

(** What one run of a task meets outside the program. *)
Record world := {
  api_key : bool;                   (* GEMINI_API_KEY is set *)
  id_stamp : string;                (* strftime('%Y%m%d_%H%M%S_%f') at submission *)
  submit_iso : string;
  setup_stamp : string;
  setup_error : option string;      (* setup_detailed_logging, capture_stdout_stderr *)
  create_error : option string;     (* the constructors called by create_browser_agent *)
  initial_shot : option (string * string);  (* capture_manual_screenshot(..., "initial") *)
  final_shot : option (string * string);    (* capture_manual_screenshot(..., "final") *)
  run : outcome value;              (* await browser_agent.run() *)
  close_error : option string;      (* await browser_agent.browser.close() *)
  end_iso : string;
  files : env                       (* the clock and files seen by the normaliser *)
}.

(** [task_storage[task_id][key] = ...]: a [KeyError] when the id is unknown. *)
Definition update (tid : string) (f : task_info -> task_info) : M server unit :=
  fun sv =>
    match task_storage sv !! tid with
    | None => (sv, Raise ("'" +:+ tid +:+ "'"))
    | Some ti =>
        ({| task_storage := <[tid := f ti]> (task_storage sv);
            close_calls := close_calls sv;
            status_writes := status_writes sv |}, Ok tt)
    end.

(** [task_storage[task_id]["status"] = s] *)
Definition set_status (tid : string) (s : status) : M server unit :=
  fun sv =>
    match task_storage sv !! tid with
    | None => (sv, Raise ("'" +:+ tid +:+ "'"))
    | Some ti =>
        ({| task_storage := <[tid := with_status s ti]> (task_storage sv);
            close_calls := close_calls sv;
            status_writes := status_writes sv ++ [(tid, s)] |}, Ok tt)
    end.

(** [await browser_agent.browser.close()] *)
Definition close_browser (w : world) : M server unit :=
  fun sv =>
    ({| task_storage := task_storage sv;
        close_calls := S (close_calls sv);
        status_writes := status_writes sv |}, effect (close_error w)).

(** [create_browser_agent] wraps whatever goes wrong in a new exception. *)
Definition create_browser_agent (w : world) : outcome unit :=
  if api_key w then
    match create_error w with
    | None => Ok tt
    | Some msg => Raise ("Error creating browser agent: " +:+ msg)
    end
  else Raise "Error creating browser agent: GEMINI_API_KEY not configured".

(** [if path: results["screenshots"].append(path); results["screenshot_urls"].append(url)] *)
Definition add_manual (shot : option (string * string)) (r : results) : results :=
  match shot with
  | Some (path, url) => add_screenshot path url r
  | None => r
  end.

Definition log_files (w : world) (tid : string) : list (string * string) :=
  [("detailed_log_file",
    logs_dir +:+ "/detailed_agent_log_" +:+ tid +:+ "_" +:+ setup_stamp w +:+ ".txt");
   ("stdout_log_file",
    logs_dir +:+ "/agent_stdout_" +:+ tid +:+ "_" +:+ setup_stamp w +:+ ".txt");
   ("stderr_log_file",
    logs_dir +:+ "/agent_stderr_" +:+ tid +:+ "_" +:+ setup_stamp w +:+ ".txt")].

Definition thoughts_file (tid : string) : list (string * string) :=
  [("agent_thoughts_file", logs_dir +:+ "/agent_thoughts_" +:+ tid +:+ ".txt")].

(** The dictionary built by the [except] block; [agent_created] is
    ['browser_agent' in locals()]. *)
Definition error_result (w : world) (td : task_details) (tid msg : string)
    (agent_created : bool) : results :=
  {| task_id := tid; timestamp := end_iso w; details := td;
     execution_steps := []; screenshots := []; screenshot_urls := [];
     success := false; error := Some msg; full_conversation := [];
     debug_info := None; log_file := None;
     extra_files := log_files w tid ++ (if agent_created then thoughts_file tid else []) |}.

(** The [try] block.  The stored dictionary is the one that is returned, so
    the log files added after the assignment are in the store as well.  The
    statements that follow the assignment of "completed" fill dictionaries
    and write to the log; none of them raises. *)
Definition run_task (w : world) (td : task_details) (tid : string) : M server results :=
  update tid (with_progress "Initializing browser agent...");;
  lift (create_browser_agent w);;
  update tid (with_progress "Executing automation task...");;
  history ← lift (run w);
  (* logger.info(f"History length: {len(list(history)) if history else 0}") *)
  t ← lift (py_bool history);
  (if t : bool then lift (py_list history);; mret tt else mret tt);;
  update tid (with_progress "Saving results and screenshots...");;
  r ← lift (save_execution_results (files w) history td tid);
  let r := add_manual (final_shot w) (add_manual (initial_shot w) r) in
  close_browser w;;
  set_status tid completed;;
  update tid (with_end_time (end_iso w));;
  let r := fold_left (fun acc kf => add_file kf.1 kf.2 acc)
             (log_files w tid ++ thoughts_file tid) r in
  update tid (with_results r);;
  mret r.

(** The [except] block. *)
Definition fail_task (w : world) (td : task_details) (tid : string) (msg : string)
    : M server results :=
  let r := error_result w td tid msg
             (match create_browser_agent w with Ok _ => true | Raise _ => false end) in
  set_status tid failed;;
  update tid (with_end_time (end_iso w));;
  update tid (with_error msg);;
  update tid (with_results r);;
  mret r.

(** [BrowserExecutor.execute_task].  The [finally] block restores the
    standard streams and closes the log handlers; it touches neither the
    store nor the browser. *)
Definition execute_task (w : world) (td : task_details) (tid : string) : M server results :=
  set_status tid running;;
  update tid (with_progress "Setting up logging...");;
  lift (effect (setup_error w));;
  try_except (run_task w td tid) (fail_task w td tid).

(** *** The endpoints *)

(** What an endpoint answers: a body, or [raise HTTPException(status_code, detail)]. *)
Inductive http (A : Type) : Type :=
| Reply (body : A)
| HTTPException (status_code : nat) (detail : string).
Arguments Reply {A} body.
Arguments HTTPException {A} status_code detail.

(** [POST /execute-test]: creates the record and queues the run as a
    background task; the answer carries the new id. *)
Definition execute_test (w : world) (td : task_details) (sv : server) : server * http string :=
  if api_key w then
    let tid := "task_" +:+ id_stamp w in
    ({| task_storage :=
          <[tid := {| info_status := pending; progress := Some "Task queued for execution";
                      start_time := Some (submit_iso w); end_time := None;
                      instructions := td; info_error := None;
                      info_results := None; analysis := None |}]> (task_storage sv);
        close_calls := close_calls sv;
        status_writes := status_writes sv ++ [(tid, pending)] |},
     Reply tid)
  else (sv, HTTPException 500 "GEMINI_API_KEY not configured").

(** A submission followed by the queued run of [execute_task]. *)
Definition submit_and_run (w : world) (td : task_details) (sv : server)
    : server * http string :=
  match execute_test w td sv with
  | (sv1, Reply tid) => ((execute_task w td tid sv1).1, Reply tid)
  | (sv1, HTTPException c d) => (sv1, HTTPException c d)
  end.

(** [GET /task-status/{task_id}] *)
Definition get_task_status (sv : server) (tid : string) : http task_info :=
  match task_storage sv !! tid with
  | None => HTTPException 404 "Task not found"
  | Some ti => Reply ti
  end.

(** [GET /task-results/{task_id}]; the body is [task_info.get("results", {})]. *)
Definition get_task_results (sv : server) (tid : string) : http (option results) :=
  match task_storage sv !! tid with
  | None => HTTPException 404 "Task not found"
  | Some ti =>
      match info_status ti with
      | completed | failed => Reply (info_results ti)
      | s => HTTPException 400 ("Task is still " +:+ status_text s)
      end
  end.

(** [POST /analyze-results/{task_id}]; [agent_run] is the outcome of the
    body of the [try] block up to [response.content]: the text of the
    analysis, or the exception raised on the way. *)
Definition analyze_results (w : world) (agent_run : outcome string)
    (sv : server) (tid : string) : server * http string :=
  match task_storage sv !! tid with
  | None => (sv, HTTPException 404 "Task not found")
  | Some ti =>
      match info_status ti with
      | completed =>
          if api_key w then
            match agent_run with
            | Ok content =>
                ({| task_storage := <[tid := with_analysis content ti]> (task_storage sv);
                    close_calls := close_calls sv;
                    status_writes := status_writes sv |}, Reply content)
            | Raise msg => (sv, HTTPException 500 ("Analysis failed: " +:+ msg))
            end
          else (sv, HTTPException 500 "GEMINI_API_KEY not configured")
      | _ => (sv, HTTPException 400 "Task must be completed before analysis")
      end
  end.

(** *** [ResultsAnalyzer.analyze_results] *)

Module ResultsAnalyzer.

(** The two dictionaries the tool receives, with the keys it reads; [None]
    is a key that is absent, for which [.get] supplies the default. *)
Record step_dict := { step_action : option string }.

Record execution_results := {
  res_task_id : option string;
  res_success : option bool;
  res_execution_steps : option (list step_dict);
  res_screenshots : option (list string);
  res_error : option string;
  res_full_conversation : option nat
}.

Record original_instructions := {
  ins_target_url : option string;
  ins_task_description : option string;
  ins_screenshot_instructions : option (list screenshot_instruction)
}.

Record screenshots_check := {
  required : nat;
  captured : nat;
  meets_requirements : bool
}.

Record compliance := {
  target_url_accessed : bool;
  screenshots_captured : screenshots_check
}.

Record review_report := {
  report_task_id : string;
  summary_success : bool;
  steps_completed : nat;
  summary_screenshots : nat;
  summary_error : option string;
  conversation_length : nat;
  screenshot_analysis : string;
  recommendations : list string;
  compliance_check : compliance;
  review_file : option string;
  report_error : option string
}.

(** [any("navigate" in step.get("action", "").lower() or
         target_url in step.get("action", "") for step in execution_steps)] *)
Definition url_accessed (target : string) (steps : list step_dict) : bool :=
  existsb (fun st =>
             let a := default "" (step_action st) in
             contains "navigate" (lower a) || contains target a) steps.

Definition recommend (ok accessed : bool) (target : string)
    (required_n captured_n : nat) : list string :=
  (if negb ok then ["Task execution failed - check error logs"] else []) ++
  (if negb accessed
   then ["Target URL " +:+ target +:+ " may not have been properly accessed"] else []) ++
  (if negb (required_n =? 0)%nat && (captured_n <? required_n)%nat
   then ["Not all required screenshots were captured"] else []) ++
  (if ok && accessed
   then "Task appears to have completed successfully" ::
        (if negb (captured_n =? 0)%nat
         then ["Successfully captured " +:+ pretty captured_n +:+ " screenshots"]
         else [])
   else []).

(** [review_write] is the outcome of writing the report file. *)
Definition analyze_results (stamp_now : string) (review_write : option string)
    (er : execution_results) (oi : original_instructions) : review_report :=
  let tid := default "unknown" (res_task_id er) in
  let ok := default false (res_success er) in
  let execution_steps := default [] (res_execution_steps er) in
  let target := default "" (ins_target_url oi) in
  let accessed := url_accessed target execution_steps in
  let required_screenshots := default [] (ins_screenshot_instructions oi) in
  let captured_screenshots := default [] (res_screenshots er) in
  let file := logs_dir +:+ "/review_report_" +:+ tid +:+ "_" +:+ stamp_now +:+ ".json" in
  {| report_task_id := tid;
     summary_success := ok;
     steps_completed := length execution_steps;
     summary_screenshots := length captured_screenshots;
     summary_error := res_error er;
     conversation_length := default 0%nat (res_full_conversation er);
     screenshot_analysis :=
       match captured_screenshots with
       | [] => "No screenshots captured"
       | _ => "Screenshots captured at key moments"
       end;
     recommendations :=
       recommend ok accessed target
         (length required_screenshots) (length captured_screenshots);
     compliance_check :=
       {| target_url_accessed := accessed;
          screenshots_captured :=
            {| required := length required_screenshots;
               captured := length captured_screenshots;
               meets_requirements :=
                 match required_screenshots with
                 | [] => true
                 | _ => (length required_screenshots <=? length captured_screenshots)%nat
                 end |} |};
     review_file := match review_write with None => Some file | Some _ => None end;
     report_error :=
       match review_write with
       | None => None
       | Some msg => Some ("Error saving review report: " +:+ msg)
       end |}.

(** The stored result of a task, as the dictionary the tool reads. *)
Definition of_results (r : results) : execution_results :=
  {| res_task_id := Some (task_id r);
     res_success := Some (success r);
     res_execution_steps :=
       Some ((fun si => {| step_action := Some (action si) |}) <$> execution_steps r);
     res_screenshots := Some (screenshots r);
     res_error := error r;
     res_full_conversation := Some (length (full_conversation r)) |}.

End ResultsAnalyzer.

End ApiServer.

(** ** The two-phase script, [website_testing_agent.py] *)

Module Script.
Import Py.

(** The clock and the file operations, as in the service. *)
Record env := {
  stamp : string;
  now_iso : nat -> string;
  write_error : string -> option string;
  dump_error : option string
}.

Definition effect (err : option string) : outcome unit :=
  match err with
  | None => Ok tt
  | Some msg => Raise msg
  end.

Record step_info := {
  step_number : nat;
  action : string;
  result : string;
  step_timestamp : value;
  screenshot : option string
}.

Record results := {
  timestamp : string;
  details : ApiServer.task_details;
  execution_steps : list step_info;
  screenshots : list string;
  success : bool;
  error : option string;
  log_file : option string
}.

Definition set_error (err : option string) (r : results) : results :=
  {| timestamp := timestamp r; details := details r;
     execution_steps := execution_steps r; screenshots := screenshots r;
     success := success r; error := err; log_file := log_file r |}.

Definition set_success (b : bool) (r : results) : results :=
  {| timestamp := timestamp r; details := details r;
     execution_steps := execution_steps r; screenshots := screenshots r;
     success := b; error := error r; log_file := log_file r |}.

Definition set_log_file (f : string) (r : results) : results :=
  {| timestamp := timestamp r; details := details r;
     execution_steps := execution_steps r; screenshots := screenshots r;
     success := success r; error := error r; log_file := Some f |}.

Definition add_screenshot (path : string) (r : results) : results :=
  {| timestamp := timestamp r; details := details r;
     execution_steps := execution_steps r; screenshots := screenshots r ++ [path];
     success := success r; error := error r; log_file := log_file r |}.

Definition add_step (si : step_info) (r : results) : results :=
  {| timestamp := timestamp r; details := details r;
     execution_steps := execution_steps r ++ [si]; screenshots := screenshots r;
     success := success r; error := error r; log_file := log_file r |}.

(** [str(step.name) if hasattr(step, name) else "N/A"] *)
Definition attr_text (st : value) (name : string) : outcome string :=
  has ← py_hasattr st name;
  if has : bool then v ← py_getattr st name; py_str v else Ok "N/A".

(** [step.timestamp.isoformat() if hasattr(step, 'timestamp') else datetime.now().isoformat()] *)
Definition attr_timestamp (st : value) (now : string) : outcome value :=
  has ← py_hasattr st "timestamp";
  if has : bool then
    v ← py_getattr st "timestamp";
    f ← py_getattr v "isoformat";
    py_call f
  else Ok (py_string now).

(** The body of the inner [try]: bytes are written, anything else is asked
    to [save] itself. *)
Definition store_screenshot (e : env) (shot : value) (path : string) : outcome unit :=
  if v_bytes shot then effect (write_error e path)
  else f ← py_getattr shot "save"; _ ← py_call f; Ok tt.

Definition screenshot_path (e : env) (i : nat) : string :=
  "operation_logs/screenshots/step_" +:+ pretty (i + 1)%nat +:+ "_" +:+ stamp e +:+ ".png".

(** The body of [for i, step in enumerate(history)]. *)
Definition process_step (e : env) (i : nat) (st : value) : M results unit :=
  a ← lift (attr_text st "model_output");
  r ← lift (attr_text st "result");
  ts ← lift (attr_timestamp st (now_iso e (i + 1)));
  let si := {| step_number := i + 1; action := a; result := r;
               step_timestamp := ts; screenshot := None |} in
  has ← lift (py_hasattr st "screenshot");
  si ← (if has : bool then
          shot ← lift (py_getattr st "screenshot");
          t ← lift (py_bool shot);
          if t : bool then
            match store_screenshot e shot (screenshot_path e i) with
            | Ok _ =>
                modify (add_screenshot (screenshot_path e i));;
                mret {| step_number := i + 1; action := a; result := r;
                        step_timestamp := ts;
                        screenshot := Some (screenshot_path e i) |}
            | Raise _ => mret si
            end
          else mret si
        else mret si);
  modify (add_step si).

Fixpoint process_steps (e : env) (i : nat) (steps : list value) : M results unit :=
  match steps with
  | [] => mret tt
  | st :: rest => process_step e i st;; process_steps e (S i) rest
  end.

(** The body of the first [try]: the loop consumes the items the history
    yields, and an iterator that breaks off raises after them. *)
Definition process_history (e : env) (history : value) : M results unit :=
  t ← lift (py_bool history);
  if t : bool then
    match v_iter history with
    | None => lift (Raise ("'" +:+ v_type history +:+ "' object is not iterable"))
    | Some (items, stop) =>
        process_steps e 0 items;;
        lift (effect stop);;
        modify (set_success true)
    end
  else mret tt.

Definition log_file_of (e : env) : string :=
  "operation_logs/browser_execution_" +:+ stamp e +:+ ".json".

Definition initial_results (e : env) (td : ApiServer.task_details) : results :=
  {| timestamp := now_iso e 0; details := td; execution_steps := [];
     screenshots := []; success := false; error := None; log_file := None |}.

(** The two [try] blocks; a failure of the second is printed only. *)
Definition save_body (e : env) (history : value) : M results unit :=
  try_except (process_history e history)
    (fun msg => modify (set_error (Some msg)));;
  try_except
    (lift (effect (dump_error e));; modify (set_log_file (log_file_of e)))
    (fun _ => mret tt).

Definition save_execution_results (e : env) (history : value)
    (td : ApiServer.task_details) : outcome results :=
  match save_body e history (initial_results e td) with
  | (r, Ok _) => Ok r
  | (_, Raise msg) => Raise msg
  end.

(** What a run meets outside the program, and the calls of
    [browser.close()] it makes. *)
Record world := {
  create_error : option string;
  run : outcome value;
  close_error : option string;
  end_iso : string;
  error_stamp : string;
  error_write : option string;
  files : env
}.

Definition error_result (w : world) (td : ApiServer.task_details) (msg : string) : results :=
  {| timestamp := end_iso w; details := td; execution_steps := [];
     screenshots := []; success := false; error := Some msg;
     log_file := match error_write w with
                 | None => Some ("operation_logs/browser_error_" +:+ error_stamp w +:+ ".json")
                 | Some _ => None
                 end |}.

(** [await browser_agent.browser.close()], counted in the state. *)
Definition close_browser (w : world) : M nat unit :=
  fun n => (S n, effect (close_error w)).

(** [BrowserExecutor.execute_task]; the state is the number of calls of
    [browser.close()]. *)
Definition execute_task (w : world) (td : ApiServer.task_details) : M nat results :=
  try_except
    (lift (effect (create_error w));;
     history ← lift (run w);
     r ← lift (save_execution_results (files w) history td);
     close_browser w;;
     mret r)
    (fun msg => mret (error_result w td msg)).

(** [ResultsAnalyzer.analyze_results] of the script. *)
Module ResultsAnalyzer.
Import ApiServer.ResultsAnalyzer.

Definition recommend (ok accessed : bool) (target : string)
    (required_n captured_n : nat) : list string :=
  (if negb ok then ["Task execution failed - check error logs"] else []) ++
  (if negb accessed
   then ["Target URL " +:+ target +:+ " may not have been properly accessed"] else []) ++
  (if (captured_n <? required_n)%nat
   then ["Not all required screenshots were captured"] else []) ++
  (if ok && accessed then ["Task appears to have completed successfully"] else []).

Record review_report := {
  summary_success : bool;
  steps_completed : nat;
  summary_screenshots : nat;
  summary_error : option string;
  recommendations : list string;
  compliance_check : compliance;
  review_file : option string
}.

Definition analyze_results (stamp_now : string) (review_write : option string)
    (er : execution_results) (oi : original_instructions) : review_report :=
  let ok := default false (res_success er) in
  let execution_steps := default [] (res_execution_steps er) in
  let target := default "" (ins_target_url oi) in
  let accessed := url_accessed target execution_steps in
  let required_screenshots := default [] (ins_screenshot_instructions oi) in
  let captured_screenshots := default [] (res_screenshots er) in
  {| summary_success := ok;
     steps_completed := length execution_steps;
     summary_screenshots := length captured_screenshots;
     summary_error := res_error er;
     recommendations :=
       recommend ok accessed target
         (length required_screenshots) (length captured_screenshots);
     compliance_check :=
       {| target_url_accessed := accessed;
          screenshots_captured :=
            {| required := length required_screenshots;
               captured := length captured_screenshots;
               meets_requirements :=
                 (length required_screenshots <=? length captured_screenshots)%nat |} |};
     review_file :=
       match review_write with
       | None => Some ("operation_logs/review_report_" +:+ stamp_now +:+ ".json")
       | Some _ => None
       end |}.

End ResultsAnalyzer.

End Script.

(** * Vocabulary of the statements *)

(** The messages of the rules whose condition holds, in the order of the
    table. *)
Fixpoint select (rules : list (bool * string)) : list string :=
  match rules with
  | [] => []
  | (true, msg) :: rest => msg :: select rest
  | (false, _) :: rest => select rest
  end.

(** [t] occurs in [s]. *)
Definition occurs (t s : string) : Prop :=
  exists pre post, s = pre +:+ t +:+ post.

(** Some spelling of [t] in any mix of upper and lower case occurs in [s];
    [t] itself is in lower case. *)
Definition occurs_ignoring_case (t s : string) : Prop :=
  exists u, Py.lower u = t /\ occurs u s.

(** The life cycle of a task record. *)
Inductive transition : ApiServer.status -> ApiServer.status -> Prop :=
| start_run : transition ApiServer.pending ApiServer.running
| complete_run : transition ApiServer.running ApiServer.completed
| fail_run : transition ApiServer.running ApiServer.failed.

(** Every two successive statuses of a trace are linked by a transition. *)
Fixpoint legal (trace : list ApiServer.status) : Prop :=
  match trace with
  | a :: (b :: _) as rest => transition a b /\ legal rest
  | _ => True
  end.

(** The status the store holds for [tid]. *)
Definition status_in (sv : ApiServer.server) (tid : string) : option ApiServer.status :=
  ApiServer.info_status <$> ApiServer.task_storage sv !! tid.

(** A computation started in a state satisfying [P] ends in a state
    satisfying [Q] when it returns and [E] when it raises. *)
Definition triple {S A} (P : S -> Prop) (m : M S A)
    (Q : A -> S -> Prop) (E : string -> S -> Prop) : Prop :=
  forall s, P s ->
    match m s with
    | (s', Py.Ok a) => Q a s'
    | (s', Py.Raise msg) => E msg s'
    end.

(** The record [tid] is in the store with status [cur]; since [base] the
    statuses [log] were assigned to it, and [browser.close()] has been
    called [n] times. *)
Definition task_at (tid : string) (base : list (string * ApiServer.status))
    (log : list ApiServer.status) (cur : ApiServer.status) (n : nat)
    (sv : ApiServer.server) : Prop :=
  status_in sv tid = Some cur /\
  ApiServer.status_writes sv = (base ++ ((fun s => (tid, s)) <$> log))%list /\
  ApiServer.close_calls sv = n.

(** What the normaliser of the service reads off one entry: the first item
    of a tuple with two items or more, else the first candidate attribute
    that is set and truthy. *)
Definition action_of (st : Py.value) : Py.outcome string :=
  match Py.v_tuple st with
  | Some (x0 :: _ :: _) => ApiServer.str_or_na x0
  | Some _ => Py.Ok "N/A"
  | None => ApiServer.extract_text st ApiServer.action_attrs
  end.

Definition result_of (st : Py.value) : Py.outcome string :=
  match Py.v_tuple st with
  | Some (_ :: x1 :: _) => ApiServer.str_or_na x1
  | Some _ => Py.Ok "N/A"
  | None => ApiServer.extract_text st ApiServer.result_attrs
  end.

(** [si] is the step recorded for the entry [st] at position [i] (counted
    from 0). *)
Definition extracted (i : nat) (st : Py.value) (si : ApiServer.step_info) : Prop :=
  ApiServer.step_number si = (i + 1)%nat /\
  action_of st = Py.Ok (ApiServer.action si) /\
  result_of st = Py.Ok (ApiServer.result si).

(** [sis] are the steps recorded for the entries [l], one for one and in
    the same order, the first entry being at position [i]. *)
Inductive extracted_from : nat -> list Py.value -> list ApiServer.step_info -> Prop :=
| extracted_nil i : extracted_from i [] []
| extracted_cons i st si l sis :
    extracted i st si -> extracted_from (S i) l sis ->
    extracted_from i (st :: l) (si :: sis).

(** Processing the entry [st] at position [i] raises with message [msg]. *)
Definition raises_on (e : ApiServer.env) (tid : string) (i : nat) (st : Py.value)
    (msg : string) : Prop :=
  exists s, (ApiServer.process_step e tid i st s).2 = Py.Raise msg.

(** The state [s'] differs from [s] by screenshots at most. *)
Definition same_core (s s' : ApiServer.results) : Prop :=
  ApiServer.execution_steps s' = ApiServer.execution_steps s /\
  ApiServer.success s' = ApiServer.success s /\
  ApiServer.error s' = ApiServer.error s.

Definition same_text (si si' : ApiServer.step_info) : Prop :=
  ApiServer.step_number si' = ApiServer.step_number si /\
  ApiServer.action si' = ApiServer.action si /\
  ApiServer.result si' = ApiServer.result si.

(** How the first [try] block of the normaliser of the service can end for
    a history: with the steps recorded, the success flag and the error it
    leaves.
    - the history cannot be turned into a list, or its truth value cannot
      be taken;
    - the list is empty;
    - every entry was processed;
    - the entry [bad] raised, after the entries [pre] were processed. *)
Inductive first_block (e : ApiServer.env) (tid : string) (history : Py.value)
    : list ApiServer.step_info -> bool -> option string -> Prop :=
| block_unreadable msg :
    ApiServer.history_list_of history = Py.Raise msg \/
    ((exists l, ApiServer.history_list_of history = Py.Ok l) /\
     Py.py_bool history = Py.Raise msg) ->
    first_block e tid history [] false (Some msg)
| block_empty b :
    ApiServer.history_list_of history = Py.Ok [] ->
    Py.py_bool history = Py.Ok b ->
    first_block e tid history [] false None
| block_complete l sis b :
    ApiServer.history_list_of history = Py.Ok l -> l <> [] ->
    Py.py_bool history = Py.Ok b ->
    extracted_from 0 l sis ->
    first_block e tid history sis true None
| block_stopped pre bad post sis b msg :
    ApiServer.history_list_of history = Py.Ok (pre ++ bad :: post)%list ->
    Py.py_bool history = Py.Ok b ->
    extracted_from 0 pre sis ->
    raises_on e tid (length pre) bad msg ->
    first_block e tid history sis false (Some msg).

(** The error a result carries once the second [try] block has run. *)
Definition final_error (e : ApiServer.env) (err : option string) : option string :=
  match ApiServer.dump_error e with
  | None => err
  | Some msg => Some ("Error saving results: " +:+ msg)
  end.

(** Position of a status in the life cycle. *)
Definition rank (s : ApiServer.status) : nat :=
  match s with
  | ApiServer.pending => 0
  | ApiServer.running => 1
  | ApiServer.completed | ApiServer.failed => 2
  end.



(** ** Sample inputs *)

Module Sample.
Import Py.

(** No file operation fails. *)
Definition quiet : ApiServer.env :=
  {| ApiServer.stamp := "20250601_120000";
     ApiServer.now_iso := fun _ => "2025-06-01T12:00:00";
     ApiServer.write_error := fun _ => None;
     ApiServer.path_exists := fun _ => false;
     ApiServer.copy_error := fun _ => None;
     ApiServer.b64_error := fun _ => None;
     ApiServer.dump_error := None |}.

(** Every write fails. *)
Definition full_disk : ApiServer.env :=
  {| ApiServer.stamp := "20250601_120000";
     ApiServer.now_iso := fun _ => "2025-06-01T12:00:00";
     ApiServer.write_error := fun _ => Some "[Errno 28] No space left on device";
     ApiServer.path_exists := fun _ => false;
     ApiServer.copy_error := fun _ => None;
     ApiServer.b64_error := fun _ => None;
     ApiServer.dump_error := Some "[Errno 28] No space left on device" |}.

Definition script_quiet : Script.env :=
  {| Script.stamp := "20250601_120000";
     Script.now_iso := fun _ => "2025-06-01T12:00:00";
     Script.write_error := fun _ => None;
     Script.dump_error := None |}.


Definition details : ApiServer.task_details :=
  {| ApiServer.target_url := "http://x.test";
     ApiServer.task_description := "open the page";
     ApiServer.screenshot_instructions := [] |}.

(** [[]] *)
Definition no_entries : value := py_list_of [] "[]".

(** [(None, "done")] and [[(None, "done")]] *)
Definition pair_entry : value :=
  py_tuple [py_None; py_string "done"] "(None, 'done')".
Definition one_pair : value := py_list_of [pair_entry] "[(None, 'done')]".



(** Objects with an [action] attribute: a text, and the array. *)
Definition good_entry : value :=
  py_object "Step" [("action", Ok (py_string "go to the page"))].



(** An object with a [screenshot] of four bytes. *)
Definition shot_entry : value :=
  py_object "Step"
    [("action", Ok (py_string "open"));
     ("screenshot",
      Ok (py_bytes [py_number "137" false; py_number "80" false;
                    py_number "78" false; py_number "71" false] "b'\x89PNG'"))].

End Sample.

(** ** Sample runs of the orchestrators *)

Module SampleRun.
Import Py.

(** A run in which [browser_agent.run()] raises. *)
Definition boom : ApiServer.world :=
  {| ApiServer.api_key := true;
     ApiServer.id_stamp := "20250601_120000_000001";
     ApiServer.submit_iso := "2025-06-01T12:00:00";
     ApiServer.setup_stamp := "20250601_120001";
     ApiServer.setup_error := None;
     ApiServer.create_error := None;
     ApiServer.initial_shot := None;
     ApiServer.final_shot := None;
     ApiServer.run := Raise "boom";
     ApiServer.close_error := None;
     ApiServer.end_iso := "2025-06-01T12:00:09";
     ApiServer.files := Sample.quiet |}.

(** A run in which the agent returns a history of one entry. *)
Definition calm : ApiServer.world :=
  {| ApiServer.api_key := true;
     ApiServer.id_stamp := "20250601_120000_000001";
     ApiServer.submit_iso := "2025-06-01T12:00:00";
     ApiServer.setup_stamp := "20250601_120001";
     ApiServer.setup_error := None;
     ApiServer.create_error := None;
     ApiServer.initial_shot := None;
     ApiServer.final_shot := None;
     ApiServer.run := Ok Sample.one_pair;
     ApiServer.close_error := None;
     ApiServer.end_iso := "2025-06-01T12:00:09";
     ApiServer.files := Sample.quiet |}.

Definition task : string := "task_20250601_120000_000001".

Definition fresh : ApiServer.server :=
  {| ApiServer.task_storage := ∅;
     ApiServer.close_calls := 0;
     ApiServer.status_writes := [] |}.

(** The store with one record, in the given status. *)
Definition holding (s : ApiServer.status) : ApiServer.server :=
  {| ApiServer.task_storage :=
       {[ task := {| ApiServer.info_status := s;
                     ApiServer.progress := None;
                     ApiServer.start_time := Some "2025-06-01T12:00:00";
                     ApiServer.end_time := None;
                     ApiServer.instructions := Sample.details;
                     ApiServer.info_error := None;
                     ApiServer.info_results := None;
                     ApiServer.analysis := None |} ]};
     ApiServer.close_calls := 0;
     ApiServer.status_writes := [(task, ApiServer.pending)] |}.

Definition script_boom : Script.world :=
  {| Script.create_error := None;
     Script.run := Raise "boom";
     Script.close_error := None;
     Script.end_iso := "2025-06-01T12:00:09";
     Script.error_stamp := "20250601_120009";
     Script.error_write := None;
     Script.files := Sample.script_quiet |}.

Definition script_calm : Script.world :=
  {| Script.create_error := None;
     Script.run := Ok Sample.one_pair;
     Script.close_error := None;
     Script.end_iso := "2025-06-01T12:00:09";
     Script.error_stamp := "20250601_120009";
     Script.error_write := None;
     Script.files := Sample.script_quiet |}.

(** A result with one step and no screenshot, and the instructions it
    answers. *)
Definition one_step (a : string) : ApiServer.ResultsAnalyzer.execution_results :=
  {| ApiServer.ResultsAnalyzer.res_task_id := Some task;
     ApiServer.ResultsAnalyzer.res_success := Some true;
     ApiServer.ResultsAnalyzer.res_execution_steps :=
       Some [{| ApiServer.ResultsAnalyzer.step_action := Some a |}];
     ApiServer.ResultsAnalyzer.res_screenshots := Some [];
     ApiServer.ResultsAnalyzer.res_error := None;
     ApiServer.ResultsAnalyzer.res_full_conversation := Some 1 |}.

Definition asked (url : option string) : ApiServer.ResultsAnalyzer.original_instructions :=
  {| ApiServer.ResultsAnalyzer.ins_target_url := url;
     ApiServer.ResultsAnalyzer.ins_task_description := Some "open the page";
     ApiServer.ResultsAnalyzer.ins_screenshot_instructions := Some [] |}.

End SampleRun.

(** ** Vocabulary of the further properties *)

(** The entry of [full_conversation] made for a step. *)
Definition conversation_of (si : ApiServer.step_info) : ApiServer.conversation_entry :=
  {| ApiServer.step := ApiServer.step_number si;
     ApiServer.model_output := ApiServer.action si;
     ApiServer.conversation_timestamp := ApiServer.step_timestamp si |}.

(** The steps that carry an action. *)
Definition with_action (steps : list ApiServer.step_info) : list ApiServer.step_info :=
  filter (fun si => ApiServer.action si <> "N/A") steps.

(** The name of the screenshot file of the step numbered [n]. *)
Definition shot_name (e : ApiServer.env) (tid : string) (n : nat) : string :=
  tid +:+ "_step_" +:+ pretty n +:+ "_" +:+ ApiServer.stamp e +:+ ".png".

(** A step either has no screenshot, or has the file and the URL named
    after its number. *)
Definition shot_fields_ok (e : ApiServer.env) (tid : string)
    (si : ApiServer.step_info) : Prop :=
  (ApiServer.screenshot si = None /\ ApiServer.screenshot_url si = None) \/
  (ApiServer.screenshot si =
     Some ("operation_logs/screenshots/" +:+ shot_name e tid (ApiServer.step_number si)) /\
   ApiServer.screenshot_url si =
     Some ("/screenshots/" +:+ shot_name e tid (ApiServer.step_number si))).

(** What the loop of the normaliser keeps true of [results] between two
    entries. *)
Definition tidy (e : ApiServer.env) (tid : string) (s : ApiServer.results) : Prop :=
  ApiServer.step_number <$> ApiServer.execution_steps s =
    seq 1 (length (ApiServer.execution_steps s)) /\
  Forall (shot_fields_ok e tid) (ApiServer.execution_steps s) /\
  ApiServer.screenshots s = omap ApiServer.screenshot (ApiServer.execution_steps s) /\
  ApiServer.screenshot_urls s = omap ApiServer.screenshot_url (ApiServer.execution_steps s) /\
  ApiServer.full_conversation s =
    conversation_of <$> with_action (ApiServer.execution_steps s).

(** The state of [results] after a step has been recorded: its screenshot,
    if it has one, its conversation entry, if it has an action, and the
    step itself. *)
Definition record_step (si : ApiServer.step_info) (s : ApiServer.results)
    : ApiServer.results :=
  let s1 := match ApiServer.screenshot si, ApiServer.screenshot_url si with
            | Some p, Some u => ApiServer.add_screenshot p u s
            | _, _ => s
            end in
  let s2 := if String.eqb (ApiServer.action si) "N/A" then s1
            else ApiServer.add_conversation (conversation_of si) s1 in
  ApiServer.add_step si s2.

(** The record of [tid] satisfies [holds]; every other record is as in
    [store0]; [browser.close()] has been called [n] times. *)
Definition run_state (tid : string) (store0 : gmap string ApiServer.task_info)
    (holds : ApiServer.task_info -> Prop) (n : nat) (sv : ApiServer.server) : Prop :=
  (exists ti, ApiServer.task_storage sv !! tid = Some ti /\ holds ti) /\
  (forall other, other <> tid ->
     ApiServer.task_storage sv !! other = store0 !! other) /\
  ApiServer.close_calls sv = n.

(** The fields of a record that a run never assigns. *)
Definition same_origin (ti0 ti : ApiServer.task_info) : Prop :=
  ApiServer.start_time ti = ApiServer.start_time ti0 /\
  ApiServer.instructions ti = ApiServer.instructions ti0 /\
  ApiServer.analysis ti = ApiServer.analysis ti0.

(** The history can be counted by the log line that follows the run. *)
Definition countable (h : Py.value) : Prop :=
  Py.py_bool h = Py.Ok false \/
  (Py.py_bool h = Py.Ok true /\ exists l, Py.py_list h = Py.Ok l).

(** What the orchestrator adds to the normalised result of a run that
    ends well: the two manual screenshots, then the names of the log
    files. *)
Definition decorated (w : ApiServer.world) (tid : string) (r0 : ApiServer.results)
    : ApiServer.results :=
  fold_left (fun acc kf => ApiServer.add_file kf.1 kf.2 acc)
    (ApiServer.log_files w tid ++ ApiServer.thoughts_file tid)
    (ApiServer.add_manual (ApiServer.final_shot w)
       (ApiServer.add_manual (ApiServer.initial_shot w) r0)).

(** The ways the [try] block of a run can raise [msg], each with the
    number of calls of [browser.close()] made before. *)
Inductive failure (w : ApiServer.world) : string -> nat -> Prop :=
| fails_to_create msg :
    ApiServer.create_browser_agent w = Py.Raise msg -> failure w msg 0
| fails_to_run msg :
    ApiServer.create_browser_agent w = Py.Ok tt ->
    ApiServer.run w = Py.Raise msg -> failure w msg 0
| fails_to_count h msg :
    ApiServer.create_browser_agent w = Py.Ok tt ->
    ApiServer.run w = Py.Ok h ->
    Py.py_bool h = Py.Raise msg \/
    (Py.py_bool h = Py.Ok true /\ Py.py_list h = Py.Raise msg) ->
    failure w msg 0
| fails_to_close h msg :
    ApiServer.create_browser_agent w = Py.Ok tt ->
    ApiServer.run w = Py.Ok h -> countable h ->
    ApiServer.close_error w = Some msg -> failure w msg 1.

(** The record of a task whose run has ended with the result [r]. *)
Definition ended (w : ApiServer.world) (ti0 : ApiServer.task_info)
    (r : ApiServer.results) (ti : ApiServer.task_info) : Prop :=
  same_origin ti0 ti /\
  ApiServer.end_time ti = Some (ApiServer.end_iso w) /\
  ApiServer.info_results ti = Some r.

(** The path and the URL that a manual capture contributes. *)
Definition manual_path (shot : option (string * string)) : list string :=
  match shot with Some (path, _) => [path] | None => [] end.

Definition manual_url (shot : option (string * string)) : list string :=
  match shot with Some (_, url) => [url] | None => [] end.

(** ** More sample runs *)

Module SampleMore.
Import Py.

(** A run with or without API key, with the given outcome of
    [browser_agent.run()] and of [browser.close()]. *)
Definition world_with (key : bool) (run : outcome value) (close : option string)
    : ApiServer.world :=
  {| ApiServer.api_key := key;
     ApiServer.id_stamp := "20250601_120000_000001";
     ApiServer.submit_iso := "2025-06-01T12:00:00";
     ApiServer.setup_stamp := "20250601_120001";
     ApiServer.setup_error := None;
     ApiServer.create_error := None;
     ApiServer.initial_shot :=
       Some ("operation_logs/screenshots/task_20250601_120000_000001_initial_20250601_120002.png",
             "/screenshots/task_20250601_120000_000001_initial_20250601_120002.png");
     ApiServer.final_shot := None;
     ApiServer.run := run;
     ApiServer.close_error := close;
     ApiServer.end_iso := "2025-06-01T12:00:09";
     ApiServer.files := Sample.quiet |}.

(** No API key. *)
Definition no_key : ApiServer.world := world_with false (Ok Sample.one_pair) None.

(** [browser.close()] raises. *)
Definition stuck : ApiServer.world :=
  world_with true (Ok Sample.one_pair) (Some "Target closed").

(** The agent returns an empty history. *)
Definition idle : ApiServer.world := world_with true (Ok Sample.no_entries) None.

(** The agent returns a history of one entry with a screenshot. *)
Definition busy : ApiServer.world :=
  world_with true (Ok (py_list_of [Sample.shot_entry] "[<Step object>]")) None.

End SampleMore.


(** ** The tools of the browser agent and the prompt, [api_server.py] *)

Module Tools.
Import Py ApiServer.

(** The line feed. *)
Definition nl : string := String (Ascii.ascii_of_nat 10) "".

(** What one call meets outside the program: the two readings of the clock
    and, for each path, whether [open] raises while the call lasts.  The
    content of the files is the state: a map from paths to contents. *)
Record moment := {
  clock_stamp : string;                  (* datetime.now().strftime("%Y%m%d_%H%M%S") *)
  clock_text : string;                   (* datetime.now().strftime("%Y-%m-%d %H:%M:%S") *)
  open_error : string -> option string   (* open(path, mode) *)
}.

(** [with open(path, 'wb') as f: f.write(data)] *)
Definition write_file (m : moment) (path data : string) : M (gmap string string) unit :=
  fun d =>
    match open_error m path with
    | Some msg => (d, Raise msg)
    | None => (<[path := data]> d, Ok tt)
    end.

(** [with open(path, 'a', encoding='utf-8') as f: f.write(text)] *)
Definition append_file (m : moment) (path text : string) : M (gmap string string) unit :=
  fun d =>
    match open_error m path with
    | Some msg => (d, Raise msg)
    | None => (<[path := default "" (d !! path) +:+ text]> d, Ok tt)
    end.

(** *** [AgentLogger] *)

(** The object, and the files it writes.  [logs_dir] is the constant of
    the service; [log_file] and [screenshots_dir] are computed from it. *)
Record agent_logger := {
  logger_task_id : string;
  screenshot_count : nat
}.

Record session := {
  logger : agent_logger;
  disk : gmap string string
}.

Definition log_file (l : agent_logger) : string :=
  logs_dir +:+ "/agent_thoughts_" +:+ logger_task_id l +:+ ".txt".

(** A computation on the files, run in a session. *)
Definition on_disk {A} (c : M (gmap string string) A) : M session A :=
  fun s =>
    match c (disk s) with
    | (d, o) => ({| logger := logger s; disk := d |}, o)
    end.

(** [self.screenshot_count += 1], giving the new count. *)
Definition next_count : M session nat :=
  fun s =>
    let n := S (screenshot_count (logger s)) in
    ({| logger := {| logger_task_id := logger_task_id (logger s);
                     screenshot_count := n |};
        disk := disk s |}, Ok n).

(** [self] *)
Definition self : M session agent_logger := fun s => (s, Ok (logger s)).

(** [AgentLogger.log_thought]; what it prints is left out. *)
Definition log_thought (m : moment) (message : string) : M session string :=
  l ← self;
  on_disk (append_file m (log_file l)
             ("[" +:+ clock_text m +:+ "] " +:+ message +:+ nl));;
  mret ("Logged: " +:+ message).

(** [AgentLogger.save_screenshot] *)
Definition save_screenshot (m : moment) (description : string) : M session string :=
  n ← next_count;
  l ← self;
  let filename :=
    logger_task_id l +:+ "_manual_" +:+ pretty n +:+ "_" +:+ clock_stamp m +:+ ".png" in
  log_thought m ("Taking screenshot: " +:+ description);;
  mret ("Screenshot request saved: " +:+ filename +:+ " - " +:+ description).

(** [AgentLogger.get_screenshot_path]; its parameter [description] is not
    used. *)
Definition get_screenshot_path (m : moment) : M session (string * string) :=
  n ← next_count;
  l ← self;
  let filename :=
    logger_task_id l +:+ "_agent_" +:+ pretty n +:+ "_" +:+ clock_stamp m +:+ ".png" in
  mret (screenshots_dir +:+ "/" +:+ filename, "/screenshots/" +:+ filename).

(** *** The actions of the controller, in [create_browser_agent] *)

(** [ActionResult(extracted_content=..., include_in_memory=...)] *)
Record action_result := {
  extracted_content : string;
  include_in_memory : bool
}.


(** [AgentLogger(self.logs_dir, task_id or "unknown")] *)
Definition new_logger (task_id : option string) : agent_logger :=
  {| logger_task_id :=
       match task_id with
       | Some t => if String.eqb t "" then "unknown" else t
       | None => "unknown"
       end;
     screenshot_count := 0 |}.

Definition log_action (m : moment) (message : string) : M session action_result :=
  log_thought m ("ACTION: " +:+ message);;
  mret {| extracted_content := "Logged action: " +:+ message;
          include_in_memory := false |}.





(** *** [BrowserExecutor.capture_manual_screenshot] *)

(** What the three methods find.  For each one: getting the page raises,
    or there is no page (the attribute is missing, the page is falsy, the
    list of pages is empty), or there is a page, with what
    [await page.screenshot()] gives. *)
Record browser_view := {
  has_browser : outcome bool;   (* hasattr(browser_agent, 'browser') and browser_agent.browser *)
  current_page : outcome (option (outcome string));   (* browser.get_current_page() *)
  context_pages : outcome (option (outcome string));  (* browser.browser_context.pages *)
  private_pages : outcome (option (outcome string))   (* browser._browser_context.pages *)
}.

(** One of the three inner [try] blocks; [true]: it has returned from the
    function. *)
Definition capture_with (m : moment) (page : outcome (option (outcome string)))
    (screenshot_path : string) : M (gmap string string) bool :=
  try_except
    (p ← lift page;
     match p with
     | Some shot =>
         screenshot_data ← lift shot;
         write_file m screenshot_path screenshot_data;;
         mret true
     | None => mret false
     end)
    (fun _ => mret false).

Definition manual_shot_name (task_id step_name stamp : string) : string :=
  task_id +:+ "_" +:+ step_name +:+ "_" +:+ stamp +:+ ".png".

Definition capture_manual_screenshot (m : moment) (v : browser_view)
    (task_id step_name : string) : M (gmap string string) (option (string * string)) :=
  try_except
    (let screenshot_filename := manual_shot_name task_id step_name (clock_stamp m) in
     let screenshot_path := screenshots_dir +:+ "/" +:+ screenshot_filename in
     let screenshot_url := "/screenshots/" +:+ screenshot_filename in
     b ← lift (has_browser v);
     if b : bool then
       r1 ← capture_with m (current_page v) screenshot_path;
       if r1 : bool then mret (Some (screenshot_path, screenshot_url)) else
       r2 ← capture_with m (context_pages v) screenshot_path;
       if r2 : bool then mret (Some (screenshot_path, screenshot_url)) else
       r3 ← capture_with m (private_pages v) screenshot_path;
       if r3 : bool then mret (Some (screenshot_path, screenshot_url)) else
       mret None
     else mret None)
    (fun _ => mret None).

(** *** The prompt, in [execute_task] of both programs *)

(** The double quote. *)
Definition dq : string := String (Ascii.ascii_of_nat 34) "".

(** The indentation of the lines of the template. *)
Definition indent : string := "        ".

(** One turn of the loop over [enumerate(screenshot_instructions)]:
    [f"\n{i+1}. {instr.get('step_description', 'N/A')} (save as
    {instr.get('filename', f'screenshot_{i+1}.png')})"]. *)
Definition requirement_line (i : nat) (instr : screenshot_instruction) : string :=
  nl +:+ pretty (i + 1)%nat +:+ ". " +:+ default "N/A" (step_description instr) +:+
  " (save as " +:+
  default ("screenshot_" +:+ pretty (i + 1)%nat +:+ ".png") (filename instr) +:+ ")".

(** The loop: [full_task += ...] for each instruction. *)
Fixpoint add_requirements (i : nat) (instrs : list screenshot_instruction)
    (full_task : string) : string :=
  match instrs with
  | [] => full_task
  | instr :: rest => add_requirements (S i) rest (full_task +:+ requirement_line i instr)
  end.

(** The template of the service. *)
Definition template (target_url task_description : string) : string :=
  nl +:+
  indent +:+ "Navigate to: " +:+ target_url +:+ nl +:+
  indent +:+ nl +:+
  indent +:+ "Task: " +:+ task_description +:+ nl +:+
  indent +:+ nl +:+
  indent +:+ "IMPORTANT INSTRUCTIONS:" +:+ nl +:+
  indent +:+ "1. Use the log_action() function to log what you are doing at each step (e.g., "
    +:+ dq +:+ "I am now navigating to the website" +:+ dq +:+ ", "
    +:+ dq +:+ "I am typing in the search box" +:+ dq +:+ ")" +:+ nl +:+
  indent +:+ "2. Use the log_observation() function to log what you see on the page (e.g., "
    +:+ dq +:+ "I can see a search box" +:+ dq +:+ ", "
    +:+ dq +:+ "The page loaded with video results" +:+ dq +:+ ")" +:+ nl +:+
  indent +:+ "3. Use the log_decision() function to log your reasoning (e.g., "
    +:+ dq +:+ "I need to search for the term" +:+ dq +:+ ", "
    +:+ dq +:+ "I should click on the first result" +:+ dq +:+ ")" +:+ nl +:+
  indent +:+ "4. Use the take_screenshot_now() function whenever something important happens (page loads, search results appear, etc.)" +:+ nl +:+
  indent +:+ nl +:+
  indent +:+ "Please be very detailed in your logging so we can track your progress!" +:+ nl +:+
  indent.

(** [full_task] of [execute_task] in [api_server.py]. *)
Definition full_task (td : task_details) : string :=
  let full_task := template (target_url td) (task_description td) in
  let full_task :=
    match screenshot_instructions td with
    | [] => full_task
    | _ :: _ =>
        add_requirements 0 (screenshot_instructions td)
          (full_task +:+ nl +:+ "Additional Screenshot Requirements:")
    end in
  full_task +:+ nl +:+ nl +:+
  "Remember to use the custom logging functions throughout your execution!".

(** [full_task] of [execute_task] in [website_testing_agent.py]. *)
Definition script_full_task (td : task_details) : string :=
  add_requirements 0 (screenshot_instructions td)
    (nl +:+
     indent +:+ "Navigate to: " +:+ target_url td +:+ nl +:+
     indent +:+ nl +:+
     indent +:+ "Task: " +:+ task_description td +:+ nl +:+
     indent +:+ nl +:+
     indent +:+ "Screenshot Requirements:" +:+ nl +:+
     indent).

End Tools.

(** ** Vocabulary of the tools *)

(** Decimal digits. *)
Definition is_digit (c : Ascii.ascii) : bool :=
  let n := Ascii.nat_of_ascii c in (48 <=? n)%nat && (n <=? 57)%nat.

Fixpoint all_digits (s : string) : bool :=
  match s with
  | EmptyString => true
  | String c rest => is_digit c && all_digits rest
  end.

(** The content of the file at [path]; the empty text when there is none. *)
Definition content (d : gmap string string) (path : string) : string :=
  default "" (d !! path).


(** The path and the URL of a manual capture. *)
Definition manual_shot_path (task_id step_name stamp : string) : string :=
  ApiServer.screenshots_dir +:+ "/" +:+ Tools.manual_shot_name task_id step_name stamp.

Definition manual_shot_url (task_id step_name stamp : string) : string :=
  "/screenshots/" +:+ Tools.manual_shot_name task_id step_name stamp.


(** One call of a method of [AgentLogger], whether it returns or raises. *)
Inductive logger_call : Tools.session -> Tools.session -> Prop :=
| call_log_thought m message s :
    logger_call s (Tools.log_thought m message s).1
| call_save_screenshot m description s :
    logger_call s (Tools.save_screenshot m description s).1
| call_get_screenshot_path m s :
    logger_call s (Tools.get_screenshot_path m s).1.

(** The screenshot of a method of [capture_manual_screenshot] that found a
    page and got its screenshot. *)
Definition usable (page : Py.outcome (option (Py.outcome string))) : option string :=
  match page with
  | Py.Ok (Some (Py.Ok data)) => Some data
  | _ => None
  end.

(** The screenshot of the first of the three methods that has one. *)
Definition first_shot (v : Tools.browser_view) : option string :=
  match usable (Tools.current_page v) with
  | Some data => Some data
  | None =>
      match usable (Tools.context_pages v) with
      | Some data => Some data
      | None => usable (Tools.private_pages v)
      end
  end.

(** The lines of the prompt for the instructions [instrs], the first of
    which has the index [i]. *)
Fixpoint requirement_lines (i : nat) (instrs : list ApiServer.screenshot_instruction)
    : string :=
  match instrs with
  | [] => ""
  | instr :: rest => Tools.requirement_line i instr +:+ requirement_lines (S i) rest
  end.





(** ** Vocabulary of the script *)

(** The file of the screenshot of the step numbered [n] of the script. *)
Definition script_shot_name (e : Script.env) (n : nat) : string :=
  "operation_logs/screenshots/step_" +:+ pretty n +:+ "_" +:+ Script.stamp e +:+ ".png".

(** A step of the script has no screenshot, or the file named after its
    number. *)
Definition script_shot_ok (e : Script.env) (si : Script.step_info) : Prop :=
  Script.screenshot si = None \/
  Script.screenshot si = Some (script_shot_name e (Script.step_number si)).

(** What the loop of the normaliser of the script keeps true of
    [results]. *)
Definition script_tidy (e : Script.env) (s : Script.results) : Prop :=
  Script.step_number <$> Script.execution_steps s =
    seq 1 (length (Script.execution_steps s)) /\
  Forall (script_shot_ok e) (Script.execution_steps s) /\
  Script.screenshots s = omap Script.screenshot (Script.execution_steps s).

(** The first thing that goes wrong in a run of the script: the creation
    of the agent, its run, or [browser.close()]. *)
Definition script_failure (w : Script.world) : option string :=
  match Script.create_error w with
  | Some msg => Some msg
  | None =>
      match Script.run w with
      | Py.Raise msg => Some msg
      | Py.Ok _ => Script.close_error w
      end
  end.


(** ** Sample sessions of the tools *)

Module SampleTools.
Import Py.

(** A moment in which every file can be opened. *)
Definition noon : Tools.moment :=
  {| Tools.clock_stamp := "20250601_120002";
     Tools.clock_text := "2025-06-01 12:00:02";
     Tools.open_error := fun _ => None |}.

(** The logger of the sample task, before any call, and no file. *)
Definition box : Tools.session :=
  {| Tools.logger := Tools.new_logger (Some SampleRun.task);
     Tools.disk := ∅ |}.

(** A browser whose current page gives a screenshot. *)
Definition open_browser : Tools.browser_view :=
  {| Tools.has_browser := Ok true;
     Tools.current_page := Ok (Some (Ok "PNG"));
     Tools.context_pages := Ok None;
     Tools.private_pages := Ok None |}.

(** No browser. *)
Definition no_browser : Tools.browser_view :=
  {| Tools.has_browser := Ok false;
     Tools.current_page := Ok None;
     Tools.context_pages := Ok None;
     Tools.private_pages := Ok None |}.

End SampleTools.


(** ** [GET /agent-thoughts/{task_id}], [api_server.py] *)

Module Thoughts.
Import Py ApiServer Tools.

(** The carriage return. *)
Definition cr : ascii := Ascii.ascii_of_nat 13.

(** The line feed, as a character. *)
Definition lf : ascii := Ascii.ascii_of_nat 10.

(** What [f.read()] gives for the characters of a file opened with
    [open(path, 'r')]: in text mode with the default [newline=None], a
    carriage return followed by a line feed, and a carriage return alone,
    are read as one line feed.  [after_cr] says that the character before
    was a carriage return. *)
Fixpoint universal_newlines (after_cr : bool) (s : string) : string :=
  match s with
  | "" => ""
  | String c rest =>
      if Ascii.eqb c cr then String lf (universal_newlines true rest)
      else if Ascii.eqb c lf && after_cr then universal_newlines false rest
      else String c (universal_newlines false rest)
  end.

(** [glob] is what [logs_dir.glob(pattern)] yields, in the order of the
    directory; [d] holds the characters of the files (a text written with
    [open(path, 'a')] is stored as it is, the line separator of the
    system being the line feed) and [m] says whether opening or reading
    the file raises. *)
Definition get_agent_thoughts (sv : server) (glob : string -> outcome (list string))
    (m : moment) (d : gmap string string) (task_id : string) : http string :=
  match task_storage sv !! task_id with
  | None => HTTPException 404 "Task not found"
  | Some _ =>
      let thoughts_file_pattern := "agent_thoughts_" +:+ task_id +:+ ".txt" in
      match glob ("*" +:+ thoughts_file_pattern +:+ "*") with
      | Raise e => HTTPException 500 ("Error reading agent thoughts: " +:+ e)
      | Ok [] => Reply "No agent thoughts file found for this task."
      | Ok (thoughts_file :: _) =>
          match d !! thoughts_file with
          | None => Reply "No agent thoughts file found for this task."
          | Some content =>
              match open_error m thoughts_file with
              | Some e => HTTPException 500 ("Error reading agent thoughts: " +:+ e)
              | None => Reply (universal_newlines false content)
              end
          end
      end
  end.

End Thoughts.

(** A text holds no carriage return. *)
Fixpoint carriage_free (s : string) : bool :=
  match s with
  | "" => true
  | String c rest => negb (Ascii.eqb c Thoughts.cr) && carriage_free rest
  end.


(** ** The normalisers, entry by entry *)

(** Processing the entry [st] at position [i] (counted from 0) records the
    step [si], whatever was recorded before. *)
Definition records_step (e : ApiServer.env) (tid : string) (i : nat) (st : Py.value)
    (si : ApiServer.step_info) : Prop :=
  forall s, ApiServer.process_step e tid i st s = (record_step si s, Py.Ok tt).

(** Processing the entry [st] at position [i] raises [msg] and records
    nothing, whatever was recorded before. *)
Definition raises_at (e : ApiServer.env) (tid : string) (i : nat) (st : Py.value)
    (msg : string) : Prop :=
  forall s, ApiServer.process_step e tid i st s = (s, Py.Raise msg).

(** The loop over the entries [l], the first of them at position [i]: the
    steps it records, one for each entry and in their order, and the
    exception that ends it, if any.  The loop ends at the first entry that
    raises; the entries after it are not processed. *)
Inductive processed (e : ApiServer.env) (tid : string)
    : nat -> list Py.value -> list ApiServer.step_info -> option string -> Prop :=
| processed_all i : processed e tid i [] [] None
| processed_entry i st si l sis err :
    records_step e tid i st si -> processed e tid (S i) l sis err ->
    processed e tid i (st :: l) (si :: sis) err
| processed_stop i st msg l :
    raises_at e tid i st msg -> processed e tid i (st :: l) [] (Some msg).

(** The entries of a history that can be inspected without an exception:
    the items it yields when it is iterable, the history itself when it is
    not iterable and truthy, nothing when it is not iterable and falsy
    (as [None] is).  Its truth value can be taken in each case. *)
Inductive history_entries (history : Py.value) : list Py.value -> Prop :=
| entries_iterable items b :
    Py.v_iter history = Some (items, None) -> Py.py_bool history = Py.Ok b ->
    history_entries history items
| entries_single :
    Py.v_iter history = None -> Py.py_bool history = Py.Ok true ->
    history_entries history [history]
| entries_nothing :
    Py.v_iter history = None -> Py.py_bool history = Py.Ok false ->
    history_entries history [].

(** The inspection of the history raises [msg]: its iteration breaks off,
    or its truth value cannot be taken. *)
Inductive history_breaks (history : Py.value) : string -> Prop :=
| breaks_iteration items msg :
    Py.v_iter history = Some (items, Some msg) -> history_breaks history msg
| breaks_truth msg :
    (forall items msg', Py.v_iter history <> Some (items, Some msg')) ->
    Py.py_bool history = Py.Raise msg -> history_breaks history msg.


(** The state of [results] of the script after a step has been recorded:
    its screenshot, if it has one, and the step itself. *)
Definition script_record_step (si : Script.step_info) (s : Script.results)
    : Script.results :=
  Script.add_step si
    (match Script.screenshot si with
     | Some p => Script.add_screenshot p s
     | None => s
     end).

Definition script_records_step (e : Script.env) (i : nat) (st : Py.value)
    (si : Script.step_info) : Prop :=
  forall s, Script.process_step e i st s = (script_record_step si s, Py.Ok tt).

Definition script_raises_at (e : Script.env) (i : nat) (st : Py.value)
    (msg : string) : Prop :=
  forall s, Script.process_step e i st s = (s, Py.Raise msg).

(** The loop of the script over the entries [l]. *)
Inductive script_processed (e : Script.env)
    : nat -> list Py.value -> list Script.step_info -> option string -> Prop :=
| script_processed_all i : script_processed e i [] [] None
| script_processed_entry i st si l sis err :
    script_records_step e i st si -> script_processed e (S i) l sis err ->
    script_processed e i (st :: l) (si :: sis) err
| script_processed_stop i st msg l :
    script_raises_at e i st msg -> script_processed e i (st :: l) [] (Some msg).



(** * Properties *)

(** ** Text *)

Section Text.
Import Py.

Lemma prefix_true_iff (p s : string) :
  String.prefix p s = true <-> exists post, s = p +:+ post.
Proof.
  revert p. induction s as [|d s IH]; intros [|c p]; simpl.
  - split; [intros _; by exists "" | done].
  - split; [done | intros [post H]; discriminate H].
  - split; [intros _; by exists (String d s) | done].
  - destruct (Ascii.ascii_dec c d) as [->|Hne].
    + rewrite IH. split; intros [post H]; exists post.
      * by rewrite H.
      * by injection H.
    + split; [done | intros [post H]; injection H as H1 H2; congruence].
Qed.

Lemma contains_nil (t : string) : contains t "" = String.prefix t "".
Proof. unfold contains. apply orb_false_r. Qed.

Lemma contains_cons (t : string) (c : Ascii.ascii) (s : string) :
  contains t (String c s) = String.prefix t (String c s) || contains t s.
Proof. reflexivity. Qed.

Lemma contains_true_iff (t s : string) : contains t s = true <-> occurs t s.
Proof.
  induction s as [|c s IH].
  - rewrite contains_nil, prefix_true_iff. split.
    + intros [post H]. by exists "", post.
    + intros ([|d pre] & post & H); [by exists post |]. discriminate H.
  - rewrite contains_cons, orb_true_iff, IH, prefix_true_iff. split.
    + intros [[post H] | (pre & post & H)].
      * by exists "", post.
      * exists (String c pre), post. simpl. by rewrite H.
    + intros ([|d pre] & post & H).
      * left. by exists post.
      * right. simpl in H. injection H as -> H. by exists pre, post.
Qed.

Lemma contains_empty (s : string) : contains "" s = true.
Proof. destruct s; reflexivity. Qed.

Lemma lower_app (a b : string) : lower (a +:+ b) = lower a +:+ lower b.
Proof. induction a as [|c a IH]; simpl; [done | by rewrite IH]. Qed.

(** A split of [lower s] comes from a split of [s]. *)
Lemma lower_split (s a' b' : string) :
  lower s = a' +:+ b' ->
  exists a b, s = a +:+ b /\ lower a = a' /\ lower b = b'.
Proof.
  revert s. induction a' as [|c a' IH]; intros s H; simpl in H.
  - by exists "", s.
  - destruct s as [|d s]; [discriminate H |]. simpl in H.
    injection H as Hc H. destruct (IH _ H) as (a & b & -> & Ha & Hb).
    exists (String d a), b. simpl. by rewrite Hc, Ha.
Qed.

Lemma contains_lower_iff (t s : string) :
  contains t (lower s) = true <-> occurs_ignoring_case t s.
Proof.
  rewrite contains_true_iff. split.
  - intros (pre' & post' & H).
    destruct (lower_split _ _ _ H) as (pre & rest & -> & Hpre & Hrest).
    destruct (lower_split _ _ _ Hrest) as (u & post & -> & Hu & Hpost).
    exists u. split; [done | by exists pre, post].
  - intros (u & <- & pre & post & ->).
    exists (lower pre), (lower post). by rewrite !lower_app.
Qed.

End Text.

(** ** The analyser *)

Section Analyser.
Import ApiServer.ResultsAnalyzer.

Variables (stamp_now : string) (review_write : option string).
Variables (er : execution_results) (oi : original_instructions).

Let steps := default [] (res_execution_steps er).
Let target := default "" (ins_target_url oi).

Lemma url_accessed_iff (url : string) (l : list step_dict) :
  url_accessed url l = true <->
  exists st, st ∈ l /\
    (occurs url (default "" (step_action st)) \/
     occurs_ignoring_case "navigate" (default "" (step_action st))).
Proof.
  unfold url_accessed. rewrite existsb_exists. split.
  - intros (st & Hin & H). exists st. split; [by apply list_elem_of_In |].
    apply orb_true_iff in H as [H | H].
    + right. by apply contains_lower_iff.
    + left. by apply contains_true_iff.
  - intros (st & Hin & H). exists st. split; [by apply list_elem_of_In |].
    apply orb_true_iff. destruct H as [H | H].
    + right. by apply contains_true_iff.
    + left. by apply contains_lower_iff.
Qed.

(** C6: in both programs [target_url_accessed] is true exactly when the
    action text of some step contains the target URL, or contains
    "navigate" in some mix of upper and lower case. *)
Theorem target_url_accessed_iff :
  (target_url_accessed
     (compliance_check (analyze_results stamp_now review_write er oi)) = true <->
   exists st, st ∈ steps /\
     (occurs target (default "" (step_action st)) \/
      occurs_ignoring_case "navigate" (default "" (step_action st)))) /\
  (target_url_accessed
     (Script.ResultsAnalyzer.compliance_check
        (Script.ResultsAnalyzer.analyze_results stamp_now review_write er oi)) = true <->
   exists st, st ∈ steps /\
     (occurs target (default "" (step_action st)) \/
      occurs_ignoring_case "navigate" (default "" (step_action st)))).
Proof. split; simpl; apply url_accessed_iff. Qed.

(** C10: with at least one step and a target URL that is empty or absent,
    both programs report [target_url_accessed = true], whatever the action
    texts are. *)
Theorem empty_target_url_is_always_accessed :
  steps <> [] ->
  ins_target_url oi = None \/ ins_target_url oi = Some "" ->
  target_url_accessed
    (compliance_check (analyze_results stamp_now review_write er oi)) = true /\
  target_url_accessed
    (Script.ResultsAnalyzer.compliance_check
       (Script.ResultsAnalyzer.analyze_results stamp_now review_write er oi)) = true.
Proof.
  intros Hne Hurl. simpl. fold steps.
  assert (default "" (ins_target_url oi) = "") as -> by (destruct Hurl as [-> | ->]; done).
  destruct steps as [|st l]; [done |].
  assert (url_accessed "" (st :: l) = true) as H; [| by rewrite H].
  unfold url_accessed. simpl. by rewrite contains_empty, orb_true_r.
Qed.

Lemma unmet_requirement (req cap : nat) :
  negb (req =? 0)%nat && (cap <? req)%nat =
  negb (match req with O => true | S _ => (req <=? cap)%nat end).
Proof.
  destruct req as [|n]; [done |]. simpl ((S n =? 0)%nat). simpl negb at 1.
  rewrite andb_true_l.
  destruct (Nat.ltb_spec cap (S n)), (Nat.leb_spec (S n) cap); simpl; (done || lia).
Qed.

(** C7, as the code has it: the recommendations are the messages of the
    rules that apply, in this order: failure, target URL not reached,
    screenshot requirement unmet, positive confirmation, and, in the
    service only and only when at least one screenshot was captured, the
    captured-count summary. *)
Theorem recommendations_follow_the_rule_table :
  (let rep := analyze_results stamp_now review_write er oi in
   let cc := compliance_check rep in
   let shots := screenshots_captured cc in
   recommendations rep =
   select
     [(negb (summary_success rep), "Task execution failed - check error logs");
      (negb (target_url_accessed cc),
       "Target URL " +:+ target +:+ " may not have been properly accessed");
      (negb (meets_requirements shots), "Not all required screenshots were captured");
      (summary_success rep && target_url_accessed cc,
       "Task appears to have completed successfully");
      (summary_success rep && target_url_accessed cc && (0 <? captured shots)%nat,
       "Successfully captured " +:+ pretty (captured shots) +:+ " screenshots")]) /\
  (let rep := Script.ResultsAnalyzer.analyze_results stamp_now review_write er oi in
   let cc := Script.ResultsAnalyzer.compliance_check rep in
   let shots := screenshots_captured cc in
   Script.ResultsAnalyzer.recommendations rep =
   select
     [(negb (Script.ResultsAnalyzer.summary_success rep),
       "Task execution failed - check error logs");
      (negb (target_url_accessed cc),
       "Target URL " +:+ target +:+ " may not have been properly accessed");
      (negb (meets_requirements shots), "Not all required screenshots were captured");
      (Script.ResultsAnalyzer.summary_success rep && target_url_accessed cc,
       "Task appears to have completed successfully")]).
Proof.
  split; cbn -[select pretty Nat.ltb Nat.leb Nat.eqb]; fold target.
  - unfold recommend. rewrite unmet_requirement.
    replace (match default [] (ins_screenshot_instructions oi) with
             | [] => true
             | _ :: _ => (length (default [] (ins_screenshot_instructions oi))
                          <=? length (default [] (res_screenshots er)))%nat
             end)
      with (match length (default [] (ins_screenshot_instructions oi)) with
            | O => true
            | S _ => (length (default [] (ins_screenshot_instructions oi))
                      <=? length (default [] (res_screenshots er)))%nat
            end)
      by (by destruct (default [] (ins_screenshot_instructions oi))).
    destruct (default false (res_success er)),
      (url_accessed target (default [] (res_execution_steps er))),
      (match length (default [] (ins_screenshot_instructions oi)) with
       | O => true | S _ => _ end),
      (length (default [] (res_screenshots er))); reflexivity.
  - unfold Script.ResultsAnalyzer.recommend.
    rewrite Nat.ltb_antisym.
    destruct (default false (res_success er)),
      (url_accessed target (default [] (res_execution_steps er))),
      (_ <=? _)%nat; reflexivity.
Qed.

End Analyser.

(** ** Rules for computations *)

Section Rules.
Import Py.
Context {S : Type}.

Lemma triple_ret {A} (P : S -> Prop) (a : A) (Q : A -> S -> Prop) E :
  (forall s, P s -> Q a s) -> triple P (mret a) Q E.
Proof. intros H s Hs. by apply H. Qed.

Lemma triple_bind {A B} (P : S -> Prop) (m : M S A) (k : A -> M S B)
    (Q : A -> S -> Prop) (Q' : B -> S -> Prop) E :
  triple P m Q E -> (forall a, triple (Q a) (k a) Q' E) ->
  triple P (m ≫= k) Q' E.
Proof.
  intros Hm Hk s Hs. specialize (Hm s Hs).
  unfold mbind, M_bind, bindM.
  destruct (m s) as [s' [a | msg]]; [by apply Hk | done].
Qed.

Lemma triple_lift {A} (P : S -> Prop) (o : outcome A) (Q : A -> S -> Prop) E :
  (forall s, P s -> match o with Ok a => Q a s | Raise msg => E msg s end) ->
  triple P (lift o) Q E.
Proof. intros H s Hs. unfold lift. specialize (H s Hs). by destruct o. Qed.

(** An expression that leaves the state alone. *)
Lemma triple_lift_frame {A} (P : S -> Prop) (o : outcome A) E :
  (forall msg s, P s -> E msg s) ->
  triple P (lift o) (fun _ => P) E.
Proof. intros H s Hs. unfold lift. destruct o; [done | by apply H]. Qed.

Lemma triple_modify (P : S -> Prop) (f : S -> S) (Q : unit -> S -> Prop) E :
  (forall s, P s -> Q tt (f s)) -> triple P (modify f) Q E.
Proof. intros H s Hs. by apply H. Qed.

Lemma triple_try {A} (P : S -> Prop) (body : M S A) (handler : string -> M S A)
    (Q : A -> S -> Prop) (E1 E2 : string -> S -> Prop) :
  triple P body Q E1 -> (forall msg, triple (E1 msg) (handler msg) Q E2) ->
  triple P (try_except body handler) Q E2.
Proof.
  intros Hb Hh s Hs. specialize (Hb s Hs). unfold try_except.
  destruct (body s) as [s' [a | msg]]; [done | by apply Hh].
Qed.

Lemma triple_weaken {A} (P P' : S -> Prop) (m : M S A)
    (Q Q' : A -> S -> Prop) (E E' : string -> S -> Prop) :
  triple P m Q E ->
  (forall s, P' s -> P s) -> (forall a s, Q a s -> Q' a s) ->
  (forall msg s, E msg s -> E' msg s) ->
  triple P' m Q' E'.
Proof.
  intros H HP HQ HE s Hs. specialize (H s (HP s Hs)).
  destruct (m s) as [s' [a | msg]]; [by apply HQ | by apply HE].
Qed.

End Rules.

(** ** The endpoints *)

Section Endpoints.
Import ApiServer.

(** C9: for a known task that is pending or running, [GET /task-results]
    and [POST /analyze-results] both answer with the status code 400 and
    leave the store as it is; [GET /task-results] answers with a body
    exactly when the task is completed or failed. *)
Theorem results_and_analysis_wait_for_the_end
    (w : world) (agent_run : Py.outcome string) (sv : server) (tid : string)
    (ti : task_info) :
  task_storage sv !! tid = Some ti ->
  (info_status ti = pending \/ info_status ti = running ->
   (exists detail, get_task_results sv tid = HTTPException 400 detail) /\
   (exists detail,
      analyze_results w agent_run sv tid = (sv, HTTPException 400 detail))) /\
  ((exists body, get_task_results sv tid = Reply body) <->
   info_status ti = completed \/ info_status ti = failed).
Proof.
  intros Hti. unfold get_task_results, analyze_results. rewrite Hti. split.
  - intros [-> | ->]; split; eauto.
  - destruct (info_status ti); split;
      (intros [body H] || intros [H | H]); (discriminate H || eauto).
Qed.

End Endpoints.

(** ** The normaliser of the service *)

Section Normaliser.
Import Py ApiServer.

Variables (e : env) (tid : string).

Ltac run := unfold mbind, mret, M_bind, M_ret, bindM, ret, lift, modify in *.

Lemma screenshot_loop_spec i st names si s :
  match screenshot_loop e tid i st names si s with
  | (s', Ok si') => same_core s s' /\ same_text si si'
  | (s', Raise _) => s' = s
  end.
Proof.
  induction names as [|attr rest IH]; cbn [screenshot_loop]; run; [done |].
  destruct (py_hasattr st attr) as [[|]|]; [| apply IH | done].
  destruct (py_getattr st attr) as [shot|]; [| done].
  destruct (py_bool shot) as [[|]|]; [| apply IH | done].
  destruct (store_screenshot e shot _); [done | apply IH].
Qed.

Lemma tuple_loop_spec i items si s :
  match tuple_loop e tid i items si s with
  | (s', Ok si') => same_core s s' /\ same_text si si'
  | (s', Raise _) => s' = s
  end.
Proof.
  induction items as [|item rest IH]; cbn [tuple_loop]; run; [done |].
  destruct (py_str item); [| done].
  destruct (py_hasattr item "screenshot") as [[|]|]; [| apply IH | done].
  destruct (py_getattr item "screenshot") as [shot|]; [| done].
  destruct (py_bool shot) as [[|]|]; [| apply IH | done].
  destruct (store_tuple_screenshot e shot _); [done | apply IH].
Qed.

Lemma tuple_head_extracted i st items si0 si1 :
  v_tuple st = Some items ->
  step_number si0 = (i + 1)%nat -> action si0 = "N/A" -> result si0 = "N/A" ->
  tuple_head items si0 = Ok si1 ->
  extracted i st si1.
Proof.
  intros Ht Hn Ha Hr H. unfold extracted, action_of, result_of. rewrite Ht.
  destruct items as [|x0 [|x1 rest]]; cbn in H.
  - injection H as <-. by rewrite Ha, Hr.
  - injection H as <-. by rewrite Ha, Hr.
  - unfold mbind, outcome_bind, bind in H.
    destruct (str_or_na x0) as [a|]; [| done].
    destruct (str_or_na x1) as [r|]; [| done].
    destruct (py_str x0); [| done]. destruct (py_str x1); [| done].
    by injection H as <-.
Qed.

Lemma process_step_spec i st s :
  match process_step e tid i st s with
  | (s', Ok _) =>
      exists si, extracted i st si /\
        execution_steps s' = (execution_steps s ++ [si])%list /\
        success s' = success s /\ error s' = error s
  | (s', Raise _) => s' = s
  end.
Proof.
  unfold process_step.
  set (si0 := {| step_number := i + 1; action := "N/A"; result := "N/A";
                 step_timestamp := py_string (now_iso e (i + 1));
                 screenshot := None; screenshot_url := None |}).
  destruct (v_tuple st) as [items|] eqn:Ht; run.
  - destruct (tuple_head items si0) as [si1|] eqn:Hh; [| done].
    pose proof (tuple_head_extracted i st items si0 si1 Ht eq_refl eq_refl eq_refl Hh)
      as (Hn & Ha & Hr).
    pose proof (tuple_loop_spec i items si1 s) as Hl.
    destruct (tuple_loop e tid i items si1 s) as [s1 [si2|]]; [| done].
    unfold same_core, same_text in Hl.
    destruct Hl as ((Hs & Hok & Herr) & (Hn2 & Ha2 & Hr2)).
    assert (extracted i st si2) as Hex
      by (unfold extracted; by rewrite Hn2, Ha2, Hr2).
    destruct (String.eqb (action si2) "N/A"); cbn; exists si2;
      by rewrite Hs, Hok, Herr.
  - destruct (extract_text st action_attrs) as [a|] eqn:Ha; [| done].
    destruct (extract_text st result_attrs) as [r|] eqn:Hr; [| done].
    destruct (extract_timestamp st (now_iso e (i + 1))) as [ts|]; [| done].
    match goal with
    | |- context [screenshot_loop e tid i st screenshot_attrs ?x s] =>
        pose proof (screenshot_loop_spec i st screenshot_attrs x s) as Hl;
        destruct (screenshot_loop e tid i st screenshot_attrs x s) as [s1 [si2|]];
        [| done]
    end.
    unfold same_core, same_text in Hl. cbn in Hl.
    destruct Hl as ((Hs & Hok & Herr) & (Hn2 & Ha2 & Hr2)).
    assert (extracted i st si2) as Hex
      by (unfold extracted, action_of, result_of; by rewrite Ht, Hn2, Ha2, Hr2).
    destruct (String.eqb (action si2) "N/A"); cbn; exists si2;
      by rewrite Hs, Hok, Herr.
Qed.

Lemma process_steps_spec l : forall i s,
  match process_steps e tid i l s with
  | (s', Ok _) =>
      exists sis, extracted_from i l sis /\
        execution_steps s' = (execution_steps s ++ sis)%list /\
        success s' = success s /\ error s' = error s
  | (s', Raise msg) =>
      exists pre bad post sis, l = (pre ++ bad :: post)%list /\
        extracted_from i pre sis /\
        raises_on e tid (i + length pre) bad msg /\
        execution_steps s' = (execution_steps s ++ sis)%list /\
        success s' = success s /\ error s' = error s
  end.
Proof.
  induction l as [|st l IH]; intros i s; cbn [process_steps]; run.
  - exists []. split; [constructor |]. by rewrite app_nil_r.
  - pose proof (process_step_spec i st s) as Hst.
    destruct (process_step e tid i st s) as [s1 [[]|msg]] eqn:Hrun.
    + destruct Hst as (si & Hex & Hs & Hok & Herr).
      specialize (IH (S i) s1).
      destruct (process_steps e tid (S i) l s1) as [s2 [[]|msg]].
      * destruct IH as (sis & Hsis & Hs2 & Hok2 & Herr2).
        exists (si :: sis). split; [by constructor |].
        by rewrite Hs2, Hs, <- app_assoc, Hok2, Herr2.
      * destruct IH as (pre & bad & post & sis & -> & Hsis & Hbad & Hs2 & Hok2 & Herr2).
        exists (st :: pre), bad, post, (si :: sis).
        split; [done |]. split; [by constructor |].
        split; [by replace (i + length (st :: pre))%nat
                     with (S i + length pre)%nat by (simpl; lia) |].
        by rewrite Hs2, Hs, <- app_assoc, Hok2, Herr2.
    + subst s1. exists [], st, l, [].
      split; [done |]. split; [constructor |].
      split; [exists s; rewrite Nat.add_0_r; by rewrite Hrun |].
      by rewrite app_nil_r.
Qed.

Lemma process_history_spec history td :
  match process_history e history tid (initial_results e td tid) with
  | (s', Ok _) =>
      first_block e tid history (execution_steps s') (success s') None /\
      error s' = None
  | (s', Raise msg) =>
      first_block e tid history (execution_steps s') false (Some msg) /\
      success s' = false /\ error s' = None
  end.
Proof.
  unfold process_history; run.
  destruct (history_list_of history) as [l|msg] eqn:Hl.
  2: { cbn. split; [| done]. constructor. by left. }
  destruct (py_bool history) as [b|msg] eqn:Hb.
  2: { cbn. split; [| done]. constructor. right. eauto. }
  destruct l as [|st l].
  { cbn. split; [| done]. by eapply block_empty. }
  set (s0 := set_debug_info _ _).
  pose proof (process_steps_spec (st :: l) 0 s0) as H.
  destruct (process_steps e tid 0 (st :: l) s0) as [s1 [[]|msg]].
  - destruct H as (sis & Hsis & Hs & Hok & Herr). cbn in Hs, Herr |- *.
    rewrite Hs, Herr. split; [| done]. by eapply block_complete.
  - destruct H as (pre & bad & post & sis & Hl' & Hsis & Hbad & Hs & Hok & Herr).
    cbn in Hs, Hok, Herr |- *. rewrite Hs, Hok, Herr. split; [| done].
    rewrite Hl' in Hl. by eapply block_stopped.
Qed.

(** The normaliser always returns, and its result is one of the four ends
    of the first block, with the error overwritten when the result file
    cannot be written. *)
Lemma save_execution_results_spec history td :
  exists r err,
    save_execution_results e history td tid = Ok r /\
    first_block e tid history (execution_steps r) (success r) err /\
    error r = final_error e err /\
    (dump_error e = None -> log_file r = Some (log_file_of e tid)).
Proof.
  unfold save_execution_results, save_body, try_except, final_error; run.
  pose proof (process_history_spec history td) as H.
  destruct (process_history e history tid (initial_results e td tid))
    as [s1 [[]|msg]].
  - destruct H as (Hb & Herr).
    destruct (dump_error e) as [m|]; cbn; eexists _, None;
      (split; [reflexivity |]); cbn; by rewrite ?Herr.
  - destruct H as (Hb & Hok & Herr).
    destruct (dump_error e) as [m|]; cbn; eexists _, (Some msg);
      (split; [reflexivity |]); cbn; by rewrite ?Hok.
Qed.

Lemma save_execution_results_returns history td :
  exists r, save_execution_results e history td tid = Ok r.
Proof. destruct (save_execution_results_spec history td) as (r & ? & ? & _). eauto. Qed.

End Normaliser.

(** ** The normaliser of the script *)

Section ScriptNormaliser.
Import Py Script.

Variable e : env.

Ltac run := unfold mbind, mret, M_bind, M_ret, bindM, ret, lift, modify in *.
Ltac appended := cbn; eexists; (split; [| split; [reflexivity |]]); done.

Lemma script_process_step_spec i st s :
  match process_step e i st s with
  | (s', Ok _) =>
      exists si, step_number si = (i + 1)%nat /\
        execution_steps s' = (execution_steps s ++ [si])%list /\
        success s' = success s /\ error s' = error s
  | (s', Raise _) => s' = s
  end.
Proof.
  unfold process_step; run.
  destruct (attr_text st "model_output") as [a|]; [| done].
  destruct (attr_text st "result") as [r|]; [| done].
  destruct (attr_timestamp st _) as [ts|]; [| done].
  destruct (py_hasattr st "screenshot") as [[|]|]; [| appended | done].
  destruct (py_getattr st "screenshot") as [shot|]; [| done].
  destruct (py_bool shot) as [[|]|]; [| appended | done].
  destruct (store_screenshot e shot _); appended.
Qed.

Lemma script_process_steps_spec l : forall i s,
  match process_steps e i l s with
  | (s', o) =>
      exists sis,
        execution_steps s' = (execution_steps s ++ sis)%list /\
        success s' = success s /\ error s' = error s /\
        match o with
        | Ok _ => length sis = length l
        | Raise _ => length sis < length l
        end
  end.
Proof.
  induction l as [|st l IH]; intros i s; cbn [process_steps]; run.
  - exists []. by rewrite app_nil_r.
  - pose proof (script_process_step_spec i st s) as Hst.
    destruct (process_step e i st s) as [s1 [[]|msg]].
    + destruct Hst as (si & Hn & Hs & Hok & Herr).
      specialize (IH (S i) s1).
      destruct (process_steps e (S i) l s1) as [s2 o].
      destruct IH as (sis & Hs2 & Hok2 & Herr2 & Hlen).
      exists (si :: sis). rewrite Hs2, Hs, <- app_assoc, Hok2, Herr2.
      repeat split; [done..|]. destruct o; simpl; lia.
    + subst s1. exists []. rewrite app_nil_r. repeat split; simpl; lia.
Qed.

(** The normaliser of the script always returns; a truthy history gives
    [success = true] exactly when the loop and the iterator end without an
    exception, even with no entry at all, and the outcome of writing the
    result file leaves [error] as it is. *)
Lemma script_save_execution_results_spec history td :
  exists r,
    save_execution_results e history td = Ok r /\
    (py_bool history = Ok false ->
     execution_steps r = [] /\ success r = false /\ error r = None) /\
    (success r = true ->
     error r = None /\ py_bool history = Ok true /\
     exists items, v_iter history = Some (items, None) /\
       length (execution_steps r) = length items) /\
    (success r = false -> error r = None -> py_bool history = Ok false) /\
    (forall items stop, v_iter history = Some (items, stop) ->
     length (execution_steps r) <= length items).
Proof.
  unfold save_execution_results, save_body, try_except, process_history; run.
  destruct (py_bool history) as [[|]|msg] eqn:Hb.
  - destruct (v_iter history) as [[items stop]|] eqn:Hit.
    + pose proof (script_process_steps_spec items 0 (initial_results e td)) as H.
      destruct (process_steps e 0 items (initial_results e td)) as [s1 o].
      destruct H as (sis & Hs & Hok & Herr & Hlen). cbn in Hs, Hok, Herr.
      destruct o as [[]|msg]; [destruct stop as [msg|] |];
        destruct (dump_error e); cbn; eexists; (split; [reflexivity |]); cbn;
        rewrite ?Hs, ?Hok, ?Herr;
        (split; [done |]); (split; [try done |]);
        try (intros _; repeat split; eauto; done);
        (split; [try done |]);
        try (intros items' stop' [= <- <-]; lia).
    + destruct (dump_error e); cbn; eexists; (split; [reflexivity |]); cbn;
        (split; [done |]); (split; [done |]); (split; [done |]); done.
  - destruct (dump_error e); cbn; eexists; (split; [reflexivity |]); cbn;
      (split; [done |]); (split; [done |]); (split; [done |]);
      intros; lia.
  - destruct (dump_error e); cbn; eexists; (split; [reflexivity |]); cbn;
      (split; [done |]); (split; [done |]); (split; [done |]);
      intros; lia.
Qed.

End ScriptNormaliser.


(** ** The orchestrator *)

Section Orchestrator.
Import Py ApiServer.

Variables (w : world) (td : task_details) (tid : string).
Variable base : list (string * status).

Lemma update_keeps_status (f : task_info -> task_info) log cur n E :
  (forall ti, info_status (f ti) = info_status ti) ->
  triple (task_at tid base log cur n) (update tid f)
    (fun _ => task_at tid base log cur n) E.
Proof.
  intros Hf sv (Hst & Hw & Hn). unfold update, status_in in *.
  destruct (task_storage sv !! tid) as [ti|] eqn:Hti; [| done].
  cbn in Hst. injection Hst as Hst.
  split; [| split]; cbn [task_storage status_writes close_calls]; [| done | done].
  unfold status_in. cbn [task_storage]. rewrite lookup_insert_eq. cbn. by rewrite Hf, Hst.
Qed.

Lemma set_status_logs (s : status) log cur n E :
  triple (task_at tid base log cur n) (set_status tid s)
    (fun _ => task_at tid base (log ++ [s]) s n) E.
Proof.
  intros sv (Hst & Hw & Hn). unfold set_status, status_in in *.
  destruct (task_storage sv !! tid) as [ti|] eqn:Hti; [| done].
  split; [| split]; cbn [task_storage status_writes close_calls]; [| | done].
  - unfold status_in. cbn [task_storage]. by rewrite lookup_insert_eq.
  - by rewrite Hw, fmap_app, app_assoc.
Qed.

Lemma close_browser_counts log cur n :
  triple (task_at tid base log cur n) (close_browser w)
    (fun _ => task_at tid base log cur (S n))
    (fun _ => task_at tid base log cur (S n)).
Proof.
  intros sv (Hst & Hw & Hn). unfold close_browser.
  destruct (effect (close_error w));
    (split; [| split]; cbn [task_storage status_writes close_calls];
     [done | done | by rewrite Hn]).
Qed.

Ltac run := unfold mbind, mret, M_bind, M_ret, bindM, ret, lift, modify in *.

(** The [try] block either ends with the record completed, after one call
    of [browser.close()], or raises with the record still running. *)
Lemma run_task_spec log n :
  triple (task_at tid base log running n) (run_task w td tid)
    (fun _ => task_at tid base (log ++ [completed]) completed (S n))
    (fun _ sv => task_at tid base log running n sv \/
                 task_at tid base log running (S n) sv).
Proof.
  unfold run_task.
  eapply triple_bind; [by apply update_keeps_status | intros ?].
  eapply triple_bind; [apply triple_lift_frame; by left | intros ?].
  eapply triple_bind; [by apply update_keeps_status | intros ?].
  eapply triple_bind; [apply triple_lift_frame; by left | intros history].
  eapply triple_bind; [apply triple_lift_frame; by left | intros t].
  eapply triple_bind with (Q := fun _ => task_at tid base log running n).
  { destruct t; [| by apply triple_ret].
    eapply triple_bind; [apply triple_lift_frame; by left | intros ?].
    by apply triple_ret. }
  intros ?.
  eapply triple_bind; [by apply update_keeps_status | intros ?].
  eapply triple_bind; [apply triple_lift_frame; by left | intros r].
  eapply triple_bind.
  { eapply triple_weaken; [apply close_browser_counts | done | done |].
    intros msg sv H. right. exact H. }
  intros ?. cbn beta.
  eapply triple_bind; [apply set_status_logs | intros ?].
  eapply triple_bind; [by apply update_keeps_status | intros ?].
  eapply triple_bind; [by apply update_keeps_status | intros ?].
  by apply triple_ret.
Qed.

(** The [except] block ends with the record failed and calls
    [browser.close()] on no path. *)
Lemma fail_task_spec msg log n E :
  triple (task_at tid base log running n) (fail_task w td tid msg)
    (fun _ sv => task_at tid base (log ++ [failed]) failed n sv /\
                 (info_error <$> task_storage sv !! tid) = Some (Some msg))
    E.
Proof.
  unfold fail_task.
  eapply triple_bind; [apply set_status_logs | intros ?].
  eapply triple_bind; [by apply update_keeps_status | intros ?].
  eapply triple_bind with
    (Q := fun _ sv => task_at tid base (log ++ [failed]) failed n sv /\
                      (info_error <$> task_storage sv !! tid) = Some (Some msg)).
  { intros sv (Hst & Hw & Hn). unfold update, status_in in *.
    destruct (task_storage sv !! tid) as [ti|] eqn:Hti; [| done].
    cbn in Hst. injection Hst as Hst.
    unfold task_at, status_in. cbn [task_storage status_writes close_calls].
    rewrite lookup_insert_eq. cbn. by rewrite Hst. }
  intros ?.
  eapply triple_bind with
    (Q := fun _ sv => task_at tid base (log ++ [failed]) failed n sv /\
                      (info_error <$> task_storage sv !! tid) = Some (Some msg)).
  { intros sv ((Hst & Hw & Hn) & Herr). unfold update, status_in in *.
    destruct (task_storage sv !! tid) as [ti|] eqn:Hti; [| done].
    cbn in Hst, Herr. injection Hst as Hst. injection Herr as Herr.
    unfold task_at, status_in. cbn [task_storage status_writes close_calls].
    rewrite lookup_insert_eq. cbn. by rewrite Hst, Herr. }
  intros ?. by apply triple_ret.
Qed.

(** [execute_task] on a pending record: the record becomes running, then
    either the set-up raises and it stays so, or it ends completed after one
    call of [browser.close()], or it ends failed. *)
Lemma execute_task_spec n :
  triple (task_at tid base [pending] pending n) (execute_task w td tid)
    (fun _ sv =>
       task_at tid base [pending; running; completed] completed (S n) sv \/
       (exists k, task_at tid base [pending; running; failed] failed k sv /\
                  is_Some (default None (info_error <$> task_storage sv !! tid))))
    (fun _ sv => task_at tid base [pending; running] running n sv).
Proof.
  unfold execute_task.
  eapply triple_bind; [apply set_status_logs | intros ?].
  eapply triple_bind; [by apply update_keeps_status | intros ?].
  eapply triple_bind; [by apply triple_lift_frame | intros ?].
  eapply triple_try.
  - eapply triple_weaken; [apply (run_task_spec [pending; running] n) | done | |].
    + intros r sv H. left. exact H.
    + intros msg sv H. exact H.
  - intros msg. cbn beta. intros sv [H | H].
    + pose proof (fail_task_spec msg [pending; running] n (fun _ _ => False) sv H) as Hf.
      destruct (fail_task w td tid msg sv) as [sv' [r|m]]; [| done].
      destruct Hf as [Hf Herr]. right. exists n. split; [done |]. by rewrite Herr.
    + pose proof (fail_task_spec msg [pending; running] (S n) (fun _ _ => False) sv H) as Hf.
      destruct (fail_task w td tid msg sv) as [sv' [r|m]]; [| done].
      destruct Hf as [Hf Herr]. right. exists (S n). split; [done |]. by rewrite Herr.
Qed.

(** When [browser_agent.run()] raises, the [try] block is left before the
    call of [browser.close()]. *)
Lemma run_task_raising msg log n :
  create_browser_agent w = Ok tt -> run w = Raise msg ->
  triple (task_at tid base log running n) (run_task w td tid)
    (fun _ _ => False)
    (fun m sv => m = msg /\ task_at tid base log running n sv).
Proof.
  intros Hc Hr. unfold run_task. rewrite Hc, Hr.
  eapply triple_bind; [by apply update_keeps_status | intros ?].
  eapply triple_bind with (Q := fun _ => task_at tid base log running n);
    [apply triple_lift; by intros s Hs | intros ?].
  eapply triple_bind; [by apply update_keeps_status | intros ?].
  eapply triple_bind with (Q := fun _ _ => False); [| by intros ? ? ?].
  apply triple_lift. by intros s Hs.
Qed.

(** So the run ends with the record failed, the message stored as its
    error, and the count of calls of [browser.close()] as it was. *)
Lemma raising_run_leaves_the_browser_open msg n sv :
  setup_error w = None -> create_browser_agent w = Ok tt -> run w = Raise msg ->
  task_at tid base [pending] pending n sv ->
  exists sv' r,
    execute_task w td tid sv = (sv', Ok r) /\
    task_at tid base [pending; running; failed] failed n sv' /\
    info_error <$> task_storage sv' !! tid = Some (Some msg).
Proof.
  intros Hs Hc Hr Hsv.
  assert (triple (task_at tid base [pending] pending n) (execute_task w td tid)
            (fun _ sv' =>
               task_at tid base [pending; running; failed] failed n sv' /\
               info_error <$> task_storage sv' !! tid = Some (Some msg))
            (fun _ _ => False)) as H.
  { unfold execute_task. rewrite Hs.
    eapply triple_bind; [apply set_status_logs | intros ?].
    eapply triple_bind; [by apply update_keeps_status | intros ?].
    eapply triple_bind with (Q := fun _ => task_at tid base [pending; running] running n);
      [apply triple_lift; by intros s0 Hs0 | intros ?].
    eapply triple_try with
      (E1 := fun m sv0 => m = msg /\ task_at tid base [pending; running] running n sv0).
    - eapply triple_weaken;
        [by apply (run_task_raising msg [pending; running] n) | done | done | done].
    - intros m sv0 [-> H0]. by apply (fail_task_spec msg [pending; running] n). }
  specialize (H sv Hsv).
  destruct (execute_task w td tid sv) as [sv' [r|m]]; [| done].
  by exists sv', r.
Qed.

End Orchestrator.

(** ** The life cycle of a task *)

Section LifeCycle.
Import Py ApiServer.

Lemma transition_climbs a b : transition a b -> rank a < rank b.
Proof. destruct 1; simpl; lia. Qed.

(** C8: a submission creates the record with status pending; the queued run
    assigns running first and then at most one of completed and failed, so
    the statuses assigned to the record form one of three traces, each a
    path of the life cycle; no transition leaves completed or failed, and
    every transition climbs in rank. *)
Theorem task_status_follows_the_life_cycle
    (w : world) (td : task_details) (sv : server) :
  api_key w = true ->
  let tid := "task_" +:+ id_stamp w in
  status_in (execute_test w td sv).1 tid = Some pending /\
  (exists trace,
     status_writes (submit_and_run w td sv).1 =
       (status_writes sv ++ ((fun s => (tid, s)) <$> trace))%list /\
     (trace = [pending; running] \/
      trace = [pending; running; completed] \/
      trace = [pending; running; failed]) /\
     legal trace /\
     status_in (submit_and_run w td sv).1 tid = last trace) /\
  (forall s, ~ transition completed s) /\
  (forall s, ~ transition failed s) /\
  (forall a b, transition a b -> rank a < rank b).
Proof.
  intros Hkey tid.
  unfold submit_and_run, execute_test. rewrite Hkey. fold tid.
  set (sv1 := {| task_storage := _ |}).
  assert (task_at tid (status_writes sv) [pending] pending (close_calls sv) sv1) as H1.
  { unfold task_at, status_in, sv1. cbn [task_storage status_writes close_calls].
    by rewrite lookup_insert_eq. }
  split; [apply H1 |]. split; [| split; [| split]].
  - pose proof (execute_task_spec w td tid (status_writes sv) (close_calls sv) sv1 H1) as H.
    cbn [fst]. destruct (execute_task w td tid sv1) as [sv2 [r|msg]]; cbn [fst].
    + destruct H as [(Hst & Hw & _) | (k & (Hst & Hw & _) & _)].
      * exists [pending; running; completed]. repeat split; eauto; constructor.
      * exists [pending; running; failed]. repeat split; eauto; constructor.
    + destruct H as (Hst & Hw & _).
      exists [pending; running]. repeat split; eauto; constructor.
  - intros s H. inversion H.
  - intros s H. inversion H.
  - apply transition_climbs.
Qed.

End LifeCycle.

(** ** The normaliser of the service, entry by entry *)

Section Reference.
Import Py ApiServer.

Variables (e : env) (tid : string).

Ltac run := unfold mbind, mret, M_bind, M_ret, bindM, ret, lift, modify in *.

(** Whether the loop over the screenshot attributes stores a screenshot,
    and whether it raises, does not depend on what was recorded before. *)
Lemma screenshot_loop_uniform i st names si :
  exists o : outcome bool,
    forall s,
      screenshot_loop e tid i st names si s =
        match o with
        | Ok true =>
            (add_screenshot (screenshot_path (screenshot_filename e tid i))
               (screenshot_url_of (screenshot_filename e tid i)) s,
             Ok (with_screenshot (screenshot_path (screenshot_filename e tid i))
                   (screenshot_url_of (screenshot_filename e tid i)) si))
        | Ok false => (s, Ok si)
        | Raise msg => (s, Raise msg)
        end.
Proof.
  induction names as [|attr rest IH]; cbn [screenshot_loop]; run.
  - by exists (Ok false).
  - destruct (py_hasattr st attr) as [[|]|msg]; [| exact IH | by exists (Raise msg)].
    destruct (py_getattr st attr) as [shot|msg]; [| by exists (Raise msg)].
    destruct (py_bool shot) as [[|]|msg]; [| exact IH | by exists (Raise msg)].
    destruct (store_screenshot e shot _); [by exists (Ok true) | exact IH].
Qed.

Lemma tuple_loop_uniform i items si :
  exists o : outcome bool,
    forall s,
      tuple_loop e tid i items si s =
        match o with
        | Ok true =>
            (add_screenshot (screenshot_path (screenshot_filename e tid i))
               (screenshot_url_of (screenshot_filename e tid i)) s,
             Ok (with_screenshot (screenshot_path (screenshot_filename e tid i))
                   (screenshot_url_of (screenshot_filename e tid i)) si))
        | Ok false => (s, Ok si)
        | Raise msg => (s, Raise msg)
        end.
Proof.
  induction items as [|item rest IH]; cbn [tuple_loop]; run.
  - by exists (Ok false).
  - destruct (py_str item) as [t|msg]; [| by exists (Raise msg)].
    destruct (py_hasattr item "screenshot") as [[|]|msg];
      [| exact IH | by exists (Raise msg)].
    destruct (py_getattr item "screenshot") as [shot|msg]; [| by exists (Raise msg)].
    destruct (py_bool shot) as [[|]|msg]; [| exact IH | by exists (Raise msg)].
    destruct (store_tuple_screenshot e shot _); [by exists (Ok true) | exact IH].
Qed.

Lemma tuple_head_keeps items si0 si1 :
  tuple_head items si0 = Ok si1 ->
  step_number si1 = step_number si0 /\ step_timestamp si1 = step_timestamp si0 /\
  screenshot si1 = screenshot si0 /\ screenshot_url si1 = screenshot_url si0 /\
  match items with
  | x0 :: x1 :: _ => str_or_na x0 = Ok (action si1) /\ str_or_na x1 = Ok (result si1)
  | _ => si1 = si0
  end.
Proof.
  unfold tuple_head. destruct items as [|x0 [|x1 rest]]; try (by intros [= <-]).
  unfold mbind, outcome_bind, bind.
  destruct (str_or_na x0) as [a|]; [| done]. destruct (str_or_na x1) as [r|]; [| done].
  destruct (py_str x0); [| done]. destruct (py_str x1); [| done].
  by intros [= <-].
Qed.

(** An entry records one step or raises, and which of the two it does,
    with which step or message, does not depend on what was recorded
    before. *)
Lemma process_step_uniform i st :
  (exists si, records_step e tid i st si /\ extracted i st si /\
              shot_fields_ok e tid si) \/
  (exists msg, raises_at e tid i st msg).
Proof.
  unfold records_step, raises_at, process_step.
  set (si0 := {| step_number := i + 1; action := "N/A"; result := "N/A";
                 step_timestamp := py_string (now_iso e (i + 1));
                 screenshot := None; screenshot_url := None |}).
  destruct (v_tuple st) as [items|] eqn:Ht; run.
  - destruct (tuple_head items si0) as [si1|msg] eqn:Hh; [| right; by exists msg].
    destruct (tuple_head_keeps _ _ _ Hh) as (Hn & _ & Hp & Hu & Htext).
    cbn in Hn, Hp, Hu.
    assert (extracted i st si1) as Hex.
    { unfold extracted, action_of, result_of. rewrite Ht. split; [done |].
      destruct items as [|x0 [|x1 rest]]; [by subst si1.. | done]. }
    destruct (tuple_loop_uniform i items si1) as [[[|]|msg] Hl].
    + left.
      exists (with_screenshot (screenshot_path (screenshot_filename e tid i))
                (screenshot_url_of (screenshot_filename e tid i)) si1).
      split; [| split].
      * intros s. rewrite Hl. cbn [action with_screenshot].
        unfold record_step, conversation_of.
        destruct (String.eqb (action si1) "N/A") eqn:Ha; cbn; by rewrite Hn, Ha.
      * done.
      * right. cbn. by rewrite Hn.
    + left. exists si1. split; [| split].
      * intros s. rewrite Hl. unfold record_step, conversation_of. rewrite Hp, Hn.
        by destruct (String.eqb (action si1) "N/A").
      * done.
      * by left.
    + right. exists msg. intros s. by rewrite Hl.
  - destruct (extract_text st action_attrs) as [a|msg] eqn:Ha; [| right; by exists msg].
    destruct (extract_text st result_attrs) as [r|msg] eqn:Hr; [| right; by exists msg].
    destruct (extract_timestamp st (now_iso e (i + 1))) as [ts|msg];
      [| right; by exists msg].
    set (si1 := {| step_number := i + 1; action := a; result := r;
                   step_timestamp := ts; screenshot := None; screenshot_url := None |}).
    assert (extracted i st si1) as Hex.
    { unfold extracted, action_of, result_of. by rewrite Ht. }
    destruct (screenshot_loop_uniform i st screenshot_attrs si1) as [[[|]|msg] Hl].
    + left.
      exists (with_screenshot (screenshot_path (screenshot_filename e tid i))
                (screenshot_url_of (screenshot_filename e tid i)) si1).
      split; [| split].
      * intros s. rewrite Hl. cbn [action with_screenshot si1].
        unfold record_step, conversation_of. cbn.
        by destruct (String.eqb a "N/A").
      * done.
      * by right.
    + left. exists si1. split; [| split].
      * intros s. rewrite Hl. unfold record_step, conversation_of. cbn.
        by destruct (String.eqb a "N/A").
      * done.
      * by left.
    + right. exists msg. intros s. by rewrite Hl.
Qed.

(** Some state of [results]. *)
Let blank : results :=
  initial_results e {| target_url := ""; task_description := "";
                       screenshot_instructions := [] |} tid.







(** Where the loop has stopped. *)
Lemma processed_split i l sis msg :
  processed e tid i l sis (Some msg) ->
  exists pre bad post,
    l = (pre ++ bad :: post)%list /\ processed e tid i pre sis None /\
    raises_at e tid (i + length pre) bad msg.
Proof.
  remember (Some msg) as err eqn:Herr.
  induction 1 as [i | i st si l sis err Hsi _ IH | i st msg' l Hmsg]; [done | |].
  - destruct (IH Herr) as (pre & bad & post & -> & Hpre & Hbad).
    exists (st :: pre), bad, post. split; [done |]. split; [by constructor |].
    cbn [length]. by replace (i + S (length pre))%nat with (S i + length pre)%nat by lia.
  - injection Herr as ->. exists [], st, l. split; [done |]. split; [constructor |].
    by rewrite Nat.add_0_r.
Qed.






(** Whether an entry raises does not depend on the state in which it is
    processed. *)
Lemma raises_at_iff i st msg :
  raises_at e tid i st msg <-> exists s, (process_step e tid i st s).2 = Raise msg.
Proof.
  split.
  - intros H. exists blank. by rewrite H.
  - intros [s Hs]. destruct (process_step_uniform i st) as [(si & Hsi & _) | (m & Hm)].
    + by rewrite Hsi in Hs.
    + rewrite Hm in Hs. cbn in Hs. by injection Hs as <-.
Qed.





End Reference.


(** ** The normaliser of the script, entry by entry *)

Section ScriptReference.
Import Py Script.

Variable e : env.

Ltac run := unfold mbind, mret, M_bind, M_ret, bindM, ret, lift, modify in *.

Let script_blank : results :=
  initial_results e {| ApiServer.target_url := ""; ApiServer.task_description := "";
                       ApiServer.screenshot_instructions := [] |}.

(** An entry records one step or raises, whatever was recorded before. *)
Lemma script_process_step_uniform i st :
  (exists si, script_records_step e i st si /\ step_number si = (i + 1)%nat /\
              attr_text st "model_output" = Ok (action si) /\
              attr_text st "result" = Ok (result si)) \/
  (exists msg, script_raises_at e i st msg).
Proof.
  unfold script_records_step, script_raises_at, process_step, script_record_step; run.
  destruct (attr_text st "model_output") as [a|msg]; [| right; by exists msg].
  destruct (attr_text st "result") as [r|msg]; [| right; by exists msg].
  destruct (attr_timestamp st _) as [ts|msg]; [| right; by exists msg].
  destruct (py_hasattr st "screenshot") as [[|]|msg];
    [| left; by eexists {| screenshot := None |} | right; by exists msg].
  destruct (py_getattr st "screenshot") as [shot|msg]; [| right; by exists msg].
  destruct (py_bool shot) as [[|]|msg];
    [| left; by eexists {| screenshot := None |} | right; by exists msg].
  destruct (store_screenshot e shot (screenshot_path e i));
    left; [by eexists {| screenshot := Some _ |} | by eexists {| screenshot := None |}].
Qed.

Lemma script_recorded_steps sis : forall s,
  execution_steps (fold_left (fun acc si => script_record_step si acc) sis s) =
    (execution_steps s ++ sis)%list /\
  success (fold_left (fun acc si => script_record_step si acc) sis s) = success s /\
  error (fold_left (fun acc si => script_record_step si acc) sis s) = error s.
Proof.
  induction sis as [|si sis IH]; intros s; cbn [fold_left].
  - by rewrite app_nil_r.
  - destruct (IH (script_record_step si s)) as (-> & -> & ->).
    unfold script_record_step. destruct (screenshot si); cbn; by rewrite <- app_assoc.
Qed.

Lemma script_records_step_unique i st si si' :
  script_records_step e i st si -> script_records_step e i st si' -> si = si'.
Proof.
  intros H H'. specialize (H script_blank). rewrite H' in H.
  apply (f_equal (fun p => execution_steps p.1)) in H. cbn [fst] in H.
  destruct (script_recorded_steps [si] script_blank) as [H1 _].
  destruct (script_recorded_steps [si'] script_blank) as [H2 _].
  cbn [fold_left] in H1, H2. rewrite H1, H2 in H.
  apply app_inv_head in H. congruence.
Qed.

Lemma script_records_or_raises i st si msg :
  script_records_step e i st si -> script_raises_at e i st msg -> False.
Proof. intros H H'. specialize (H script_blank). by rewrite H' in H. Qed.




Lemma script_processed_split i l sis msg :
  script_processed e i l sis (Some msg) ->
  exists pre bad post,
    l = (pre ++ bad :: post)%list /\ script_processed e i pre sis None /\
    script_raises_at e (i + length pre) bad msg.
Proof.
  remember (Some msg) as err eqn:Herr.
  induction 1 as [i | i st si l sis err Hsi _ IH | i st msg' l Hmsg]; [done | |].
  - destruct (IH Herr) as (pre & bad & post & -> & Hpre & Hbad).
    exists (st :: pre), bad, post. split; [done |]. split; [by constructor |].
    cbn [length]. by replace (i + S (length pre))%nat with (S i + length pre)%nat by lia.
  - injection Herr as ->. exists [], st, l. split; [done |]. split; [constructor |].
    by rewrite Nat.add_0_r.
Qed.



Lemma script_raises_at_iff i st msg :
  script_raises_at e i st msg <-> exists s, (process_step e i st s).2 = Raise msg.
Proof.
  split.
  - intros H. exists script_blank. by rewrite H.
  - intros [s Hs].
    destruct (script_process_step_uniform i st) as [(si & Hsi & _) | (m & Hm)].
    + by rewrite Hsi in Hs.
    + rewrite Hm in Hs. cbn in Hs. by injection Hs as <-.
Qed.

Lemma script_records_step_extracted i st si :
  script_records_step e i st si ->
  step_number si = (i + 1)%nat /\
  attr_text st "model_output" = Ok (action si) /\
  attr_text st "result" = Ok (result si).
Proof.
  intros H.
  destruct (script_process_step_uniform i st) as [(si' & Hsi' & Hex) | (m & Hm)].
  - by rewrite (script_records_step_unique _ _ _ _ H Hsi').
  - by destruct (script_records_or_raises _ _ _ _ H Hm).
Qed.





End ScriptReference.

(** ** What the normalisers guarantee *)

Section NormaliserClaims.
Import Py.






Lemma history_entries_unique history l l' :
  history_entries history l -> history_entries history l' -> l = l'.
Proof. intros H H'. inversion H; inversion H'; congruence. Qed.

Lemma history_breaks_or_entries history msg l :
  history_breaks history msg -> history_entries history l -> False.
Proof.
  intros H H'. inversion H as [items m Hi | m Hno Hb]; inversion H'; subst; congruence.
Qed.














End NormaliserClaims.

(** ** Concrete runs *)

Section Runs.
Import Py Sample SampleRun.





(** C7 as stated fails: a successful run that reached the target URL and
    captured no screenshot gets the positive confirmation alone, without a
    captured-count summary. *)
Lemma no_summary_without_screenshots :
  let rep := ApiServer.ResultsAnalyzer.analyze_results "20250601_120010" None
               (one_step "navigate to http://x.test") (asked (Some "http://x.test")) in
  ApiServer.ResultsAnalyzer.summary_success rep = true /\
  ApiServer.ResultsAnalyzer.target_url_accessed
    (ApiServer.ResultsAnalyzer.compliance_check rep) = true /\
  ApiServer.ResultsAnalyzer.recommendations rep =
    ["Task appears to have completed successfully"].
Proof. by vm_compute. Qed.

(** C2 fails on the code: when [browser_agent.run()] raises, the record
    ends failed with the message as error, and [browser.close()] has not
    been called; on the path without exception it is called once.  The
    script behaves alike. *)
Theorem failure_path_never_closes_the_browser :
  (let sv := (ApiServer.submit_and_run boom details fresh).1 in
   status_in sv task = Some ApiServer.failed /\
   ApiServer.info_error <$> ApiServer.task_storage sv !! task = Some (Some "boom") /\
   ApiServer.close_calls sv = 0) /\
  ApiServer.close_calls (ApiServer.submit_and_run calm details fresh).1 = 1 /\
  (exists r, Script.execute_task script_boom details 0 = (0, Ok r) /\
     Script.success r = false /\ Script.error r = Some "boom") /\
  (Script.execute_task script_calm details 0).1 = 1.
Proof.
  repeat split; try (by vm_compute).
  eexists. split; [vm_compute; reflexivity |]. by vm_compute.
Qed.

(** The life cycle at a sample submission. *)
Lemma task_status_follows_the_life_cycle_witness :
  ApiServer.api_key calm = true /\
  exists trace,
    ApiServer.status_writes (ApiServer.submit_and_run calm details fresh).1 =
      (ApiServer.status_writes fresh ++
       ((fun s => ("task_" +:+ ApiServer.id_stamp calm, s)) <$> trace))%list /\
    legal trace.
Proof.
  split; [reflexivity |].
  destruct (task_status_follows_the_life_cycle calm details fresh eq_refl)
    as (_ & (trace & Hw & _ & Hlegal & _) & _).
  exists trace. split; [exact Hw | exact Hlegal].
Defined.

(** The endpoints at a store whose only task is running. *)
Lemma results_and_analysis_wait_for_the_end_witness :
  ApiServer.task_storage (holding ApiServer.running) !! task <> None /\
  exists detail,
    ApiServer.get_task_results (holding ApiServer.running) task =
    ApiServer.HTTPException 400 detail.
Proof.
  split; [by vm_compute |].
  destruct (ApiServer.task_storage (holding ApiServer.running) !! task)
    as [ti|] eqn:Hti; [| by vm_compute in Hti].
  assert (ApiServer.info_status ti = ApiServer.running) as Hst
    by (vm_compute in Hti; by injection Hti as <-).
  destruct (results_and_analysis_wait_for_the_end calm (Ok "report")
              (holding ApiServer.running) task ti Hti) as [H _].
  destruct (H (or_intror Hst)) as [Hget _]. exact Hget.
Defined.

(** The analysers at a step that says "click", without target URL. *)
Lemma empty_target_url_is_always_accessed_witness :
  ApiServer.ResultsAnalyzer.target_url_accessed
    (ApiServer.ResultsAnalyzer.compliance_check
       (ApiServer.ResultsAnalyzer.analyze_results "20250601_120010" None
          (one_step "click") (asked None))) = true.
Proof.
  refine (proj1 (empty_target_url_is_always_accessed "20250601_120010" None
                   (one_step "click") (asked None) _ _)).
  - discriminate.
  - left. reflexivity.
Defined.



(** With a full disk, the screenshot of the first entry cannot be stored:
    both entries are recorded all the same, only the screenshot is
    missing. *)
Example unstorable_screenshot_keeps_the_step :
  (exists r,
     ApiServer.save_execution_results full_disk
       (py_list_of [shot_entry; good_entry] "[<Step object>, <Step object>]")
       details "t1" = Ok r /\
     ApiServer.action <$> ApiServer.execution_steps r = ["open"; "go to the page"] /\
     ApiServer.success r = true /\ ApiServer.screenshots r = []) /\
  (exists r,
     ApiServer.save_execution_results quiet
       (py_list_of [shot_entry; good_entry] "[<Step object>, <Step object>]")
       details "t1" = Ok r /\
     ApiServer.screenshots r =
       ["operation_logs/screenshots/t1_step_1_20250601_120000.png"]).
Proof.
  repeat split; eexists; (split; [vm_compute; reflexivity |]); by vm_compute.
Qed.


End Runs.

(** * Further properties *)

(** ** More on the analysers *)

Section AnalyserMore.
Import ApiServer.ResultsAnalyzer.

Variables (stamp_now : string) (review_write : option string).
Variables (er : execution_results) (oi : original_instructions).

Lemma confirmation_is_no_other_message (target : string) (n : nat) :
  "Task appears to have completed successfully" <> "Task execution failed - check error logs" /\
  "Task appears to have completed successfully" <>
    "Target URL " +:+ target +:+ " may not have been properly accessed" /\
  "Task appears to have completed successfully" <> "Not all required screenshots were captured" /\
  "Task appears to have completed successfully" <>
    "Successfully captured " +:+ pretty n +:+ " screenshots".
Proof. repeat split; discriminate. Qed.

Lemma recommend_nonempty ok acc target req cap :
  recommend ok acc target req cap <> [].
Proof. unfold recommend. destruct ok, acc; simpl; try done; by repeat case_match. Qed.

Lemma script_recommend_nonempty ok acc target req cap :
  Script.ResultsAnalyzer.recommend ok acc target req cap <> [].
Proof.
  unfold Script.ResultsAnalyzer.recommend.
  destruct ok, acc; simpl; try done; by repeat case_match.
Qed.

Lemma recommend_confirmation ok acc target req cap :
  "Task appears to have completed successfully" ∈ recommend ok acc target req cap <->
  ok = true /\ acc = true.
Proof.
  pose proof (confirmation_is_no_other_message target cap) as (H1 & H2 & H3 & H4).
  unfold recommend.
  destruct ok, acc, (negb (req =? 0)%nat && (cap <? req)%nat), (negb (cap =? 0)%nat);
    cbn -[pretty "+:+"]; rewrite ?elem_of_cons, ?elem_of_nil; intuition congruence.
Qed.

Lemma script_recommend_confirmation ok acc target req cap :
  "Task appears to have completed successfully"
    ∈ Script.ResultsAnalyzer.recommend ok acc target req cap <->
  ok = true /\ acc = true.
Proof.
  pose proof (confirmation_is_no_other_message target cap) as (H1 & H2 & H3 & H4).
  unfold Script.ResultsAnalyzer.recommend.
  destruct ok, acc, (cap <? req)%nat;
    cbn -[pretty "+:+"]; rewrite ?elem_of_cons, ?elem_of_nil; intuition congruence.
Qed.

(** X1: both analysers always give at least one recommendation, and the
    positive confirmation is among them exactly when the run succeeded and
    the target URL was reached. *)
Theorem recommendations_are_never_empty :
  (let rep := analyze_results stamp_now review_write er oi in
   recommendations rep <> [] /\
   ("Task appears to have completed successfully" ∈ recommendations rep <->
    summary_success rep = true /\
    target_url_accessed (compliance_check rep) = true)) /\
  (let rep := Script.ResultsAnalyzer.analyze_results stamp_now review_write er oi in
   Script.ResultsAnalyzer.recommendations rep <> [] /\
   ("Task appears to have completed successfully"
      ∈ Script.ResultsAnalyzer.recommendations rep <->
    Script.ResultsAnalyzer.summary_success rep = true /\
    target_url_accessed (Script.ResultsAnalyzer.compliance_check rep) = true)).
Proof.
  split; cbn -[recommend Script.ResultsAnalyzer.recommend].
  - split; [apply recommend_nonempty | apply recommend_confirmation].
  - split; [apply script_recommend_nonempty | apply script_recommend_confirmation].
Qed.

(** X2: the two analysers give the same compliance check, in which
    [meets_requirements] says that at least as many screenshots were
    captured as were required. *)
Theorem analysers_agree_on_compliance :
  compliance_check (analyze_results stamp_now review_write er oi) =
  Script.ResultsAnalyzer.compliance_check
    (Script.ResultsAnalyzer.analyze_results stamp_now review_write er oi) /\
  (meets_requirements
     (screenshots_captured
        (compliance_check (analyze_results stamp_now review_write er oi))) = true <->
   length (default [] (ins_screenshot_instructions oi))
     <= length (default [] (res_screenshots er))).
Proof.
  cbn. destruct (default [] (ins_screenshot_instructions oi)) as [|x l] eqn:Hreq.
  - split; [done |]. simpl. split; [lia | done].
  - split; [done |]. apply Nat.leb_le.
Qed.

(** X3: with a target URL that is empty or absent, [target_url_accessed]
    says no more than that there is at least one step, in both programs. *)
Theorem empty_target_url_counts_steps :
  ins_target_url oi = None \/ ins_target_url oi = Some "" ->
  (target_url_accessed
     (compliance_check (analyze_results stamp_now review_write er oi)) = true <->
   default [] (res_execution_steps er) <> []) /\
  (target_url_accessed
     (Script.ResultsAnalyzer.compliance_check
        (Script.ResultsAnalyzer.analyze_results stamp_now review_write er oi)) = true <->
   default [] (res_execution_steps er) <> []).
Proof.
  intros Hurl. cbn.
  assert (default "" (ins_target_url oi) = "") as -> by (destruct Hurl as [-> | ->]; done).
  assert (url_accessed "" (default [] (res_execution_steps er)) = true <->
          default [] (res_execution_steps er) <> []) as H; [| by split].
  destruct (default [] (res_execution_steps er)) as [|st l]; [done |].
  unfold url_accessed. simpl. rewrite contains_empty, orb_true_r. done.
Qed.

End AnalyserMore.

(** ** More on the endpoints *)

Section EndpointsMore.
Import Py ApiServer.

(** X4: for an id that is not in the store, the status, results and
    analysis endpoints all answer 404 "Task not found", and the analysis
    leaves the store as it is. *)
Theorem unknown_task_is_not_found
    (w : world) (agent_run : outcome string) (sv : server) (tid : string) :
  task_storage sv !! tid = None ->
  get_task_status sv tid = HTTPException 404 "Task not found" /\
  get_task_results sv tid = HTTPException 404 "Task not found" /\
  analyze_results w agent_run sv tid = (sv, HTTPException 404 "Task not found").
Proof.
  intros H. unfold get_task_status, get_task_results, analyze_results.
  by rewrite H.
Qed.

(** X5: without API key a submission is refused with 500 and changes
    nothing.  With the key it answers the id "task_" followed by the time
    stamp and stores a record for it, which the status endpoint shows:
    pending, queued, started and not ended, with the instructions and
    without error or results.  Every other id reads as before. *)
Theorem submission_creates_a_pending_record
    (w : world) (td : task_details) (sv : server) :
  (api_key w = false ->
   execute_test w td sv = (sv, HTTPException 500 "GEMINI_API_KEY not configured")) /\
  (api_key w = true ->
   let tid := "task_" +:+ id_stamp w in
   let sv' := (execute_test w td sv).1 in
   (execute_test w td sv).2 = Reply tid /\
   (exists ti, task_storage sv' !! tid = Some ti /\
      get_task_status sv' tid = Reply ti /\
      info_status ti = pending /\
      progress ti = Some "Task queued for execution" /\
      start_time ti = Some (submit_iso w) /\ end_time ti = None /\
      instructions ti = td /\ info_error ti = None /\ info_results ti = None) /\
   (forall other, other <> tid ->
      get_task_status sv' other = get_task_status sv other /\
      get_task_results sv' other = get_task_results sv other) /\
   close_calls sv' = close_calls sv).
Proof.
  unfold execute_test. split; intros ->; [done |].
  cbn [fst snd]. split; [done |]. split; [| split; [| done]].
  - eexists. unfold get_task_status. cbn [task_storage].
    rewrite lookup_insert_eq. by repeat split.
  - intros other Hne. unfold get_task_status, get_task_results. cbn [task_storage].
    by rewrite lookup_insert_ne.
Qed.

(** X6: the analysis of a completed task.  Without API key, or when the
    analysis raises, the answer is 500 and the store is unchanged.
    Otherwise the answer is the text of the analysis, which is stored with
    the task; the status, the results and the error of the task, every
    other task and the count of calls of [browser.close()] stay as they
    were. *)
Theorem analysis_only_adds_the_analysis
    (w : world) (agent_run : outcome string) (sv : server) (tid : string)
    (ti : task_info) :
  task_storage sv !! tid = Some ti -> info_status ti = completed ->
  match api_key w, agent_run with
  | false, _ =>
      analyze_results w agent_run sv tid =
        (sv, HTTPException 500 "GEMINI_API_KEY not configured")
  | true, Raise msg =>
      analyze_results w agent_run sv tid =
        (sv, HTTPException 500 ("Analysis failed: " +:+ msg))
  | true, Ok content =>
      exists sv',
        analyze_results w agent_run sv tid = (sv', Reply content) /\
        (exists ti', task_storage sv' !! tid = Some ti' /\
           analysis ti' = Some content /\
           info_status ti' = completed /\
           info_results ti' = info_results ti /\
           info_error ti' = info_error ti /\
           end_time ti' = end_time ti) /\
        (forall other, other <> tid ->
           task_storage sv' !! other = task_storage sv !! other) /\
        get_task_results sv' tid = get_task_results sv tid /\
        close_calls sv' = close_calls sv /\
        status_writes sv' = status_writes sv
  end.
Proof.
  intros Hti Hst. unfold analyze_results. rewrite Hti, Hst.
  destruct (api_key w); [| done]. destruct agent_run as [content|msg]; [| done].
  eexists. split; [reflexivity |]. cbn [task_storage close_calls status_writes].
  split; [| split; [| split; [| done]]].
  - eexists. rewrite lookup_insert_eq. by repeat split.
  - intros other Hne. by rewrite lookup_insert_ne.
  - unfold get_task_results. cbn [task_storage].
    rewrite lookup_insert_eq, Hti. cbn. by rewrite Hst.
Qed.

End EndpointsMore.

(** ** What the normaliser keeps in order *)

Section NormaliserInvariants.
Import Py ApiServer.

Variables (e : env) (tid : string).

Ltac run := unfold mbind, mret, M_bind, M_ret, bindM, ret, lift, modify in *.

Lemma screenshot_loop_exact i st names si s :
  match screenshot_loop e tid i st names si s with
  | (s', Ok si') =>
      (s' = s /\ si' = si) \/
      (s' = add_screenshot (screenshot_path (screenshot_filename e tid i))
              (screenshot_url_of (screenshot_filename e tid i)) s /\
       si' = with_screenshot (screenshot_path (screenshot_filename e tid i))
               (screenshot_url_of (screenshot_filename e tid i)) si)
  | (s', Raise _) => s' = s
  end.
Proof.
  induction names as [|attr rest IH]; cbn [screenshot_loop]; run; [by left |].
  destruct (py_hasattr st attr) as [[|]|]; [| apply IH | done].
  destruct (py_getattr st attr) as [shot|]; [| done].
  destruct (py_bool shot) as [[|]|]; [| apply IH | done].
  destruct (store_screenshot e shot _); [by right | apply IH].
Qed.

Lemma tuple_loop_exact i items si s :
  match tuple_loop e tid i items si s with
  | (s', Ok si') =>
      (s' = s /\ si' = si) \/
      (s' = add_screenshot (screenshot_path (screenshot_filename e tid i))
              (screenshot_url_of (screenshot_filename e tid i)) s /\
       si' = with_screenshot (screenshot_path (screenshot_filename e tid i))
               (screenshot_url_of (screenshot_filename e tid i)) si)
  | (s', Raise _) => s' = s
  end.
Proof.
  induction items as [|item rest IH]; cbn [tuple_loop]; run; [by left |].
  destruct (py_str item); [| done].
  destruct (py_hasattr item "screenshot") as [[|]|]; [| apply IH | done].
  destruct (py_getattr item "screenshot") as [shot|]; [| done].
  destruct (py_bool shot) as [[|]|]; [| apply IH | done].
  destruct (store_tuple_screenshot e shot _); [by right | apply IH].
Qed.

Lemma tuple_head_fields items si0 si1 :
  tuple_head items si0 = Ok si1 ->
  step_number si1 = step_number si0 /\ screenshot si1 = screenshot si0 /\
  screenshot_url si1 = screenshot_url si0.
Proof.
  destruct items as [|x0 [|x1 rest]]; cbn; intros H.
  - by injection H as <-.
  - by injection H as <-.
  - unfold mbind, outcome_bind, bind in H.
    destruct (str_or_na x0); [| done]. destruct (str_or_na x1); [| done].
    destruct (py_str x0); [| done]. destruct (py_str x1); [| done].
    by injection H as <-.
Qed.

(** A step that is processed without exception is recorded as a whole; a
    step that raises leaves [results] untouched. *)
Lemma process_step_exact i st s :
  match process_step e tid i st s with
  | (s', Ok _) =>
      exists si, step_number si = (i + 1)%nat /\ shot_fields_ok e tid si /\
                 s' = record_step si s
  | (s', Raise _) => s' = s
  end.
Proof.
  unfold process_step.
  set (si0 := {| step_number := i + 1; action := "N/A"; result := "N/A";
                 step_timestamp := py_string (now_iso e (i + 1));
                 screenshot := None; screenshot_url := None |}).
  destruct (v_tuple st) as [items|] eqn:Ht; run.
  - destruct (tuple_head items si0) as [si1|] eqn:Hh; [| done].
    destruct (tuple_head_fields _ _ _ Hh) as (Hn & Hp & Hu). cbn in Hn, Hp, Hu.
    pose proof (tuple_loop_exact i items si1 s) as Hl.
    destruct (tuple_loop e tid i items si1 s) as [s1 [si2|]]; [| done].
    destruct Hl as [[-> ->] | [-> ->]].
    + destruct (String.eqb (action si1) "N/A") eqn:Ha; cbn;
        (exists si1; split; [done |]; split; [by left |]);
        unfold record_step, conversation_of; by rewrite Hp, Hn, Ha.
    + cbn [action with_screenshot].
      destruct (String.eqb (action si1) "N/A") eqn:Ha; cbn;
        (exists (with_screenshot (screenshot_path (screenshot_filename e tid i))
                   (screenshot_url_of (screenshot_filename e tid i)) si1);
         split; [exact Hn |]; split; [right; cbn; by rewrite Hn |]);
        unfold record_step, conversation_of; cbn; by rewrite Hn, Ha.
  - destruct (extract_text st action_attrs) as [a|]; [| done].
    destruct (extract_text st result_attrs) as [r|]; [| done].
    destruct (extract_timestamp st (now_iso e (i + 1))) as [ts|]; [| done].
    match goal with
    | |- context [screenshot_loop e tid i st screenshot_attrs ?x s] =>
        pose proof (screenshot_loop_exact i st screenshot_attrs x s) as Hl;
        destruct (screenshot_loop e tid i st screenshot_attrs x s) as [s1 [si2|]];
        [| done]
    end.
    destruct Hl as [[-> ->] | [-> ->]].
    + cbn [action with_screenshot].
      destruct (String.eqb a "N/A") eqn:Ha; cbn;
        (match goal with |- context [add_step ?x _] => exists x end;
         split; [reflexivity |]; split; [by left |]);
        unfold record_step, conversation_of; cbn; by rewrite Ha.
    + cbn [action with_screenshot].
      destruct (String.eqb a "N/A") eqn:Ha; cbn;
        (match goal with |- context [add_step ?x _] => exists x end;
         split; [reflexivity |]; split; [by right |]);
        unfold record_step, conversation_of; cbn; by rewrite Ha.
Qed.

Lemma set_fields_keep_tidy s :
  tidy e tid s ->
  (forall n, tidy e tid (set_debug_info n s)) /\
  (forall b, tidy e tid (set_success b s)) /\
  (forall err, tidy e tid (set_error err s)) /\
  (forall f, tidy e tid (set_log_file f s)).
Proof. intros H. split; [| split; [| split]]; intros; exact H. Qed.

Lemma record_step_tidy si s :
  tidy e tid s ->
  step_number si = (length (execution_steps s) + 1)%nat ->
  shot_fields_ok e tid si ->
  tidy e tid (record_step si s).
Proof.
  intros (Hnum & Hshots & Hp & Hu & Hconv) Hn Hsi.
  assert (with_action (execution_steps s ++ [si]) =
          (with_action (execution_steps s) ++
           (if String.eqb (action si) "N/A" then [] else [si]))%list) as Hfilter.
  { unfold with_action. rewrite filter_app. f_equal.
    rewrite filter_cons, filter_nil.
    destruct (String.eqb_spec (action si) "N/A"); by case_decide. }
  assert (execution_steps (record_step si s) = (execution_steps s ++ [si])%list) as Hsteps.
  { unfold record_step.
    by destruct (screenshot si), (screenshot_url si), (String.eqb (action si) "N/A"). }
  assert (screenshots (record_step si s) =
          (screenshots s ++ omap screenshot [si])%list /\
          screenshot_urls (record_step si s) =
          (screenshot_urls s ++ omap screenshot_url [si])%list) as [Hp' Hu'].
  { unfold record_step.
    destruct Hsi as [[H1 H2] | [H1 H2]]; cbn [omap list_omap]; rewrite H1, H2;
      destruct (String.eqb (action si) "N/A"); cbn; by rewrite ?app_nil_r. }
  assert (full_conversation (record_step si s) =
          (full_conversation s ++
           (if String.eqb (action si) "N/A" then [] else [conversation_of si]))%list)
    as Hconv'.
  { unfold record_step.
    destruct (screenshot si), (screenshot_url si), (String.eqb (action si) "N/A");
      cbn; by rewrite ?app_nil_r. }
  unfold tidy. rewrite Hsteps, Hp', Hu', Hconv', Hfilter.
  rewrite !fmap_app, !omap_app, length_app, seq_app, Hnum, Hp, Hu, Hconv.
  repeat split.
  - cbn. by rewrite Hn, Nat.add_comm.
  - apply Forall_app. split; [done | by constructor].
  - by destruct (String.eqb (action si) "N/A").
Qed.

Lemma process_steps_tidy l : forall i s,
  tidy e tid s -> i = length (execution_steps s) ->
  tidy e tid (process_steps e tid i l s).1.
Proof.
  induction l as [|st l IH]; intros i s Hs Hi; cbn [process_steps]; run; [done |].
  pose proof (process_step_exact i st s) as Hst.
  destruct (process_step e tid i st s) as [s1 [[]|msg]]; [| by subst s1].
  destruct Hst as (si & Hn & Hok & ->).
  assert (tidy e tid (record_step si s)) as H1
    by (apply record_step_tidy; [done | by rewrite Hn, Hi | done]).
  specialize (IH (S i) (record_step si s) H1).
  destruct (process_steps e tid (S i) l (record_step si s)) as [s2 o] eqn:Hrun.
  assert (tidy e tid s2) as H2.
  { apply IH. unfold record_step.
    destruct (screenshot si), (screenshot_url si), (String.eqb (action si) "N/A");
      cbn; rewrite length_app; simpl; lia. }
  by destruct o.
Qed.

(** The result of the normaliser is in order, whatever the history and
    the files. *)
Lemma save_execution_results_tidy history td :
  exists r, save_execution_results e history td tid = Ok r /\ tidy e tid r.
Proof.
  assert (tidy e tid (initial_results e td tid)) as H0 by (by repeat split).
  assert (tidy e tid (process_history e history tid (initial_results e td tid)).1) as H1.
  { unfold process_history; run.
    destruct (history_list_of history) as [l|]; [| done].
    destruct (py_bool history); [| done].
    destruct l as [|st l]; [done |].
    set (s0 := set_debug_info _ _).
    pose proof (process_steps_tidy (st :: l) 0 s0 H0 eq_refl) as H.
    destruct (process_steps e tid 0 (st :: l) s0) as [s1 [[]|msg]]; [| done].
    by apply set_fields_keep_tidy. }
  unfold save_execution_results, save_body, try_except; run.
  destruct (process_history e history tid (initial_results e td tid)) as [s1 [[]|msg]];
    cbn [fst] in H1; destruct (dump_error e);
    cbn; eexists; (split; [reflexivity |]);
    repeat apply set_fields_keep_tidy; done.
Qed.

Lemma string_length_app (a b : string) :
  String.length (a +:+ b) = (String.length a + String.length b)%nat.
Proof. induction a as [|c a IH]; simpl; [done | by rewrite IH]. Qed.

Lemma string_app_inv_tail (x y b : string) : x +:+ b = y +:+ b -> x = y.
Proof.
  revert y. induction x as [|c x IH]; intros [|d y] H; simpl in H.
  - done.
  - apply (f_equal String.length) in H. simpl in H.
    rewrite !string_length_app in H. simpl in H. lia.
  - apply (f_equal String.length) in H. simpl in H.
    rewrite !string_length_app in H. simpl in H. lia.
  - injection H as -> H. by rewrite (IH _ H).
Qed.

Lemma omap_length_le {A B} (f : A -> option B) (l : list A) :
  length (omap f l) <= length l.
Proof.
  induction l as [|x l IH]; [done |]. cbn [omap list_omap].
  destruct (f x); simpl; lia.
Qed.

Lemma shot_name_inj n m : shot_name e tid n = shot_name e tid m -> n = m.
Proof.
  unfold shot_name. intros H.
  apply (inj (String.app tid)) in H. simpl in H.
  apply (inj (String.app "_step_")) in H.
  apply string_app_inv_tail in H. by apply (inj pretty).
Qed.

Lemma distinct_numbers_distinct_files (l : list step_info) :
  NoDup (step_number <$> l) -> Forall (shot_fields_ok e tid) l ->
  NoDup (omap screenshot l).
Proof.
  induction l as [|si l IH]; intros Hnd Hok; [constructor |].
  rewrite fmap_cons in Hnd. apply NoDup_cons in Hnd as [Hfresh Hnd].
  apply Forall_cons in Hok as [Hsi Hok]. specialize (IH Hnd Hok).
  cbn [omap list_omap]. destruct (screenshot si) as [p|] eqn:Hp; [| done].
  apply NoDup_cons. split; [| done].
  intros Hin. apply list_elem_of_omap in Hin as (sj & Hj & Hpj).
  rewrite Forall_forall in Hok. specialize (Hok sj Hj).
  destruct Hsi as [[Hs _] | [Hs _]]; [congruence |].
  destruct Hok as [[Hs' _] | [Hs' _]]; [congruence |].
  rewrite Hp in Hs. rewrite Hpj in Hs'. rewrite Hs in Hs'.
  injection Hs' as Hs'. simpl in Hs'.
  apply shot_name_inj in Hs'. apply Hfresh. rewrite Hs'.
  by apply list_elem_of_fmap_2.
Qed.


(** X8: in the result of the normaliser of the service, the list of
    screenshots and the list of their URLs are the screenshot fields of the
    steps, in the order of the steps; so both lists have the same length,
    at most one entry per step, and a step has a screenshot file exactly
    when it has a screenshot URL, both named after the number of the
    step. *)
Theorem screenshots_belong_to_steps (history : value) (td : task_details) :
  exists r,
    save_execution_results e history td tid = Ok r /\
    screenshots r = omap screenshot (execution_steps r) /\
    screenshot_urls r = omap screenshot_url (execution_steps r) /\
    length (screenshots r) = length (screenshot_urls r) /\
    length (screenshots r) <= length (execution_steps r) /\
    Forall (shot_fields_ok e tid) (execution_steps r).
Proof.
  destruct (save_execution_results_tidy history td)
    as (r & Hr & Hnum & Hok & Hp & Hu & _).
  exists r. split; [done |]. split; [done |]. split; [done |].
  split; [| split; [| done]].
  - rewrite Hp, Hu. clear -Hok.
    induction Hok as [|si l Hsi _ IH]; [done |]. cbn [omap list_omap].
    destruct Hsi as [[H1 H2] | [H1 H2]]; rewrite H1, H2; cbn; by rewrite ?IH.
  - rewrite Hp. apply omap_length_le.
Qed.

(** X9: no two screenshots of one result of the normaliser of the service
    have the same file: the file of a step is named after the number of the
    step. *)
Theorem screenshot_files_are_distinct (history : value) (td : task_details) :
  exists r,
    save_execution_results e history td tid = Ok r /\ NoDup (screenshots r).
Proof.
  destruct (save_execution_results_tidy history td)
    as (r & Hr & Hnum & Hok & Hp & _).
  exists r. split; [done |]. rewrite Hp.
  apply distinct_numbers_distinct_files; [| done].
  rewrite Hnum. apply NoDup_seq.
Qed.

(** X10: [full_conversation] lists exactly the steps whose action is not
    the sentinel "N/A", in the order of the steps, each with its number,
    its action and its time stamp. *)
Theorem conversation_lists_the_steps_with_an_action
    (history : value) (td : task_details) :
  exists r,
    save_execution_results e history td tid = Ok r /\
    full_conversation r = conversation_of <$> with_action (execution_steps r).
Proof.
  destruct (save_execution_results_tidy history td)
    as (r & Hr & _ & _ & _ & _ & Hconv).
  by exists r.
Qed.

End NormaliserInvariants.

(** ** More on the orchestrator *)

Section OrchestratorMore.
Import Py ApiServer.

Variables (w : world) (td : task_details) (tid : string).
Variable store0 : gmap string task_info.
Variable ti0 : task_info.

(** The record while the run is under way. *)
Let under_way (ti : task_info) : Prop :=
  same_origin ti0 ti /\ info_status ti = running /\ info_error ti = info_error ti0.

Lemma update_run_state f (holds holds' : task_info -> Prop) n E :
  (forall ti, holds ti -> holds' (f ti)) ->
  triple (run_state tid store0 holds n) (update tid f)
    (fun _ => run_state tid store0 holds' n) E.
Proof.
  intros Hf sv ((ti & Hti & Hholds) & Hothers & Hn). unfold update. rewrite Hti.
  split; [| split]; cbn [task_storage close_calls]; [| | done].
  - exists (f ti). rewrite lookup_insert_eq. eauto.
  - intros other Hne. rewrite lookup_insert_ne by done. by apply Hothers.
Qed.

Lemma set_status_run_state s (holds holds' : task_info -> Prop) n E :
  (forall ti, holds ti -> holds' (with_status s ti)) ->
  triple (run_state tid store0 holds n) (set_status tid s)
    (fun _ => run_state tid store0 holds' n) E.
Proof.
  intros Hf sv ((ti & Hti & Hholds) & Hothers & Hn). unfold set_status. rewrite Hti.
  split; [| split]; cbn [task_storage close_calls]; [| | done].
  - exists (with_status s ti). rewrite lookup_insert_eq. eauto.
  - intros other Hne. rewrite lookup_insert_ne by done. by apply Hothers.
Qed.

Lemma close_run_state (holds : task_info -> Prop) n :
  triple (run_state tid store0 holds n) (close_browser w)
    (fun _ sv => run_state tid store0 holds (S n) sv /\ close_error w = None)
    (fun msg sv => run_state tid store0 holds (S n) sv /\ close_error w = Some msg).
Proof.
  intros sv (Hrec & Hothers & Hn). unfold close_browser, effect.
  destruct (close_error w) as [msg|];
    (split; [| done]); unfold run_state; (split; [| split]);
    cbn [task_storage close_calls]; (done || by rewrite Hn).
Qed.

(** A step that raises ends the block. *)
Lemma triple_raises {S A B} (P : S -> Prop) (msg : string) (k : A -> M S B)
    (Q : B -> S -> Prop) (E : string -> S -> Prop) :
  (forall s, P s -> E msg s) ->
  triple P (lift (Raise msg) ≫= k) Q E.
Proof. intros H s Hs. cbn. by apply H. Qed.

(** A step that returns goes on with the rest. *)
Lemma triple_returns {S A B} (P : S -> Prop) (a : A) (k : A -> M S B)
    (Q : B -> S -> Prop) (E : string -> S -> Prop) :
  triple P (k a) Q E -> triple P (lift (Ok a) ≫= k) Q E.
Proof. intros H s Hs. cbn. by apply H. Qed.

Lemma under_way_progress p ti : under_way ti -> under_way (with_progress p ti).
Proof. by intros H. Qed.

(** The [try] block in full: how it ends, and why. *)
Lemma run_task_ends n :
  triple (run_state tid store0 under_way n) (run_task w td tid)
    (fun r sv =>
       run_state tid store0
         (fun ti => ended w ti0 r ti /\ info_status ti = completed /\
                    info_error ti = info_error ti0) (S n) sv /\
       exists h r0,
         create_browser_agent w = Ok tt /\ run w = Ok h /\ countable h /\
         close_error w = None /\
         save_execution_results (files w) h td tid = Ok r0 /\
         r = decorated w tid r0)
    (fun msg sv =>
       exists k, run_state tid store0 under_way (n + k) sv /\ failure w msg k).
Proof.
  unfold run_task.
  eapply triple_bind; [by apply update_run_state, under_way_progress | intros ?].
  destruct (create_browser_agent w) as [[]|msg] eqn:Hc.
  2: { apply triple_raises. intros s Hs. exists 0. rewrite Nat.add_0_r.
       split; [done | by constructor]. }
  apply triple_returns.
  eapply triple_bind; [by apply update_run_state, under_way_progress | intros ?].
  destruct (run w) as [h|msg] eqn:Hr.
  2: { apply triple_raises. intros s Hs. exists 0. rewrite Nat.add_0_r.
       split; [done | by apply fails_to_run]. }
  apply triple_returns.
  destruct (py_bool h) as [b|msg] eqn:Hb.
  2: { apply triple_raises. intros s Hs. exists 0. rewrite Nat.add_0_r.
       split; [done |]. eapply fails_to_count; eauto. }
  apply triple_returns.
  assert (b = true /\ (exists msg, py_list h = Raise msg) \/ countable h) as [[-> [msg Hl]] | Hcount].
  { destruct b; [| right; by left].
    destruct (py_list h) as [l|msg] eqn:Hl; [right; right; eauto | left; eauto]. }
  { rewrite Hl.
    eapply triple_bind with (Q := fun _ _ => False); [| by intros ? ? ?].
    apply triple_raises. intros s Hs. exists 0. rewrite Nat.add_0_r.
    split; [done |]. eapply fails_to_count; eauto. }
  eapply triple_bind with (Q := fun _ => run_state tid store0 under_way n).
  { destruct b; [| by apply triple_ret].
    destruct Hcount as [Hf | [_ [l Hl]]]; [congruence |]. rewrite Hl.
    apply triple_returns. by apply triple_ret. }
  intros ?.
  eapply triple_bind; [by apply update_run_state, under_way_progress | intros ?].
  destruct (save_execution_results_returns (files w) tid h td) as [r0 Hsave].
  rewrite Hsave. apply triple_returns.
  eapply triple_bind.
  { eapply triple_weaken; [apply close_run_state | done | done |].
    intros msg s [Hs Hclose]. exists 1. rewrite Nat.add_1_r.
    split; [exact Hs |]. eapply fails_to_close; eauto. }
  intros ?. cbn beta.
  eapply triple_bind with
    (Q := fun _ sv =>
            run_state tid store0
              (fun ti => same_origin ti0 ti /\ info_status ti = completed /\
                         info_error ti = info_error ti0) (S n) sv /\
            close_error w = None).
  { intros s [Hs Hclose].
    pose proof (set_status_run_state completed under_way
                  (fun ti => same_origin ti0 ti /\ info_status ti = completed /\
                             info_error ti = info_error ti0) (S n)
                  (fun _ _ => False)) as H.
    specialize (H (fun ti Hti => ltac:(by destruct Hti as (? & _ & ?))) s Hs).
    destruct (set_status tid completed s) as [s' [[]|]]; [by split | done]. }
  intros ?.
  eapply triple_bind with
    (Q := fun _ sv =>
            run_state tid store0
              (fun ti => same_origin ti0 ti /\ info_status ti = completed /\
                         info_error ti = info_error ti0 /\
                         end_time ti = Some (end_iso w)) (S n) sv /\
            close_error w = None).
  { intros s [Hs Hclose].
    pose proof (update_run_state (with_end_time (end_iso w))
                  (fun ti => same_origin ti0 ti /\ info_status ti = completed /\
                             info_error ti = info_error ti0)
                  (fun ti => same_origin ti0 ti /\ info_status ti = completed /\
                             info_error ti = info_error ti0 /\
                             end_time ti = Some (end_iso w)) (S n)
                  (fun _ _ => False)) as H.
    specialize (H (fun ti Hti => ltac:(by destruct Hti as (? & ? & ?))) s Hs).
    destruct (update tid (with_end_time (end_iso w)) s) as [s' [[]|]]; [by split | done]. }
  intros ?.
  eapply triple_bind with
    (Q := fun _ sv =>
            run_state tid store0
              (fun ti => ended w ti0 (decorated w tid r0) ti /\
                         info_status ti = completed /\
                         info_error ti = info_error ti0) (S n) sv /\
            close_error w = None).
  { intros s [Hs Hclose].
    pose proof (update_run_state (with_results (decorated w tid r0))
                  (fun ti => same_origin ti0 ti /\ info_status ti = completed /\
                             info_error ti = info_error ti0 /\
                             end_time ti = Some (end_iso w))
                  (fun ti => ended w ti0 (decorated w tid r0) ti /\
                             info_status ti = completed /\
                             info_error ti = info_error ti0) (S n)
                  (fun _ _ => False)) as H.
    specialize (H (fun ti Hti => ltac:(by destruct Hti as (? & ? & ? & ?))) s Hs).
    unfold decorated in H |- *. cbv zeta.
    destruct (update tid (with_results _) s) as [s' [[]|]];
      [by split | done]. }
  intros ?. apply triple_ret. intros s [Hs Hclose].
  split; [exact Hs |]. exists h, r0. by repeat split.
Qed.

(** The [except] block in full. *)
Lemma fail_task_ends msg n E :
  triple (run_state tid store0 under_way n) (fail_task w td tid msg)
    (fun r sv =>
       r = error_result w td tid msg
             (match create_browser_agent w with Ok _ => true | Raise _ => false end) /\
       run_state tid store0
         (fun ti => ended w ti0 r ti /\ info_status ti = failed /\
                    info_error ti = Some msg) n sv)
    E.
Proof.
  unfold fail_task.
  set (r := error_result w td tid msg _).
  eapply triple_bind.
  { apply set_status_run_state with
      (holds' := fun ti => same_origin ti0 ti /\ info_status ti = failed).
    by intros ti (? & _ & _). }
  intros ?. eapply triple_bind.
  { apply update_run_state with
      (holds' := fun ti => same_origin ti0 ti /\ info_status ti = failed /\
                           end_time ti = Some (end_iso w)).
    by intros ti (? & ?). }
  intros ?. eapply triple_bind.
  { apply update_run_state with
      (holds' := fun ti => same_origin ti0 ti /\ info_status ti = failed /\
                           end_time ti = Some (end_iso w) /\
                           info_error ti = Some msg).
    by intros ti (? & ? & ?). }
  intros ?. eapply triple_bind.
  { apply update_run_state with
      (holds' := fun ti => ended w ti0 r ti /\ info_status ti = failed /\
                           info_error ti = Some msg).
    by intros ti (? & ? & ? & ?). }
  intros ?. by apply triple_ret.
Qed.

(** [execute_task] in full, for a task that is in the store: it raises
    only when the logging cannot be set up, with the record running;
    otherwise the record ends completed, with the decorated result of the
    normaliser, or failed, with the result built from the message. *)
Lemma execute_task_ends n :
  triple (run_state tid store0 (fun ti => ti = ti0) n) (execute_task w td tid)
    (fun r sv =>
       setup_error w = None /\
       ((run_state tid store0
           (fun ti => ended w ti0 r ti /\ info_status ti = completed /\
                      info_error ti = info_error ti0) (S n) sv /\
         exists h r0,
           create_browser_agent w = Ok tt /\ run w = Ok h /\ countable h /\
           close_error w = None /\
           save_execution_results (files w) h td tid = Ok r0 /\
           r = decorated w tid r0) \/
        (exists msg k,
           failure w msg k /\
           r = error_result w td tid msg
                 (match create_browser_agent w with Ok _ => true | Raise _ => false end) /\
           run_state tid store0
             (fun ti => ended w ti0 r ti /\ info_status ti = failed /\
                        info_error ti = Some msg) (n + k) sv)))
    (fun msg sv =>
       setup_error w = Some msg /\ run_state tid store0 under_way n sv).
Proof.
  unfold execute_task.
  eapply triple_bind.
  { apply set_status_run_state with (holds' := under_way). by intros ti ->. }
  intros ?.
  eapply triple_bind; [by apply update_run_state, under_way_progress | intros ?].
  destruct (setup_error w) as [msg|] eqn:Hsetup.
  { apply triple_raises. by intros s Hs. }
  apply triple_returns.
  eapply triple_try.
  - eapply triple_weaken; [apply run_task_ends | done | | ].
    + intros r s H. split; [done |]. left. exact H.
    + intros msg s H. exact H.
  - intros msg s (k & Hs & Hfail). cbn beta.
    pose proof (fail_task_ends msg (n + k) (fun _ _ => False) s Hs) as H.
    destruct (fail_task w td tid msg s) as [s' [r|]]; [| done].
    destruct H as [-> H]. split; [done |]. right. exists msg, k.
    split; [exact Hfail | split; [reflexivity | exact H]].
Qed.

End OrchestratorMore.

(** ** What a run leaves in the store *)

Section RunProperties.
Import Py ApiServer.

Variables (w : world) (td : task_details) (tid : string).

Lemma run_state_now (sv : server) (ti0 : task_info) :
  task_storage sv !! tid = Some ti0 ->
  run_state tid (task_storage sv) (fun ti => ti = ti0) (close_calls sv) sv.
Proof. intros H. split; [by exists ti0 | by split]. Qed.

Lemma decorated_fields (r0 : results) :
  success (decorated w tid r0) = success r0 /\
  error (decorated w tid r0) = error r0 /\
  execution_steps (decorated w tid r0) = execution_steps r0 /\
  full_conversation (decorated w tid r0) = full_conversation r0 /\
  screenshots (decorated w tid r0) =
    (screenshots r0 ++ manual_path (initial_shot w) ++ manual_path (final_shot w))%list /\
  screenshot_urls (decorated w tid r0) =
    (screenshot_urls r0 ++ manual_url (initial_shot w) ++ manual_url (final_shot w))%list /\
  extra_files (decorated w tid r0) =
    (extra_files r0 ++ log_files w tid ++ thoughts_file tid)%list.
Proof.
  unfold decorated, log_files, thoughts_file.
  destruct (initial_shot w) as [[p1 u1]|], (final_shot w) as [[p2 u2]|];
    cbn; rewrite <- ?app_assoc, ?app_nil_r; by repeat split.
Qed.

(** A run with nothing raised, in full. *)
Lemma clean_run (sv : server) (ti0 : task_info) (h : value) :
  task_storage sv !! tid = Some ti0 ->
  setup_error w = None -> create_browser_agent w = Ok tt ->
  run w = Ok h -> countable h -> close_error w = None ->
  exists sv' r0,
    save_execution_results (files w) h td tid = Ok r0 /\
    execute_task w td tid sv = (sv', Ok (decorated w tid r0)) /\
    run_state tid (task_storage sv)
      (fun ti => ended w ti0 (decorated w tid r0) ti /\ info_status ti = completed /\
                 info_error ti = info_error ti0) (S (close_calls sv)) sv'.
Proof.
  intros Hti Hsetup Hc Hr Hcount Hclose.
  pose proof (execute_task_ends w td tid (task_storage sv) ti0 (close_calls sv) sv
                (run_state_now sv ti0 Hti)) as H.
  destruct (execute_task w td tid sv) as [sv' [r|msg]].
  - destruct H as [_ [(Hs & h' & r0 & _ & Hr' & _ & _ & Hsave & ->) | (msg & k & Hf & _)]].
    + rewrite Hr in Hr'. injection Hr' as <-. by exists sv', r0.
    + exfalso. destruct Hf as [msg Hc' | msg Hc' Hr' | h' msg Hc' Hr' Hb | h' msg Hc' Hr' Hcount' Hclose'];
        try congruence.
      rewrite Hr in Hr'. injection Hr' as <-.
      destruct Hcount as [Hb0 | [Hb0 [l Hl]]], Hb as [Hb | [Hb Hl']]; congruence.
  - destruct H as [H _]. congruence.
Qed.

(** A run that fails, in full: the cause of the failure decides the
    message and the number of calls of [browser.close()]. *)
Lemma failed_run (sv : server) (ti0 : task_info) (msg : string) (k : nat) :
  task_storage sv !! tid = Some ti0 ->
  setup_error w = None -> failure w msg k ->
  (forall msg' k', failure w msg' k' -> msg' = msg /\ k' = k) ->
  close_error w <> None \/ k = 0 ->
  exists sv',
    let r := error_result w td tid msg
               (match create_browser_agent w with Ok _ => true | Raise _ => false end) in
    execute_task w td tid sv = (sv', Ok r) /\
    run_state tid (task_storage sv)
      (fun ti => ended w ti0 r ti /\ info_status ti = failed /\
                 info_error ti = Some msg) (close_calls sv + k) sv'.
Proof.
  intros Hti Hsetup Hf Huniq Hnotclean.
  pose proof (execute_task_ends w td tid (task_storage sv) ti0 (close_calls sv) sv
                (run_state_now sv ti0 Hti)) as H.
  destruct (execute_task w td tid sv) as [sv' [r|m]].
  - destruct H as [_ [(_ & h & r0 & Hc & Hr & Hcount & Hclose & _) | (msg' & k' & Hf' & -> & Hs)]].
    + exfalso. destruct Hnotclean as [Hn | ->]; [done |].
      destruct Hf as [m Hc' | m Hc' Hr' | h' m Hc' Hr' Hb | h' m Hc' Hr' Hcount' Hclose'];
        try congruence.
      rewrite Hr in Hr'. injection Hr' as <-.
      destruct Hcount as [Hb0 | [Hb0 [l Hl]]], Hb as [Hb | [Hb Hl']]; congruence.
    + destruct (Huniq msg' k' Hf') as [-> ->]. by exists sv'.
  - destruct H as [H _]. congruence.
Qed.

(** X11: a run changes no record but its own; for an id that is not in
    the store it raises [KeyError] at once and changes nothing at all. *)
Theorem a_run_touches_only_its_task (sv : server) :
  (forall other, other <> tid ->
     task_storage (execute_task w td tid sv).1 !! other = task_storage sv !! other) /\
  (task_storage sv !! tid = None ->
     exists msg, execute_task w td tid sv = (sv, Raise msg)).
Proof.
  assert (task_storage sv !! tid = None ->
          exists msg, execute_task w td tid sv = (sv, Raise msg)) as Hnone.
  { intros H. unfold execute_task, mbind, M_bind, bindM, set_status. rewrite H. eauto. }
  split; [| done]. intros other Hne.
  destruct (task_storage sv !! tid) as [ti0|] eqn:Hti;
    [| by destruct (Hnone eq_refl) as [msg ->]].
  pose proof (execute_task_ends w td tid (task_storage sv) ti0 (close_calls sv) sv
                (run_state_now sv ti0 Hti)) as H.
  destruct (execute_task w td tid sv) as [sv' [r|m]]; cbn [fst].
  - destruct H as [_ [((_ & Ho & _) & _) | (msg & k & _ & _ & (_ & Ho & _))]];
      by apply Ho.
  - destruct H as [_ (_ & Ho & _)]. by apply Ho.
Qed.

(** X12: after a run of a task that is in the store, the endpoints give
    back what the run returned: [GET /task-results] answers the very
    result; the record, which [GET /task-status] shows, is completed or
    failed, has its end time and keeps its start time and instructions,
    and a failed record carries the error of the result, which has no
    step.  When the run raised instead (the logging could not be set up),
    the task stays running and [GET /task-results] answers 400. *)
Theorem finished_run_can_be_read_back (sv : server) (ti0 : task_info) :
  task_storage sv !! tid = Some ti0 ->
  match execute_task w td tid sv with
  | (sv', Ok r) =>
      get_task_results sv' tid = Reply (Some r) /\
      exists ti,
        task_storage sv' !! tid = Some ti /\
        get_task_status sv' tid = Reply ti /\
        end_time ti = Some (end_iso w) /\
        start_time ti = start_time ti0 /\ instructions ti = instructions ti0 /\
        (info_status ti = completed \/
         (info_status ti = failed /\ info_error ti = error r /\
          success r = false /\ execution_steps r = []))
  | (sv', Raise msg) =>
      setup_error w = Some msg /\
      get_task_results sv' tid = HTTPException 400 "Task is still running"
  end.
Proof.
  intros Hti.
  pose proof (execute_task_ends w td tid (task_storage sv) ti0 (close_calls sv) sv
                (run_state_now sv ti0 Hti)) as H.
  destruct (execute_task w td tid sv) as [sv' [r|m]].
  - destruct H as [_ [(((ti & Hl & ((Hst & Hi & _) & He & Hres) & Hs & _) & _) & _)
                     | (msg & k & _ & -> & ((ti & Hl & ((Hst & Hi & _) & He & Hres) & Hs & Herr) & _))]];
      unfold get_task_results, get_task_status; rewrite Hl, Hs, Hres;
      (split; [done |]); exists ti; repeat split; eauto.
  - destruct H as [Hsetup ((ti & Hl & (_ & Hs & _)) & _)].
    split; [done |]. unfold get_task_results. by rewrite Hl, Hs.
Qed.

(** X13: when the browser agent cannot be created, the task ends failed
    with the message "Error creating browser agent: ...", no call of
    [browser.close()] is made, and the result names no file of agent
    thoughts. *)
Theorem failed_creation_never_opens_a_browser
    (sv : server) (ti0 : task_info) (msg : string) :
  task_storage sv !! tid = Some ti0 ->
  setup_error w = None -> create_browser_agent w = Raise msg ->
  exists sv' r,
    execute_task w td tid sv = (sv', Ok r) /\
    status_in sv' tid = Some failed /\
    info_error <$> task_storage sv' !! tid = Some (Some msg) /\
    close_calls sv' = close_calls sv /\
    success r = false /\ error r = Some msg /\
    extra_files r = log_files w tid /\
    exists cause, msg = "Error creating browser agent: " +:+ cause.
Proof.
  intros Hti Hsetup Hc.
  destruct (failed_run sv ti0 msg 0 Hti Hsetup) as (sv' & Hrun & (ti & Hl & _ & Hs & Herr) & _ & Hn).
  - by constructor.
  - intros msg' k' Hf. destruct Hf; split; congruence.
  - by right.
  - eexists sv', _. split; [exact Hrun |].
    unfold status_in. rewrite Hl, Hc. cbn. rewrite Hs, Herr, Hn, Nat.add_0_r.
    repeat split.
    unfold create_browser_agent in Hc.
    destruct (api_key w); [destruct (create_error w) as [c|]; [| done] |];
      injection Hc as <-; eauto.
Qed.

(** X14: when the run and the normalisation went well but
    [browser.close()] raises, the task ends failed with that message after
    exactly one call of [browser.close()], and the result that is stored
    has lost the steps and the screenshots of the run. *)
Theorem failed_close_fails_the_task
    (sv : server) (ti0 : task_info) (h : value) (msg : string) :
  task_storage sv !! tid = Some ti0 ->
  setup_error w = None -> create_browser_agent w = Ok tt ->
  run w = Ok h -> countable h -> close_error w = Some msg ->
  exists sv' r,
    execute_task w td tid sv = (sv', Ok r) /\
    get_task_results sv' tid = Reply (Some r) /\
    status_in sv' tid = Some failed /\
    info_error <$> task_storage sv' !! tid = Some (Some msg) /\
    close_calls sv' = S (close_calls sv) /\
    success r = false /\ error r = Some msg /\
    execution_steps r = [] /\ screenshots r = [].
Proof.
  intros Hti Hsetup Hc Hr Hcount Hclose.
  destruct (failed_run sv ti0 msg 1 Hti Hsetup) as (sv' & Hrun & (ti & Hl & (_ & _ & Hres) & Hs & Herr) & _ & Hn).
  - by eapply fails_to_close.
  - intros msg' k' Hf.
    destruct Hf as [m Hc' | m Hc' Hr' | h' m Hc' Hr' Hb | h' m Hc' Hr' Hcount' Hclose'];
      try (split; congruence).
    rewrite Hr in Hr'. injection Hr' as <-.
    destruct Hcount as [Hb0 | [Hb0 [l Hl]]], Hb as [Hb | [Hb Hl']]; congruence.
  - left. congruence.
  - eexists sv', _. split; [exact Hrun |].
    unfold get_task_results, status_in. rewrite Hl. cbn. rewrite Hs, Herr, Hres, Hn.
    repeat split. lia.
Qed.

(** X15: a run in which nothing raises ends completed after one call of
    [browser.close()]; the result that is stored and returned is the
    result of the normaliser for the history of the agent, with the same
    success flag, error and steps, followed in [screenshots] and in
    [screenshot_urls] by the initial and then the final manual capture,
    when they were taken. *)
Theorem completed_run_stores_the_normalised_result
    (sv : server) (ti0 : task_info) (h : value) :
  task_storage sv !! tid = Some ti0 ->
  setup_error w = None -> create_browser_agent w = Ok tt ->
  run w = Ok h -> countable h -> close_error w = None ->
  exists sv' r r0,
    execute_task w td tid sv = (sv', Ok r) /\
    save_execution_results (files w) h td tid = Ok r0 /\
    get_task_results sv' tid = Reply (Some r) /\
    status_in sv' tid = Some completed /\
    close_calls sv' = S (close_calls sv) /\
    success r = success r0 /\ error r = error r0 /\
    execution_steps r = execution_steps r0 /\
    screenshots r =
      (screenshots r0 ++ manual_path (initial_shot w) ++ manual_path (final_shot w))%list /\
    screenshot_urls r =
      (screenshot_urls r0 ++ manual_url (initial_shot w) ++ manual_url (final_shot w))%list.
Proof.
  intros Hti Hsetup Hc Hr Hcount Hclose.
  destruct (clean_run sv ti0 h Hti Hsetup Hc Hr Hcount Hclose)
    as (sv' & r0 & Hsave & Hrun & (ti & Hl & (_ & _ & Hres) & Hs & _) & _ & Hn).
  destruct (decorated_fields r0) as (H1 & H2 & H3 & _ & H5 & H6 & _).
  exists sv', (decorated w tid r0), r0.
  unfold get_task_results, status_in. rewrite Hl. cbn. rewrite Hs, Hres.
  by repeat split.
Qed.

(** X16: the status completed does not say that the run succeeded: when
    the agent returns an empty or absent history and nothing raises, the
    task ends completed and its result has [success = false] and no step. *)
Theorem completed_does_not_mean_success
    (sv : server) (ti0 : task_info) (h : value) :
  task_storage sv !! tid = Some ti0 ->
  setup_error w = None -> create_browser_agent w = Ok tt ->
  run w = Ok h -> countable h -> history_list_of h = Ok [] ->
  close_error w = None ->
  exists sv' r,
    execute_task w td tid sv = (sv', Ok r) /\
    status_in sv' tid = Some completed /\
    get_task_results sv' tid = Reply (Some r) /\
    success r = false /\ execution_steps r = [].
Proof.
  intros Hti Hsetup Hc Hr Hcount Hempty Hclose.
  destruct (clean_run sv ti0 h Hti Hsetup Hc Hr Hcount Hclose)
    as (sv' & r0 & Hsave & Hrun & (ti & Hl & (_ & _ & Hres) & Hs & _) & _ & Hn).
  destruct (decorated_fields r0) as (H1 & _ & H3 & _).
  destruct (save_execution_results_spec (files w) tid h td)
    as (r0' & err & Hsave' & Hb & _).
  rewrite Hsave in Hsave'. injection Hsave' as <-.
  assert (execution_steps r0 = [] /\ success r0 = false) as [Hsteps Hok].
  { inversion Hb as [| | l sis b Hl' Hne | pre bad post sis b m Hl']; subst; try done.
    - congruence.
    - rewrite Hempty in Hl'. injection Hl' as Hl'. by destruct pre. }
  exists sv', (decorated w tid r0).
  rewrite H1, H3. unfold get_task_results, status_in. rewrite Hl. cbn.
  rewrite Hs, Hres. by repeat split.
Qed.

(** X17: the analysis after a run.  After a run that completed, the
    analysis endpoint never answers 400 or 404: it answers the text of the
    analysis and leaves the results of the run readable as before, or 500
    when the analysis raises.  After a run that failed, and after a run
    that raised while the logging was set up, it answers 400 and changes
    nothing. *)
Theorem analysis_follows_the_run
    (sv : server) (ti0 : task_info) (agent_run : outcome string) :
  task_storage sv !! tid = Some ti0 ->
  match execute_task w td tid sv with
  | (sv', Ok r) =>
      (status_in sv' tid = Some completed /\
       match agent_run with
       | Ok content =>
           exists sv'',
             analyze_results w agent_run sv' tid = (sv'', Reply content) /\
             analysis <$> task_storage sv'' !! tid = Some (Some content) /\
             get_task_results sv'' tid = Reply (Some r)
       | Raise msg =>
           analyze_results w agent_run sv' tid =
             (sv', HTTPException 500 ("Analysis failed: " +:+ msg))
       end) \/
      (status_in sv' tid = Some failed /\
       analyze_results w agent_run sv' tid =
         (sv', HTTPException 400 "Task must be completed before analysis"))
  | (sv', Raise _) =>
      status_in sv' tid = Some running /\
      analyze_results w agent_run sv' tid =
        (sv', HTTPException 400 "Task must be completed before analysis")
  end.
Proof.
  intros Hti.
  pose proof (execute_task_ends w td tid (task_storage sv) ti0 (close_calls sv) sv
                (run_state_now sv ti0 Hti)) as H.
  destruct (execute_task w td tid sv) as [sv' [r|m]].
  - destruct H as [_ [(((ti & Hl & (_ & _ & Hres) & Hs & _) & _) & _ & _ & Hc & _)
                     | (msg & k & _ & _ & ((ti & Hl & _ & Hs & _) & _))]].
    + left. unfold status_in, analyze_results. rewrite Hl. cbn. rewrite Hs.
      split; [done |].
      assert (api_key w = true) as ->
        by (unfold create_browser_agent in Hc; by destruct (api_key w)).
      destruct agent_run as [content|msg]; [| done].
      eexists. split; [reflexivity |].
      unfold get_task_results. cbn [task_storage].
      rewrite lookup_insert_eq. cbn. by rewrite Hs, Hres.
    + right. unfold status_in, analyze_results. rewrite Hl. cbn. by rewrite Hs.
  - destruct H as [_ ((ti & Hl & _ & Hs & _) & _)].
    unfold status_in, analyze_results. rewrite Hl. cbn. by rewrite Hs.
Qed.

End RunProperties.

(** ** The further properties at sample inputs *)

Section FurtherRuns.
Import Py ApiServer Sample SampleRun SampleMore.

(** The record of the sample task in the sample store. *)
Lemma holding_lookup (s : status) :
  exists ti, task_storage (holding s) !! task = Some ti /\ info_status ti = s.
Proof. eexists. split; [by vm_compute | reflexivity]. Defined.

(** Without target URL, one step is enough for both analysers. *)
Lemma empty_target_url_counts_steps_witness :
  ResultsAnalyzer.ins_target_url (asked None) = None /\
  ResultsAnalyzer.target_url_accessed
    (Script.ResultsAnalyzer.compliance_check
       (Script.ResultsAnalyzer.analyze_results "20250601_120010" None
          (one_step "click") (asked None))) = true.
Proof.
  split; [reflexivity |].
  refine (proj2 (proj2 (empty_target_url_counts_steps "20250601_120010" None
                          (one_step "click") (asked None) (or_introl eq_refl))) _).
  discriminate.
Defined.

(** The endpoints at the empty store. *)
Lemma unknown_task_is_not_found_witness :
  task_storage fresh !! task = None /\
  get_task_results fresh task = HTTPException 404 "Task not found".
Proof.
  split; [by vm_compute |].
  refine (proj1 (proj2 (unknown_task_is_not_found calm (Ok "report") fresh task _))).
  by vm_compute.
Defined.

(** The analysis of the sample task, completed. *)
Lemma analysis_only_adds_the_analysis_witness :
  exists sv',
    analyze_results calm (Ok "report") (holding completed) task = (sv', Reply "report") /\
    get_task_results sv' task = get_task_results (holding completed) task.
Proof.
  destruct (holding_lookup completed) as (ti & Hti & Hst).
  destruct (analysis_only_adds_the_analysis calm (Ok "report") (holding completed)
              task ti Hti Hst) as (sv' & H & _ & _ & Hres & _).
  exists sv'. split; [exact H | exact Hres].
Defined.

(** A run of the sample task that completes, then its analysis. *)
Lemma analysis_follows_the_run_witness :
  exists sv' r,
    execute_task calm details task (holding pending) = (sv', Ok r) /\
    (analyze_results calm (Ok "report") sv' task).2 = Reply "report".
Proof.
  destruct (holding_lookup pending) as (ti & Hti & _).
  pose proof (analysis_follows_the_run calm details task (holding pending) ti
                (Ok "report") Hti) as H.
  destruct (execute_task calm details task (holding pending)) as [sv' [r|m]] eqn:He;
    [| by vm_compute in He].
  exists sv', r. split; [reflexivity |].
  destruct H as [[_ (sv'' & -> & _)] | [Hf _]]; [reflexivity |].
  exfalso. vm_compute in He. injection He as <- _. by vm_compute in Hf.
Defined.

(** A run of the sample task, read back. *)
Lemma finished_run_can_be_read_back_witness :
  exists sv' r,
    execute_task calm details task (holding pending) = (sv', Ok r) /\
    get_task_results sv' task = Reply (Some r).
Proof.
  destruct (holding_lookup pending) as (ti & Hti & _).
  pose proof (finished_run_can_be_read_back calm details task (holding pending) ti Hti)
    as H.
  destruct (execute_task calm details task (holding pending)) as [sv' [r|m]] eqn:He;
    [| by vm_compute in He].
  exists sv', r. split; [reflexivity | exact (proj1 H)].
Defined.

(** A run without API key. *)
Lemma failed_creation_never_opens_a_browser_witness :
  create_browser_agent no_key =
    Raise "Error creating browser agent: GEMINI_API_KEY not configured" /\
  exists sv' r,
    execute_task no_key details task (holding pending) = (sv', Ok r) /\
    status_in sv' task = Some failed /\ close_calls sv' = 0.
Proof.
  split; [reflexivity |].
  destruct (holding_lookup pending) as (ti & Hti & _).
  destruct (failed_creation_never_opens_a_browser no_key details task (holding pending)
              ti _ Hti eq_refl eq_refl) as (sv' & r & He & Hs & _ & Hn & _).
  exists sv', r. split; [exact He |]. split; [exact Hs | exact Hn].
Defined.

(** A run in which [browser.close()] raises. *)
Lemma failed_close_fails_the_task_witness :
  countable one_pair /\
  exists sv' r,
    execute_task stuck details task (holding pending) = (sv', Ok r) /\
    status_in sv' task = Some failed /\ close_calls sv' = 1 /\
    error r = Some "Target closed".
Proof.
  assert (countable one_pair) as Hc
    by (right; split; [reflexivity | eexists; reflexivity]).
  split; [exact Hc |].
  destruct (holding_lookup pending) as (ti & Hti & _).
  destruct (failed_close_fails_the_task stuck details task (holding pending)
              ti one_pair "Target closed" Hti eq_refl eq_refl eq_refl Hc eq_refl)
    as (sv' & r & He & _ & Hs & _ & Hn & _ & Herr & _).
  exists sv', r. split; [exact He |]. split; [exact Hs |]. split; [exact Hn | exact Herr].
Defined.

(** A run with one screenshot in the history and an initial manual
    capture. *)
Lemma completed_run_stores_the_normalised_result_witness :
  exists sv' r,
    execute_task busy details task (holding pending) = (sv', Ok r) /\
    status_in sv' task = Some completed /\
    screenshots r =
      ["operation_logs/screenshots/task_20250601_120000_000001_step_1_20250601_120000.png";
       "operation_logs/screenshots/task_20250601_120000_000001_initial_20250601_120002.png"].
Proof.
  destruct (holding_lookup pending) as (ti & Hti & _).
  destruct (completed_run_stores_the_normalised_result busy details task (holding pending)
              ti (py_list_of [shot_entry] "[<Step object>]") Hti eq_refl eq_refl eq_refl)
    as (sv' & r & r0 & He & Hsave & _ & Hs & _ & _ & _ & _ & Hshots & _).
  - right. split; [reflexivity | eexists; reflexivity].
  - reflexivity.
  - exists sv', r. split; [exact He |]. split; [exact Hs |].
    rewrite Hshots. vm_compute in Hsave. injection Hsave as <-. reflexivity.
Defined.

(** A run in which the agent does nothing. *)
Lemma completed_does_not_mean_success_witness :
  history_list_of no_entries = Ok [] /\
  exists sv' r,
    execute_task idle details task (holding pending) = (sv', Ok r) /\
    status_in sv' task = Some completed /\ success r = false.
Proof.
  split; [reflexivity |].
  destruct (holding_lookup pending) as (ti & Hti & _).
  destruct (completed_does_not_mean_success idle details task (holding pending)
              ti no_entries Hti eq_refl eq_refl eq_refl)
    as (sv' & r & He & Hs & _ & Hok & _).
  - left. reflexivity.
  - reflexivity.
  - reflexivity.
  - exists sv', r. split; [exact He |]. split; [exact Hs | exact Hok].
Defined.

End FurtherRuns.

(** ** The names of the files *)

Section Names.

Lemma string_app_assoc (a b c : string) : (a +:+ b) +:+ c = a +:+ (b +:+ c).
Proof.
  induction a as [|x a IH]; [reflexivity | exact (f_equal (String x) IH)].
Qed.

Lemma all_digits_app (a b : string) :
  all_digits (a +:+ b) = all_digits a && all_digits b.
Proof.
  induction a as [|x a IH]; simpl; [done |]. by rewrite IH, andb_assoc.
Qed.

Lemma pretty_N_char_digit (x : N) : is_digit (pretty_N_char x) = true.
Proof. unfold pretty_N_char. by repeat case_match. Qed.

Lemma pretty_N_go_digits (x : N) :
  forall s, exists d, pretty_N_go x s = d +:+ s /\ all_digits d = true.
Proof.
  induction (N.lt_wf_0 x) as [x _ IH]. intros s.
  destruct (decide (x = 0)%N) as [-> | Hx].
  - exists "". by rewrite pretty_N_go_0.
  - rewrite pretty_N_go_step by lia.
    destruct (IH (x `div` 10)%N ltac:(apply N.div_lt; lia)
                (String (pretty_N_char (x `mod` 10)) s)) as (d & -> & Hd).
    exists (d +:+ String (pretty_N_char (x `mod` 10)) "").
    rewrite string_app_assoc, all_digits_app, Hd. simpl.
    by rewrite pretty_N_char_digit.
Qed.

Lemma pretty_nat_digits (n : nat) : all_digits (pretty n) = true.
Proof.
  unfold pretty, pretty_nat, pretty, pretty_N. case_decide; [done |].
  destruct (pretty_N_go_digits (N.of_nat n) "") as (d & -> & Hd).
  by rewrite all_digits_app, Hd.
Qed.

(** A number ends where the underscore is. *)
Lemma digits_then_underscore (a b r r' : string) :
  all_digits a = true -> all_digits b = true ->
  a +:+ "_" +:+ r = b +:+ "_" +:+ r' -> a = b /\ r = r'.
Proof.
  revert b. induction a as [|x a IH]; intros [|y b] Ha Hb H; simpl in Ha, Hb.
  - injection H as H. split; [done | exact H].
  - injection H as <- _. by apply andb_true_iff in Hb as [Hy _].
  - injection H as -> _. by apply andb_true_iff in Ha as [Hx _].
  - injection H as -> H.
    apply andb_true_iff in Ha as [_ Ha]. apply andb_true_iff in Hb as [_ Hb].
    by destruct (IH b Ha Hb H) as [-> ->].
Qed.

Lemma numbered_name_inj (n m : nat) (r r' : string) :
  pretty n +:+ "_" +:+ r = pretty m +:+ "_" +:+ r' -> n = m /\ r = r'.
Proof.
  intros H.
  destruct (digits_then_underscore _ _ _ _ (pretty_nat_digits n) (pretty_nat_digits m) H)
    as [Hn ->].
  split; [by apply (inj pretty) | done].
Qed.

End Names.

(** ** The tools of the agent *)

Section ToolProperties.
Import Py ApiServer Tools.

Variable task_id : option string.


Ltac run := unfold mbind, mret, M_bind, M_ret, bindM, ret, lift, try_except in *.

Lemma string_app_nil_r (a : string) : a +:+ "" = a.
Proof. induction a as [|x a IH]; [reflexivity | exact (f_equal (String x) IH)]. Qed.

Lemma session_eta (s : session) : {| logger := logger s; disk := disk s |} = s.
Proof. by destruct s. Qed.


Lemma log_thought_exact (m : moment) (message : string) (s : session) :
  log_thought m message s =
    match open_error m (log_file (logger s)) with
    | Some e => (s, Raise e)
    | None =>
        ({| logger := logger s;
            disk := <[log_file (logger s) :=
                        content (disk s) (log_file (logger s)) +:+
                        "[" +:+ clock_text m +:+ "] " +:+ message +:+ nl]> (disk s) |},
         Ok ("Logged: " +:+ message))
    end.
Proof.
  unfold log_thought, self, on_disk, append_file; run.
  destruct (open_error m _); [by rewrite session_eta | done].
Qed.











End ToolProperties.

(** ** The counter of the logger *)

Section LoggerProperties.
Import Py ApiServer Tools.

Ltac run := unfold mbind, mret, M_bind, M_ret, bindM, ret, lift, try_except in *.

Lemma get_screenshot_path_exact (m : moment) (s : session) :
  get_screenshot_path m s =
    let n := S (screenshot_count (logger s)) in
    let name :=
      logger_task_id (logger s) +:+ "_agent_" +:+ pretty n +:+ "_" +:+
      clock_stamp m +:+ ".png" in
    ({| logger := {| logger_task_id := logger_task_id (logger s);
                     screenshot_count := n |};
        disk := disk s |},
     Ok (screenshots_dir +:+ "/" +:+ name, "/screenshots/" +:+ name)).
Proof. reflexivity. Qed.

(** A call of a method keeps the task of the logger and never lowers its
    counter. *)
Lemma logger_call_counts (s s' : session) :
  logger_call s s' ->
  logger_task_id (logger s') = logger_task_id (logger s) /\
  screenshot_count (logger s) <= screenshot_count (logger s').
Proof.
  intros [m msg s0 | m d s0 | m s0].
  - rewrite log_thought_exact. by destruct (open_error m _).
  - unfold save_screenshot, next_count, self; run.
    rewrite log_thought_exact. cbn [logger disk].
    destruct (open_error m _); cbn; split; (done || lia).
  - rewrite get_screenshot_path_exact. cbn. split; (done || lia).
Qed.

Lemma logger_calls_count (s s' : session) :
  rtc logger_call s s' ->
  logger_task_id (logger s') = logger_task_id (logger s) /\
  screenshot_count (logger s) <= screenshot_count (logger s').
Proof.
  induction 1 as [s | s1 s2 s3 Hcall _ [IH1 IH2]]; [done |].
  destruct (logger_call_counts _ _ Hcall) as [H1 H2].
  split; [congruence | lia].
Qed.

(** X21: the paths that [AgentLogger.get_screenshot_path] hands out are
    never used twice: whatever methods of the logger are called in
    between, and whatever the clock says, a later call gives another file
    and another URL than an earlier one. *)
Theorem logger_paths_are_fresh (m1 m2 : moment) (s1 s2 : session) :
  rtc logger_call (get_screenshot_path m1 s1).1 s2 ->
  exists p1 u1 p2 u2,
    (get_screenshot_path m1 s1).2 = Ok (p1, u1) /\
    (get_screenshot_path m2 s2).2 = Ok (p2, u2) /\
    p1 <> p2 /\ u1 <> u2.
Proof.
  intros Hcalls. apply logger_calls_count in Hcalls as [Htid Hcount].
  rewrite get_screenshot_path_exact in Htid, Hcount. cbn in Htid, Hcount.
  rewrite !get_screenshot_path_exact. cbv zeta. cbn [snd].
  eexists _, _, _, _. split; [reflexivity |]. split; [reflexivity |].
  rewrite Htid.
  assert (forall a b : string,
            logger_task_id (logger s1) +:+ "_agent_" +:+
              pretty (S (screenshot_count (logger s1))) +:+ "_" +:+ a =
            logger_task_id (logger s1) +:+ "_agent_" +:+
              pretty (S (screenshot_count (logger s2))) +:+ "_" +:+ b -> False) as Hname.
  { intros a b H. apply (inj (String.app _)) in H.
    apply (inj (String.app "_agent_")) in H.
    apply numbered_name_inj in H as [H _]. lia. }
  split; intros H.
  - apply (inj (String.app screenshots_dir)) in H.
    apply (inj (String.app "/")) in H. by apply Hname in H.
  - apply (inj (String.app "/screenshots/")) in H. by apply Hname in H.
Qed.

End LoggerProperties.

(** ** The manual captures *)

Section CaptureProperties.
Import Py ApiServer Tools.

Ltac run := unfold mbind, mret, M_bind, M_ret, bindM, ret, lift, try_except in *.

(** One method stores the screenshot when it has one and the file can be
    opened, and does nothing otherwise. *)
Lemma capture_with_exact (m : moment) (page : outcome (option (outcome string)))
    (path : string) (d : gmap string string) :
  capture_with m page path d =
    match usable page, open_error m path with
    | Some data, None => (<[path := data]> d, Ok true)
    | _, _ => (d, Ok false)
    end.
Proof.
  unfold capture_with, write_file, usable; run.
  destruct page as [[[data|e]|]|e]; try done.
  by destruct (open_error m path).
Qed.

Lemma capture_manual_screenshot_exact (m : moment) (v : browser_view)
    (task_id step_name : string) (d : gmap string string) :
  capture_manual_screenshot m v task_id step_name d =
    match has_browser v, open_error m (manual_shot_path task_id step_name (clock_stamp m)),
          first_shot v with
    | Ok true, None, Some data =>
        (<[manual_shot_path task_id step_name (clock_stamp m) := data]> d,
         Ok (Some (manual_shot_path task_id step_name (clock_stamp m),
                   manual_shot_url task_id step_name (clock_stamp m))))
    | _, _, _ => (d, Ok None)
    end.
Proof.
  unfold capture_manual_screenshot, first_shot.
  fold (manual_shot_path task_id step_name (clock_stamp m)).
  fold (manual_shot_url task_id step_name (clock_stamp m)).
  unfold mbind, M_bind, bindM, try_except, lift.
  destruct (has_browser v) as [[|]|e]; try done.
  destruct (open_error m (manual_shot_path task_id step_name (clock_stamp m)))
    as [e|] eqn:Ho;
    destruct (usable (current_page v)) eqn:H1, (usable (context_pages v)) eqn:H2,
      (usable (private_pages v)) eqn:H3;
    repeat (rewrite capture_with_exact, ?Ho, ?H1, ?H2, ?H3; cbv beta iota zeta);
    reflexivity.
Qed.


End CaptureProperties.

(** ** The screenshots of a run *)

Section ScreenshotsOfARun.
Import Py ApiServer Tools.

Variables (w : world) (td : task_details) (tid : string).

Ltac letters H := cbv beta iota zeta delta [String.append] in H.

Lemma shot_url_inj (e : env) (n m : nat) :
  "/screenshots/" +:+ shot_name e tid n = "/screenshots/" +:+ shot_name e tid m -> n = m.
Proof.
  intros H. apply (inj (String.app "/screenshots/")) in H. by apply shot_name_inj in H.
Qed.

Lemma distinct_numbers_distinct_urls (e : env) (l : list step_info) :
  NoDup (step_number <$> l) -> Forall (shot_fields_ok e tid) l ->
  NoDup (omap screenshot_url l).
Proof.
  induction l as [|si l IH]; intros Hnd Hok; [constructor |].
  rewrite fmap_cons in Hnd. apply NoDup_cons in Hnd as [Hfresh Hnd].
  apply Forall_cons in Hok as [Hsi Hok]. specialize (IH Hnd Hok).
  cbn [omap list_omap]. destruct (screenshot_url si) as [p|] eqn:Hp; [| done].
  apply NoDup_cons. split; [| done].
  intros Hin. apply list_elem_of_omap in Hin as (sj & Hj & Hpj).
  rewrite Forall_forall in Hok. specialize (Hok sj Hj).
  destruct Hsi as [[_ Hs] | [_ Hs]]; [congruence |].
  destruct Hok as [[_ Hs'] | [_ Hs']]; [congruence |].
  rewrite Hp in Hs. rewrite Hpj in Hs'. rewrite Hs in Hs'.
  injection Hs' as Hs'. simpl in Hs'.
  apply shot_name_inj in Hs'. apply Hfresh. rewrite Hs'.
  by apply list_elem_of_fmap_2.
Qed.

(** The screenshots of the steps are named after the steps. *)
Lemma step_shots_named (e : env) (l : list step_info) :
  Forall (shot_fields_ok e tid) l ->
  (forall p, p ∈ omap screenshot l ->
     exists n, p = "operation_logs/screenshots/" +:+ shot_name e tid n) /\
  (forall u, u ∈ omap screenshot_url l ->
     exists n, u = "/screenshots/" +:+ shot_name e tid n).
Proof.
  intros Hok. rewrite Forall_forall in Hok.
  split; intros x Hx; apply list_elem_of_omap in Hx as (si & Hsi & Hx);
    destruct (Hok si Hsi) as [[H1 H2] | [H1 H2]]; try congruence;
    exists (step_number si); congruence.
Qed.

(** The file of a step is no file of a manual capture. *)
Lemma step_shot_is_no_manual_shot (e : env) (n : nat) (step_name stamp : string) :
  step_name = "initial" \/ step_name = "final" ->
  "operation_logs/screenshots/" +:+ shot_name e tid n <>
    manual_shot_path tid step_name stamp /\
  "/screenshots/" +:+ shot_name e tid n <> manual_shot_url tid step_name stamp.
Proof.
  intros [-> | ->]; split; intros H;
    unfold manual_shot_path, manual_shot_url, manual_shot_name, shot_name in H.
  - change (screenshots_dir +:+ "/" +:+ tid +:+ "_" +:+ "initial" +:+ "_" +:+ stamp +:+ ".png")
      with ("operation_logs/screenshots/" +:+ tid +:+ "_initial_" +:+ stamp +:+ ".png") in H.
    apply (inj (String.app "operation_logs/screenshots/")) in H.
    apply (inj (String.app tid)) in H. letters H. discriminate H.
  - change ("/screenshots/" +:+ tid +:+ "_" +:+ "initial" +:+ "_" +:+ stamp +:+ ".png")
      with ("/screenshots/" +:+ tid +:+ "_initial_" +:+ stamp +:+ ".png") in H.
    apply (inj (String.app "/screenshots/")) in H.
    apply (inj (String.app tid)) in H. letters H. discriminate H.
  - change (screenshots_dir +:+ "/" +:+ tid +:+ "_" +:+ "final" +:+ "_" +:+ stamp +:+ ".png")
      with ("operation_logs/screenshots/" +:+ tid +:+ "_final_" +:+ stamp +:+ ".png") in H.
    apply (inj (String.app "operation_logs/screenshots/")) in H.
    apply (inj (String.app tid)) in H. letters H. discriminate H.
  - change ("/screenshots/" +:+ tid +:+ "_" +:+ "final" +:+ "_" +:+ stamp +:+ ".png")
      with ("/screenshots/" +:+ tid +:+ "_final_" +:+ stamp +:+ ".png") in H.
    apply (inj (String.app "/screenshots/")) in H.
    apply (inj (String.app tid)) in H. letters H. discriminate H.
Qed.

(** The initial capture and the final capture have different files. *)
Lemma initial_is_not_final (stamp stamp' : string) :
  manual_shot_path tid "initial" stamp <> manual_shot_path tid "final" stamp' /\
  manual_shot_url tid "initial" stamp <> manual_shot_url tid "final" stamp'.
Proof.
  split; intros H; unfold manual_shot_path, manual_shot_url, manual_shot_name in H.
  - apply (inj (String.app screenshots_dir)) in H.
    apply (inj (String.app "/")) in H.
    apply (inj (String.app tid)) in H. letters H. discriminate H.
  - apply (inj (String.app "/screenshots/")) in H.
    apply (inj (String.app tid)) in H. letters H. discriminate H.
Qed.

(** What a manual capture adds to the lists of a result. *)
Lemma manual_entries (m : moment) (v : browser_view) (step_name : string)
    (d : gmap string string) (answer : option (string * string)) :
  (capture_manual_screenshot m v tid step_name d).2 = Ok answer ->
  (forall p, p ∈ manual_path answer ->
     p = manual_shot_path tid step_name (clock_stamp m)) /\
  (forall u, u ∈ manual_url answer ->
     u = manual_shot_url tid step_name (clock_stamp m)) /\
  NoDup (manual_path answer) /\ NoDup (manual_url answer) /\
  length (manual_path answer) = length (manual_url answer).
Proof.
  rewrite capture_manual_screenshot_exact. intros H.
  assert (answer = None \/
          answer = Some (manual_shot_path tid step_name (clock_stamp m),
                         manual_shot_url tid step_name (clock_stamp m))) as [-> | ->].
  { destruct (has_browser v) as [[|]|e]; [| injection H as <-; by left..].
    destruct (open_error m _); [injection H as <-; by left |].
    destruct (first_shot v); injection H as <-; [by right | by left]. }
  - cbn. repeat split; (constructor || by intros ? ?%elem_of_nil).
  - cbn. repeat split; try apply NoDup_singleton; by intros ? ->%list_elem_of_singleton.
Qed.

Lemma NoDup_three (l a b : list string) :
  NoDup l -> NoDup a -> NoDup b ->
  (forall x, x ∈ l -> x ∉ a) -> (forall x, x ∈ l -> x ∉ b) ->
  (forall x, x ∈ a -> x ∉ b) ->
  NoDup (l ++ a ++ b).
Proof.
  intros Hl Ha Hb Hla Hlb Hab. apply NoDup_app. split; [done |]. split.
  - intros x Hx [Hin | Hin]%elem_of_app; [by eapply Hla | by eapply Hlb].
  - apply NoDup_app. by repeat split.
Qed.

(** X23: no result of a run of the service lists a screenshot twice.  When
    the two manual captures of the run are what
    [capture_manual_screenshot] answers for the steps "initial" and
    "final" of the task, the screenshots of the result are all different
    files, their URLs are all different, and there are as many files as
    URLs, whether the run completed or failed. *)
Theorem a_run_lists_no_screenshot_twice
    (sv : server) (m1 m2 : moment) (v1 v2 : browser_view) (d1 d2 : gmap string string) :
  (capture_manual_screenshot m1 v1 tid "initial" d1).2 = Ok (initial_shot w) ->
  (capture_manual_screenshot m2 v2 tid "final" d2).2 = Ok (final_shot w) ->
  match execute_task w td tid sv with
  | (_, Ok r) =>
      NoDup (screenshots r) /\ NoDup (screenshot_urls r) /\
      length (screenshots r) = length (screenshot_urls r)
  | (_, Raise _) => True
  end.
Proof.
  intros Hinitial Hfinal.
  destruct (task_storage sv !! tid) as [ti0|] eqn:Hti.
  2: { unfold execute_task, mbind, M_bind, bindM, set_status. by rewrite Hti. }
  pose proof (execute_task_ends w td tid (task_storage sv) ti0 (close_calls sv) sv
                (run_state_now tid sv ti0 Hti)) as H.
  destruct (execute_task w td tid sv) as [sv' [r|e]]; [| done].
  destruct H as [_ [(_ & h & r0 & _ & _ & _ & _ & Hsave & ->) | (msg & k & _ & -> & _)]].
  2: { cbn. repeat split; constructor. }
  destruct (decorated_fields w tid r0) as (_ & _ & _ & _ & -> & -> & _).
  destruct (save_execution_results_tidy (files w) tid h td)
    as (r0' & Hsave' & Hnum & Hok & Hp & Hu & _).
  rewrite Hsave in Hsave'. injection Hsave' as <-.
  assert (NoDup (step_number <$> execution_steps r0)) as Hnd
    by (rewrite Hnum; apply NoDup_seq).
  pose proof (distinct_numbers_distinct_files (files w) tid _ Hnd Hok) as Hfiles.
  pose proof (distinct_numbers_distinct_urls (files w) _ Hnd Hok) as Hurls.
  destruct (step_shots_named (files w) _ Hok) as [Hpn Hun].
  rewrite <- Hp in Hfiles, Hpn. rewrite <- Hu in Hurls, Hun.
  assert (length (screenshots r0) = length (screenshot_urls r0)) as Hlen.
  { rewrite Hp, Hu. clear -Hok.
    induction Hok as [|si l Hsi _ IH]; [done |]. cbn [omap list_omap].
    destruct Hsi as [[H1 H2] | [H1 H2]]; rewrite H1, H2; cbn; by rewrite ?IH. }
  destruct (manual_entries _ _ _ _ _ Hinitial) as (Hip & Hiu & Hindp & Hindu & Hilen).
  destruct (manual_entries _ _ _ _ _ Hfinal) as (Hfp & Hfu & Hfndp & Hfndu & Hflen).
  split; [| split].
  - apply NoDup_three; try done.
    + intros x [n ->]%Hpn Hx%Hip.
      by eapply (proj1 (step_shot_is_no_manual_shot _ _ _ _ (or_introl eq_refl))).
    + intros x [n ->]%Hpn Hx%Hfp.
      by eapply (proj1 (step_shot_is_no_manual_shot _ _ _ _ (or_intror eq_refl))).
    + intros x ->%Hip Hx%Hfp. by eapply (proj1 (initial_is_not_final _ _)).
  - apply NoDup_three; try done.
    + intros x [n ->]%Hun Hx%Hiu.
      by eapply (proj2 (step_shot_is_no_manual_shot _ _ _ _ (or_introl eq_refl))).
    + intros x [n ->]%Hun Hx%Hfu.
      by eapply (proj2 (step_shot_is_no_manual_shot _ _ _ _ (or_intror eq_refl))).
    + intros x ->%Hiu Hx%Hfu. by eapply (proj2 (initial_is_not_final _ _)).
  - rewrite !length_app. lia.
Qed.

End ScreenshotsOfARun.

(** ** The prompt *)

Section PromptProperties.
Import Py ApiServer Tools.

(** The loop appends the lines of the instructions, in their order. *)
Lemma add_requirements_lines (instrs : list screenshot_instruction) :
  forall (i : nat) (text : string),
    add_requirements i instrs text = text +:+ requirement_lines i instrs.
Proof.
  induction instrs as [|instr rest IH]; intros i text; cbn [add_requirements requirement_lines].
  - by rewrite string_app_nil_r.
  - by rewrite IH, string_app_assoc.
Qed.

Lemma occurs_app_l (t a b : string) : occurs t a -> occurs t (a +:+ b).
Proof.
  intros (pre & post & ->). exists pre, (post +:+ b). by rewrite !string_app_assoc.
Qed.

Lemma occurs_app_r (t a b : string) : occurs t b -> occurs t (a +:+ b).
Proof.
  intros (pre & post & ->). exists (a +:+ pre), post. by rewrite !string_app_assoc.
Qed.

Lemma occurs_here (t post : string) : occurs t (t +:+ post).
Proof. by exists "", post. Qed.

Lemma requirement_lines_lookup (instrs : list screenshot_instruction) :
  forall (i k : nat) (instr : screenshot_instruction),
    instrs !! k = Some instr ->
    occurs (requirement_line (i + k) instr) (requirement_lines i instrs).
Proof.
  induction instrs as [|first rest IH]; intros i k instr Hk; [done |].
  cbn [requirement_lines]. destruct k as [|k].
  - injection Hk as ->. rewrite Nat.add_0_r. apply occurs_here.
  - apply occurs_app_r. replace (i + S k)%nat with (S i + k)%nat by lia. by apply IH.
Qed.

(** X24: the prompt that the agent gets.  In both programs the prompt
    names the target URL and the task, and carries one line for each
    screenshot instruction, in the order of the instructions: the line of
    the instruction at position k has the number k + 1, the description or
    "N/A", and the file name or "screenshot_<k + 1>.png".  The lines are
    the same in both programs; the script ends with them, the service
    puts its reminder after them. *)
Theorem prompts_carry_every_requirement (td : task_details) :
  let lines := requirement_lines 0 (screenshot_instructions td) in
  (exists head,
     full_task td = head +:+ lines +:+ nl +:+ nl +:+
       "Remember to use the custom logging functions throughout your execution!" /\
     occurs ("Navigate to: " +:+ target_url td +:+ nl) head /\
     occurs ("Task: " +:+ task_description td +:+ nl) head) /\
  (exists head,
     script_full_task td = head +:+ lines /\
     occurs ("Navigate to: " +:+ target_url td +:+ nl) head /\
     occurs ("Task: " +:+ task_description td +:+ nl) head) /\
  (forall k instr,
     screenshot_instructions td !! k = Some instr ->
     occurs (requirement_line k instr) lines /\
     occurs (nl +:+ pretty (k + 1)%nat +:+ ". ") (requirement_line k instr) /\
     occurs (default "N/A" (step_description instr)) (requirement_line k instr) /\
     occurs (default ("screenshot_" +:+ pretty (k + 1)%nat +:+ ".png") (filename instr))
       (requirement_line k instr)).
Proof.
  cbv zeta. split; [| split].
  - unfold full_task.
    destruct (screenshot_instructions td) as [|instr rest] eqn:Hl.
    + exists (template (target_url td) (task_description td)).
      split; [reflexivity |]. unfold template. split.
      * exists (nl +:+ indent). eexists. rewrite !string_app_assoc. reflexivity.
      * exists (nl +:+ indent +:+ "Navigate to: " +:+ target_url td +:+ nl +:+
                indent +:+ nl +:+ indent).
        eexists. rewrite !string_app_assoc. reflexivity.
    + exists (template (target_url td) (task_description td) +:+ nl +:+
              "Additional Screenshot Requirements:").
      rewrite add_requirements_lines. split; [by rewrite !string_app_assoc |].
      unfold template. split.
      * exists (nl +:+ indent). eexists. rewrite !string_app_assoc. reflexivity.
      * exists (nl +:+ indent +:+ "Navigate to: " +:+ target_url td +:+ nl +:+
                indent +:+ nl +:+ indent).
        eexists. rewrite !string_app_assoc. reflexivity.
  - unfold script_full_task. rewrite add_requirements_lines.
    eexists. split; [reflexivity |]. split.
    + exists (nl +:+ indent). eexists. rewrite !string_app_assoc. reflexivity.
    + exists (nl +:+ indent +:+ "Navigate to: " +:+ target_url td +:+ nl +:+
              indent +:+ nl +:+ indent).
      eexists. rewrite !string_app_assoc. reflexivity.
  - intros k instr Hk. split; [| split; [| split]].
    + by apply (requirement_lines_lookup _ 0 k).
    + unfold requirement_line. exists "". eexists.
      rewrite !string_app_assoc. reflexivity.
    + unfold requirement_line. exists (nl +:+ pretty (k + 1)%nat +:+ ". "). eexists.
      rewrite !string_app_assoc. reflexivity.
    + unfold requirement_line.
      exists (nl +:+ pretty (k + 1)%nat +:+ ". " +:+
              default "N/A" (step_description instr) +:+ " (save as "), ")".
      rewrite !string_app_assoc. reflexivity.
Qed.

End PromptProperties.

(** ** The script *)

Section ScriptProperties.
Import Py Script.

Variable e : env.

Ltac run := unfold mbind, mret, M_bind, M_ret, bindM, ret, lift, modify, try_except in *.

Lemma script_add_step_tidy (si : step_info) (s : results) :
  script_tidy e s -> step_number si = S (length (execution_steps s)) ->
  screenshot si = None ->
  script_tidy e (add_step si s).
Proof.
  intros (Hnum & Hok & Hshots) Hn Hnone. unfold script_tidy. cbn [add_step execution_steps screenshots].
  rewrite fmap_app, length_app, Nat.add_1_r, seq_S, Hnum. cbn [fmap list_fmap].
  rewrite Hn. split; [done |]. split.
  - apply Forall_app. split; [done |]. apply Forall_singleton. by left.
  - rewrite omap_app. cbn [omap list_omap]. by rewrite Hnone, app_nil_r.
Qed.

Lemma script_add_shot_tidy (si : step_info) (s : results) :
  script_tidy e s -> step_number si = S (length (execution_steps s)) ->
  screenshot si = Some (script_shot_name e (step_number si)) ->
  script_tidy e (add_step si (add_screenshot (script_shot_name e (step_number si)) s)).
Proof.
  intros (Hnum & Hok & Hshots) Hn Hshot. unfold script_tidy.
  cbn [add_step add_screenshot execution_steps screenshots].
  rewrite fmap_app, length_app, Nat.add_1_r, seq_S, Hnum. cbn [fmap list_fmap].
  rewrite Hn at 1. split; [done |]. split.
  - apply Forall_app. split; [done |]. apply Forall_singleton. by right.
  - rewrite omap_app. cbn [omap list_omap]. by rewrite Hshot, Hshots.
Qed.

Lemma script_process_step_tidy (i : nat) (st : value) (s : results) :
  script_tidy e s -> length (execution_steps s) = i ->
  match process_step e i st s with
  | (s', Ok _) => script_tidy e s' /\ length (execution_steps s') = S i
  | (s', Raise _) => script_tidy e s'
  end.
Proof.
  intros Ht Hlen. unfold process_step; run.
  destruct (attr_text st "model_output") as [a|]; [| done].
  destruct (attr_text st "result") as [r|]; [| done].
  destruct (attr_timestamp st _) as [ts|]; [| done].
  assert (forall shot,
            shot = None ->
            script_tidy e (add_step {| step_number := i + 1; action := a; result := r;
                                       step_timestamp := ts; screenshot := shot |} s) /\
            length (execution_steps
                      (add_step {| step_number := i + 1; action := a; result := r;
                                   step_timestamp := ts; screenshot := shot |} s)) = S i)
    as Hplain.
  { intros shot ->. split.
    - apply script_add_step_tidy; [done | cbn; lia | done].
    - cbn. rewrite length_app. cbn. lia. }
  destruct (py_hasattr st "screenshot") as [[|]|]; [| by apply Hplain | done].
  destruct (py_getattr st "screenshot") as [shot|]; [| done].
  destruct (py_bool shot) as [[|]|]; [| by apply Hplain | done].
  destruct (store_screenshot e shot (screenshot_path e i)); [| by apply Hplain].
  change (screenshot_path e i) with (script_shot_name e (i + 1)).
  split.
  - apply (script_add_shot_tidy
             {| step_number := i + 1; action := a; result := r; step_timestamp := ts;
                screenshot := Some (script_shot_name e (i + 1)) |}); [done | cbn; lia | done].
  - cbn. rewrite length_app. cbn. lia.
Qed.

Lemma script_process_steps_tidy (l : list value) :
  forall (i : nat) (s : results),
    script_tidy e s -> length (execution_steps s) = i ->
    script_tidy e (process_steps e i l s).1.
Proof.
  induction l as [|st l IH]; intros i s Ht Hlen; [done |].
  cbn [process_steps]; run.
  pose proof (script_process_step_tidy i st s Ht Hlen) as H.
  destruct (process_step e i st s) as [s1 [[]|msg]]; [| done].
  destruct H as [H1 H2]. by apply IH.
Qed.

Lemma script_save_execution_results_tidy (history : value) (td : ApiServer.task_details) :
  exists r, save_execution_results e history td = Ok r /\ script_tidy e r.
Proof.
  assert (script_tidy e (initial_results e td)) as H0 by (by repeat split).
  assert (script_tidy e (process_history e history (initial_results e td)).1) as H1.
  { unfold process_history; run.
    destruct (py_bool history) as [[|]|]; [| done | done].
    destruct (v_iter history) as [[items stop]|]; [| done].
    pose proof (script_process_steps_tidy items 0 _ H0 eq_refl) as H.
    destruct (process_steps e 0 items (initial_results e td)) as [s1 [[]|msg]]; [| done].
    destruct stop; done. }
  unfold save_execution_results, save_body; run.
  destruct (process_history e history (initial_results e td)) as [s1 [[]|msg]];
    cbn [fst] in H1; destruct (dump_error e); cbn; eexists; (split; [reflexivity |]); done.
Qed.

Lemma script_shot_name_inj (n m : nat) :
  script_shot_name e n = script_shot_name e m -> n = m.
Proof.
  unfold script_shot_name. intros H.
  apply (inj (String.app "operation_logs/screenshots/step_")) in H.
  by apply numbered_name_inj in H as [H _].
Qed.

(** X25: the normaliser of the script keeps its lists in order.  Whatever
    the history, the steps of its result are numbered 1, 2, 3, ... in
    list order; [screenshots] lists the screenshot files of the steps in
    the order of the steps, each named "step_<number>_<time stamp>.png"
    after its step; and no file is listed twice. *)
Theorem script_steps_and_screenshots_in_order
    (history : value) (td : ApiServer.task_details) :
  exists r,
    save_execution_results e history td = Ok r /\
    (forall k si, execution_steps r !! k = Some si ->
       step_number si = (k + 1)%nat /\ script_shot_ok e si) /\
    screenshots r = omap screenshot (execution_steps r) /\
    NoDup (screenshots r).
Proof.
  destruct (script_save_execution_results_tidy history td) as (r & Hr & Hnum & Hok & Hshots).
  exists r. split; [done |]. split; [| split; [done |]].
  - intros k si Hk. split.
    + assert ((step_number <$> execution_steps r) !! k = Some (step_number si)) as H
        by (by rewrite list_lookup_fmap, Hk).
      rewrite Hnum in H. apply lookup_seq in H as [-> _]. lia.
    + rewrite Forall_forall in Hok. apply Hok. by eapply list_elem_of_lookup_2.
  - rewrite Hshots.
    assert (NoDup (step_number <$> execution_steps r)) as Hnd
      by (rewrite Hnum; apply NoDup_seq).
    clear -Hnd Hok. induction (execution_steps r) as [|si l IH]; [constructor |].
    rewrite fmap_cons in Hnd. apply NoDup_cons in Hnd as [Hfresh Hnd].
    apply Forall_cons in Hok as [Hsi Hok]. specialize (IH Hok Hnd).
    cbn [omap list_omap]. destruct (screenshot si) as [p|] eqn:Hp; [| done].
    apply NoDup_cons. split; [| done].
    intros Hin. apply list_elem_of_omap in Hin as (sj & Hj & Hpj).
    rewrite Forall_forall in Hok. specialize (Hok sj Hj).
    destruct Hsi as [Hs | Hs]; [congruence |].
    destruct Hok as [Hs' | Hs']; [congruence |].
    assert (script_shot_name e (step_number si) = script_shot_name e (step_number sj))
      as Hname by congruence.
    apply script_shot_name_inj in Hname.
    apply Hfresh. rewrite Hname. by apply list_elem_of_fmap_2.
Qed.

End ScriptProperties.

Section ScriptRun.
Import Py Script.

Ltac run := unfold mbind, mret, M_bind, M_ret, bindM, ret, lift, modify, try_except in *.

(** X26: the executor of the script never raises and always answers a
    result.  [browser.close()] is called once when the agent was created
    and its run returned, and not at all otherwise.  When nothing went
    wrong the result is the one of the normaliser; otherwise it is the
    error result with the first error, without steps and screenshots:
    when only [browser.close()] raises, the steps that the normaliser had
    collected are not in the result. *)
Theorem script_run_always_answers (w : world) (td : ApiServer.task_details) (n : nat) :
  exists r,
    execute_task w td n =
      ((n + match create_error w, run w with None, Ok _ => 1 | _, _ => 0 end)%nat, Ok r) /\
    match script_failure w with
    | Some msg =>
        r = error_result w td msg /\ success r = false /\ execution_steps r = [] /\
        screenshots r = [] /\ error r = Some msg
    | None =>
        exists h, run w = Ok h /\ save_execution_results (files w) h td = Ok r
    end.
Proof.
  unfold execute_task, script_failure, close_browser; run.
  destruct (create_error w) as [msg|].
  { eexists. split; [by rewrite Nat.add_0_r |]. by repeat split. }
  destruct (run w) as [h|msg].
  2: { eexists. split; [by rewrite Nat.add_0_r |]. by repeat split. }
  destruct (script_save_execution_results_tidy (files w) h td) as (r & Hr & _).
  rewrite Hr, Nat.add_1_r.
  destruct (close_error w) as [msg|]; cbn.
  - eexists. split; [reflexivity |]. by repeat split.
  - exists r. split; [reflexivity |]. exists h. by split.
Qed.

End ScriptRun.

(** ** The tools at sample inputs *)

Section ToolRuns.
Import Py ApiServer Tools Sample SampleRun SampleMore SampleTools.



(** Two paths asked one after the other. *)
Lemma logger_paths_are_fresh_witness :
  exists p1 u1 p2 u2,
    (get_screenshot_path noon box).2 = Ok (p1, u1) /\
    (get_screenshot_path noon (get_screenshot_path noon box).1).2 = Ok (p2, u2) /\
    p1 <> p2 /\ u1 <> u2.
Proof.
  apply (logger_paths_are_fresh noon noon box). apply rtc_refl.
Defined.

(** The run with one screenshot in the history and the initial capture. *)
Lemma a_run_lists_no_screenshot_twice_witness :
  (capture_manual_screenshot noon open_browser task "initial" ∅).2 = Ok (initial_shot busy) /\
  match execute_task busy details task (holding pending) with
  | (_, Ok r) => NoDup (screenshots r)
  | (_, Raise _) => True
  end.
Proof.
  assert ((capture_manual_screenshot noon open_browser task "initial" ∅).2 =
          Ok (initial_shot busy)) as Hi by (vm_compute; reflexivity).
  assert ((capture_manual_screenshot noon no_browser task "final" ∅).2 =
          Ok (final_shot busy)) as Hf by (vm_compute; reflexivity).
  split; [exact Hi |].
  pose proof (a_run_lists_no_screenshot_twice busy details task (holding pending)
                noon noon open_browser no_browser ∅ ∅ Hi Hf) as H.
  destruct (execute_task busy details task (holding pending)) as [sv' [r|e]];
    [exact (proj1 H) | exact I].
Defined.

End ToolRuns.

(** ** Reading the thoughts back *)

Section ThoughtsProperties.
Import Py ApiServer Tools Thoughts.

Lemma carriage_free_app a b :
  carriage_free (a +:+ b) = carriage_free a && carriage_free b.
Proof.
  induction a as [|c a IH]; [reflexivity |].
  change (String c a +:+ b) with (String c (a +:+ b)).
  cbn [carriage_free]. by rewrite IH, andb_assoc.
Qed.

(** Reading changes nothing in a text without carriage return. *)
Lemma universal_newlines_carriage_free s :
  carriage_free s = true -> universal_newlines false s = s.
Proof.
  induction s as [|c s IH]; [done |]. cbn [carriage_free universal_newlines].
  intros [Hc Hs]%andb_prop. destruct (Ascii.eqb c cr); [done |].
  rewrite andb_false_r. by rewrite IH.
Qed.

(** X27: what the agent logs can be read back.  For a task of the store
    whose logger wrote to the file of thoughts, when the directory yields
    this file first for the pattern of the task and the file can be
    opened and read, the endpoint answers the content of the file as text
    mode reads it (a carriage return, alone or before a line feed, is
    read as a line feed): after [log_action] this is the text that was
    there before, followed by the line "[<time>] ACTION: <message>".
    When neither the earlier text, nor the time, nor the message holds a
    carriage return, the answer is this text unchanged. *)
Theorem logged_thoughts_can_be_read_back
    (sv : server) (glob : string -> outcome (list string)) (m reading : moment)
    (message tid : string) (rest : list string) (s : session) :
  is_Some (task_storage sv !! tid) ->
  logger s = new_logger (Some tid) -> tid <> "" ->
  glob ("*" +:+ ("agent_thoughts_" +:+ tid +:+ ".txt") +:+ "*") =
    Ok (log_file (logger s) :: rest) ->
  open_error m (log_file (logger s)) = None ->
  open_error reading (log_file (logger s)) = None ->
  log_file (logger s) = "operation_logs/agent_thoughts_" +:+ tid +:+ ".txt" /\
  exists s',
    log_action m message s =
      (s', Ok {| extracted_content := "Logged action: " +:+ message;
                 include_in_memory := false |}) /\
    get_agent_thoughts sv glob reading (disk s') tid =
      Reply (universal_newlines false
               (content (disk s) (log_file (logger s)) +:+
                "[" +:+ clock_text m +:+ "] ACTION: " +:+ message +:+ nl)) /\
    (carriage_free (content (disk s) (log_file (logger s))) = true ->
     carriage_free (clock_text m) = true ->
     carriage_free message = true ->
     get_agent_thoughts sv glob reading (disk s') tid =
       Reply (content (disk s) (log_file (logger s)) +:+
              "[" +:+ clock_text m +:+ "] ACTION: " +:+ message +:+ nl)).
Proof.
  intros [ti Hti] Hlogger Hne Hglob Hopen Hread.
  assert (logger_task_id (logger s) = tid) as Htid.
  { rewrite Hlogger. cbn. destruct tid; [done | reflexivity]. }
  split; [unfold log_file; by rewrite Htid |].
  unfold log_action, mbind, M_bind, bindM. rewrite log_thought_exact, Hopen.
  eexists. split; [reflexivity |].
  match goal with |- ?answer = ?text /\ _ => assert (answer = text) as Hanswer end.
  { unfold get_agent_thoughts. rewrite Hti.
    rewrite Hglob. cbn [disk]. by rewrite lookup_insert_eq, Hread. }
  split; [exact Hanswer |].
  intros Hearlier Htime Hmessage. rewrite Hanswer. f_equal.
  apply universal_newlines_carriage_free.
  rewrite !carriage_free_app, Hearlier, Htime, Hmessage. reflexivity.
Qed.

(** The sample task logs one action and reads it back. *)
Lemma logged_thoughts_can_be_read_back_witness :
  exists s',
    (log_action SampleTools.noon "I open the page" SampleTools.box).1 = s' /\
    get_agent_thoughts (SampleRun.holding running)
      (fun _ => Ok [log_file (logger SampleTools.box)])
      SampleTools.noon (disk s') SampleRun.task =
    Reply ("[2025-06-01 12:00:02] ACTION: I open the page" +:+ nl).
Proof.
  destruct (logged_thoughts_can_be_read_back (SampleRun.holding running)
              (fun _ => Ok [log_file (logger SampleTools.box)])
              SampleTools.noon SampleTools.noon "I open the page" SampleRun.task []
              SampleTools.box)
    as (_ & s' & Hlog & _ & Hread); try reflexivity.
  - eexists. by vm_compute.
  - discriminate.
  - exists s'. rewrite Hlog. split; [reflexivity |]. by apply Hread.
Defined.

End ThoughtsProperties.
